(** * Speaker routers, tool adapters and the PDF-processing handler

    A shallow embedding of the control flow of
    - [cruise_promo/research.py]  ([state_transition], [bing_search]),
    - [cruise_promo/research3.py] ([state_transition_2]),
    - [agentchat_function_call_async.py] ([get_youtube_transcription]),
    - [process-lease-pdf/index.py] ([handler]),
    together with the properties the specification states about them.

    Python values are modelled as follows.  A [str] is a [string] whose
    characters are read as code points below 256.  A call either returns a
    value or raises; mutable objects (the group chat, the record store,
    standard output) live in an explicit state that every call threads.
    Writing to standard output succeeds: every such string can be
    encoded.  The texts of the built-in exceptions are those of
    CPython 3.11. *)

From Stdlib Require Import ZArith String Ascii List Bool Lia DecimalString.
From stdpp Require Import base option list strings gmap.

Local Open Scope string_scope.
Set Warnings "-register-all".

(** ** Exceptions and the state-and-exception monad *)

(** An exception object: its class name and [str(e)]. *)
Record exn := Exn { exn_class : string; exn_str : string }.

Inductive outcome (A : Type) : Type :=
| Returned (v : A)
| Raised (e : exn).
Arguments Returned {A} v.
Arguments Raised {A} e.

Module PyM.

(** A computation over a mutable state [S]: it ends by returning or by
    raising, and in both cases leaves a state behind. *)
Definition M (S A : Type) : Type := S -> outcome A * S.

Definition ret {S A} (v : A) : M S A := fun s => (Returned v, s).

Definition raise {S A} (e : exn) : M S A := fun s => (Raised e, s).

Definition bind {S A B} (m : M S A) (k : A -> M S B) : M S B :=
  fun s =>
    match m s with
    | (Returned v, s') => k v s'
    | (Raised e, s') => (Raised e, s')
    end.

(** [try: m except Exception as e: h e] *)
Definition try_except {S A} (m : M S A) (h : exn -> M S A) : M S A :=
  fun s =>
    match m s with
    | (Returned v, s') => (Returned v, s')
    | (Raised e, s') => h e s'
    end.

Definition gets {S A} (f : S -> A) : M S A := fun s => (Returned (f s), s).

Definition modify {S} (f : S -> S) : M S unit := fun s => (Returned tt, f s).

(** Lift a pure outcome (a call that touches no state). *)
Definition lift {S A} (o : outcome A) : M S A := fun s => (o, s).

(** Whatever [m] returns satisfies [P] (it may also raise). *)
Definition returns_only {S A} (m : M S A) (P : A -> Prop) : Prop :=
  forall s v s', m s = (Returned v, s') -> P v.

End PyM.

Import PyM.

Notation "x <~ m ;; k" := (bind m (fun x => k))
  (at level 100, m at next level, right associativity).
Notation "m ;;; k" := (bind m (fun _ => k))
  (at level 100, right associativity).

(** ** Python built-ins used by the sources *)

Module Py.

Definition IndexError : exn := Exn "IndexError" "list index out of range".

(** [repr(i)] of an [int]: its decimal digits, after a minus sign when
    it is negative. *)
Definition repr_int (i : Z) : string := NilZero.string_of_int (Z.to_int i).

(** [l[i]] on a list, negative indices counting from the end. *)
Definition getitem {A} (l : list A) (i : Z) : option A :=
  let n := Z.of_nat (List.length l) in
  let j := if (i <? 0)%Z then (i + n)%Z else i in
  if ((0 <=? j) && (j <? n))%Z then l !! Z.to_nat j else None.

Definition index {S A} (l : list A) (i : Z) : M S A :=
  match getitem l i with
  | Some x => ret x
  | None => raise IndexError
  end.

(** [s.startswith(p)] *)
Fixpoint startswith (p s : string) : bool :=
  match p, s with
  | EmptyString, _ => true
  | String _ _, EmptyString => false
  | String a p', String b s' => Ascii.eqb a b && startswith p' s'
  end.

(** [needle in hay] on strings: some position of [hay] starts with
    [needle]. *)
Fixpoint contains (needle hay : string) : bool :=
  startswith needle hay ||
  match hay with
  | EmptyString => false
  | String _ hay' => contains needle hay'
  end.

(** [str.isspace] on one character, for code points below 256: the
    controls 0x09-0x0D and 0x1C-0x1F, the space, NEL (0x85) and the
    no-break space (0xA0). *)
Definition isspace (c : ascii) : bool :=
  let n := nat_of_ascii c in
  (((9 <=? n) && (n <=? 13)) || ((28 <=? n) && (n <=? 32))
   || (n =? 133) || (n =? 160))%nat.

Fixpoint lstrip (s : string) : string :=
  match s with
  | EmptyString => EmptyString
  | String c s' => if isspace c then lstrip s' else s
  end.

Fixpoint rstrip (s : string) : string :=
  match s with
  | EmptyString => EmptyString
  | String c s' =>
      match rstrip s' with
      | EmptyString => if isspace c then EmptyString else String c EmptyString
      | r => String c r
      end
  end.

(** [s.strip()] *)
Definition strip (s : string) : string := rstrip (lstrip s).

(** Truth value of a [str]: false exactly for the empty string. *)
Definition truthy (s : string) : bool :=
  match s with EmptyString => false | String _ _ => true end.

(** Truth value of a [str] or [None]. *)
Definition truthy_opt (o : option string) : bool :=
  match o with None => false | Some s => truthy s end.

(** Every character of [s] is whitespace. *)
Fixpoint all_space (s : string) : bool :=
  match s with
  | EmptyString => true
  | String c s' => isspace c && all_space s'
  end.

(** [s.split(sep)] for a one-character separator. *)
Fixpoint split (sep : ascii) (s : string) : list string :=
  match s with
  | EmptyString => [EmptyString]
  | String c s' =>
      if Ascii.eqb c sep then EmptyString :: split sep s'
      else
        match split sep s' with
        | [] => [String c EmptyString]
        | w :: ws => String c w :: ws
        end
  end.

(** [c.lower()] for a code point below 256: the letters A-Z and the
    accented capitals 0xC0-0xDE, the multiplication sign 0xD7 excepted,
    move up by 32. *)
Definition lower_char (c : ascii) : ascii :=
  let n := nat_of_ascii c in
  if (((65 <=? n) && (n <=? 90))
      || ((192 <=? n) && (n <=? 222) && negb (n =? 215)))%nat
  then ascii_of_nat (n + 32)
  else c.

(** [s.lower()] *)
Fixpoint lower (s : string) : string :=
  match s with
  | EmptyString => EmptyString
  | String c s' => String (lower_char c) (lower s')
  end.

(** [s[n:]] for [n >= 0]. *)
Fixpoint slice_from (n : nat) (s : string) : string :=
  match n, s with
  | O, _ => s
  | S _, EmptyString => EmptyString
  | S n', String _ s' => slice_from n' s'
  end.

(** [c in chars] for a character [c]. *)
Fixpoint char_in (c : ascii) (chars : string) : bool :=
  match chars with
  | EmptyString => false
  | String x chars' => Ascii.eqb c x || char_in c chars'
  end.

Fixpoint lstrip_chars (chars s : string) : string :=
  match s with
  | EmptyString => EmptyString
  | String c s' => if char_in c chars then lstrip_chars chars s' else s
  end.

Fixpoint rstrip_chars (chars s : string) : string :=
  match s with
  | EmptyString => EmptyString
  | String c s' =>
      match rstrip_chars chars s' with
      | EmptyString => if char_in c chars then EmptyString else String c EmptyString
      | r => String c r
      end
  end.

(** [s.strip(chars)] *)
Definition strip_chars (chars s : string) : string :=
  rstrip_chars chars (lstrip_chars chars s).

(** [s.endswith(suffix)]: [s] or one of its tails is [suffix]. *)
Fixpoint endswith (suffix s : string) : bool :=
  String.eqb s suffix ||
  match s with
  | EmptyString => false
  | String _ s' => endswith suffix s'
  end.

End Py.

(** ** The speaker routers *)

(** The agent objects the scripts build at import time.  The routers
    compare [last_speaker] with them by identity ([is], and [==] on
    objects that define no [__eq__]); [other_agent] stands for any further
    agent object, whatever its name. *)
Inductive Agent :=
| user_proxy      (* name="Admin" *)
| planner         (* name="Planner" *)
| researcher      (* name="Researcher" *)
| executor        (* name="Executor" *)
| writer          (* name="Writer" *)
| other_agent (name : string).

#[global] Instance Agent_eq_dec : EqDecision Agent.
Proof. solve_decision. Defined.

(** [a is b] *)
Definition is_ (a b : Agent) : bool := bool_decide (a = b).

(** One entry of [groupchat.messages]: a dictionary whose ["content"] is
    a [str] (the group chat stores the text form of every content). *)
Record Message := { name : string; content : string }.

(** The [GroupChat] object handed to the router. *)
Record GroupChat := { messages : list Message }.

(** What a router hands back: an agent object, the string ["auto"], or
    [None] when the function body ends without a [return]. *)
Inductive RoutingDecision :=
| ret_agent (a : Agent)
| ret_auto
| ret_None.

Module Research.

(** [state_transition] of [cruise_promo/research.py]. *)
Definition state_transition (last_speaker : Agent) : M GroupChat RoutingDecision :=
  messages <~ gets messages ;;
  if is_ last_speaker user_proxy then
    ret (ret_agent planner)
  else if is_ last_speaker planner then
    ret ret_auto
  else if is_ last_speaker researcher then
    ret (ret_agent executor)
  else if is_ last_speaker executor then
    m <~ Py.index messages (-1) ;;
    if String.eqb (content m) "exitcode: 1" then
      ret (ret_agent researcher)
    else
      ret (ret_agent planner)
  else if is_ last_speaker writer then
    ret (ret_agent user_proxy)
  else
    ret ret_None.

End Research.

Module Research3.

(** [state_transition] of [cruise_promo/research3.py]; the group chat of
    that script selects [state_transition_2] below. *)
Definition state_transition (last_speaker : Agent) : M GroupChat RoutingDecision :=
  messages <~ gets messages ;;
  if is_ last_speaker user_proxy then
    ret (ret_agent planner)
  else if is_ last_speaker planner then
    ret ret_auto
  else if is_ last_speaker researcher then
    m <~ Py.index messages (-1) ;;
    if String.eqb (content m) "COMPLETE" then
      ret (ret_agent writer)
    else
      m' <~ Py.index messages (-1) ;;
      if Py.contains "COMPLETE" (content m') then
        ret (ret_agent writer)
      else
        ret (ret_agent planner)
  else if is_ last_speaker executor then
    m <~ Py.index messages (-1) ;;
    if String.eqb (content m) "exitcode: 1" then
      ret (ret_agent researcher)
    else
      ret (ret_agent planner)
  else if is_ last_speaker writer then
    ret (ret_agent user_proxy)
  else
    ret ret_None.

(** [state_transition_2] of [cruise_promo/research3.py]. *)
Definition state_transition_2 (last_speaker : Agent) : M GroupChat RoutingDecision :=
  messages <~ gets messages ;;
  if is_ last_speaker executor then
    m <~ Py.index messages (-1) ;;
    if Py.contains "COMPLETE" (content m) then
      ret (ret_agent planner)
    else
      ret (ret_agent researcher)
  else if is_ last_speaker planner then
    ret ret_auto
  else if is_ last_speaker researcher then
    m <~ Py.index messages (-1) ;;
    if Py.contains "COMPLETE" (content m) then
      ret (ret_agent planner)
    else
      ret (ret_agent executor)
  else if is_ last_speaker user_proxy then
    ret (ret_agent planner)
  else if is_ last_speaker writer then
    ret ret_auto
  else
    ret ret_None.

End Research3.

(** ** JSON-shaped values: the Lambda event and the response bodies *)

(** The values [json.loads] builds, with the integers for numbers. *)
Inductive json :=
| JNull
| JBool (b : bool)
| JNum (n : Z)
| JStr (s : string)
| JList (l : list json)
| JDict (d : list (string * json)).

Module Json.

(** A subscript: [v["k"]] or [v[i]]. *)
Inductive key := KStr (s : string) | KInt (i : Z).

Fixpoint assoc (k : string) (d : list (string * json)) : option json :=
  match d with
  | [] => None
  | (k', v) :: d' => if String.eqb k k' then Some v else assoc k d'
  end.

Definition not_subscriptable (ty : string) : exn :=
  Exn "TypeError" ("'" ++ ty ++ "' object is not subscriptable").

(** [type(v).__name__] *)
Definition type_name (v : json) : string :=
  match v with
  | JNull => "NoneType"
  | JBool _ => "bool"
  | JNum _ => "int"
  | JStr _ => "str"
  | JList _ => "list"
  | JDict _ => "dict"
  end.

(** [v[k]]: a [dict] is looked up by key ([KeyError] when absent, and an
    integer is never a key of a JSON object), a [list] and a [str] by
    position; nothing else can be subscripted.  [str] of a [KeyError] is
    the [repr] of the key: the sources subscript with literal keys only,
    whose [repr] is the key between single quotes, and with the integer
    0. *)
Definition subscript (v : json) (k : key) : outcome json :=
  match v, k with
  | JDict d, KStr s =>
      match assoc s d with
      | Some x => Returned x
      | None => Raised (Exn "KeyError" ("'" ++ s ++ "'"))
      end
  | JDict _, KInt i => Raised (Exn "KeyError" (Py.repr_int i))
  | JList l, KInt i =>
      match Py.getitem l i with
      | Some x => Returned x
      | None => Raised Py.IndexError
      end
  | JList _, KStr _ =>
      Raised (Exn "TypeError" "list indices must be integers or slices, not str")
  | JStr s, KInt i =>
      match Py.getitem (list_ascii_of_string s) i with
      | Some c => Returned (JStr (String c EmptyString))
      | None => Raised (Exn "IndexError" "string index out of range")
      end
  | JStr _, KStr _ =>
      Raised (Exn "TypeError" "string indices must be integers, not 'str'")
  | JNull, _ => Raised (not_subscriptable "NoneType")
  | JBool _, _ => Raised (not_subscriptable "bool")
  | JNum _, _ => Raised (not_subscriptable "int")
  end.

(** [v[k1][k2]...], left to right. *)
Fixpoint path (v : json) (ks : list key) : outcome json :=
  match ks with
  | [] => Returned v
  | k :: ks' =>
      match subscript v k with
      | Returned v' => path v' ks'
      | Raised e => Raised e
      end
  end.

Definition of_opt (o : option string) : json :=
  match o with Some s => JStr s | None => JNull end.

End Json.

(** ** HTTP responses of the [requests] library *)

(** The fields of a [requests.Response] the sources read.  [error_msg] is
    the text [raise_for_status] builds from status, reason and URL. *)
Record HttpResponse := {
  status_code : Z;
  text : string;
  error_msg : string
}.

(** [response.raise_for_status()]: an [HTTPError] for bad responses
    (4XX or 5XX), nothing otherwise. *)
Definition raise_for_status {S} (r : HttpResponse) : M S unit :=
  if ((400 <=? status_code r) && (status_code r <? 600))%Z then
    raise (Exn "HTTPError" (error_msg r))
  else
    ret tt.

(** ** Tool adapters *)

Module Tools.

(** [print(line)] on a standard output kept as a list of lines. *)
Definition print (line : string) : M (list string) unit :=
  modify (fun out => (out ++ [line])%list).

(** [get_youtube_transcription] of [agentchat_function_call_async.py].
    [get_transcript] is [YouTubeTranscriptApi.get_transcript]; [E] is the
    type of one transcript entry. *)
Definition get_youtube_transcription {E}
    (get_transcript : string -> list string -> outcome (list E))
    (video_id : string) (languages : list string) : M (list string) (list E) :=
  try_except
    (transcripts <~ lift (get_transcript video_id languages) ;;
     ret transcripts)
    (fun e =>
       print ("Error fetching transcript: " ++ exn_str e) ;;;
       ret []).

Definition search_url : string := "https://api.bing.microsoft.com/v7.0/search".

(** The query the search adapter sends. *)
Record SearchRequest := {
  url : string;
  subscription_key : option string;   (* os.environ.get("BING_SEARCH_API_KEY") *)
  q : string;
  count : Z
}.

(** [bing_search] of [cruise_promo/research.py] (the same body is in
    [research2.py], [research3.py] and [bing_search.py]).  [requests_get]
    is [requests.get]. *)
Definition bing_search
    (requests_get : SearchRequest -> outcome HttpResponse)
    (api_key : option string)
    (search_term : string) (max_results : Z) : M (list string) string :=
  let req := {| url := search_url; subscription_key := api_key;
                q := search_term; count := max_results |} in
  response <~ lift (requests_get req) ;;
  raise_for_status response ;;;
  ret (text response).

(** The fields of the [requests.Response] that [scraper_tool] reads, and
    the status it does not read. *)
Record Page := { page_status : Z; page_content : string }.

(** What [scraper_tool] asks of the parsed document: the text of
    [soup.title], if the document has a title, and [soup.find_all("p")]. *)
Record Soup (Tag : Type) := {
  soup_title : option string;
  soup_find_all_p : list Tag
}.
Arguments soup_title {Tag} _.
Arguments soup_find_all_p {Tag} _.

(** The dictionary [scraper_tool] returns, with its two keys. *)
Record ExtractedData (Tag : Type) := {
  ed_title : string;
  ed_paragraphs : list Tag
}.
Arguments ed_title {Tag} _.
Arguments ed_paragraphs {Tag} _.

Definition user_agent : string := "Mozilla/5.0 (Windows NT 10.0; Win64; x64)".

(** [scraper_tool] of [cruise_promo/research3.py].  [requests_get url ua]
    is [requests.get(url, headers={"User-Agent": ua})]; [BeautifulSoup] is
    the parser applied to [page.content]. *)
Definition scraper_tool {Tag}
    (requests_get : string -> string -> outcome Page)
    (BeautifulSoup : string -> Soup Tag)
    (url : string) : M (list string) (ExtractedData Tag) :=
  page <~ lift (requests_get url user_agent) ;;
  let soup := BeautifulSoup (page_content page) in
  title <~ match soup_title soup with
           | Some t => ret t
           | None => raise (Exn "AttributeError"
                              "'NoneType' object has no attribute 'text'")
           end ;;
  ret {| ed_title := title; ed_paragraphs := soup_find_all_p soup |}.

End Tools.

(** ** Termination predicates of the agents *)

(** A value a message dictionary may hold under ["content"], and what the
    predicates hand back. *)
Inductive value :=
| VNone
| VStr (s : string)
| VBool (b : bool).

Module Termination.

(** Truth value of a Python value. *)
Definition truth (v : value) : bool :=
  match v with
  | VNone => false
  | VStr s => Py.truthy s
  | VBool b => b
  end.

(** [v.rstrip().endswith(suffix)]; only a [str] has [rstrip]. *)
Definition rstrip_endswith (v : value) (suffix : string) : outcome value :=
  match v with
  | VStr s => Returned (VBool (Py.endswith suffix (Py.rstrip s)))
  | VNone =>
      Raised (Exn "AttributeError" "'NoneType' object has no attribute 'rstrip'")
  | VBool _ =>
      Raised (Exn "AttributeError" "'bool' object has no attribute 'rstrip'")
  end.

(** [x.get("content", "")] *)
Definition get_content (x : gmap string value) : value :=
  default (VStr "") (x !! "content").

(** The [is_termination_msg] of [agentchat_function_call_async.py] (also
    in [research2.py] and [bing_search.py]):
    [lambda x: x.get("content", "") and
               x.get("content", "").rstrip().endswith("TERMINATE")]. *)
Definition is_termination_msg (x : gmap string value) : outcome value :=
  if truth (get_content x) then
    rstrip_endswith (get_content x) "TERMINATE"
  else
    Returned (get_content x).

(** The [is_termination_msg] of [app.py], without the guard:
    [lambda x: x.get("content", "").rstrip().endswith("TERMINATE")]. *)
Definition is_termination_msg_unguarded (x : gmap string value) : outcome value :=
  rstrip_endswith (get_content x) "TERMINATE".

(** [msg["content"]] *)
Definition content_of (msg : gmap string value) : outcome value :=
  match msg !! "content" with
  | Some v => Returned v
  | None => Raised (Exn "KeyError" "'content'")
  end.

(** [needle in v]; [None] and booleans are not iterable. *)
Definition contained_in (needle : string) (v : value) : outcome value :=
  match v with
  | VStr s => Returned (VBool (Py.contains needle s))
  | VNone => Raised (Exn "TypeError" "argument of type 'NoneType' is not iterable")
  | VBool _ => Raised (Exn "TypeError" "argument of type 'bool' is not iterable")
  end.

(** [v.lower()]; only a [str] has [lower]. *)
Definition lower_of (v : value) : outcome value :=
  match v with
  | VStr s => Returned (VStr (Py.lower s))
  | VNone =>
      Raised (Exn "AttributeError" "'NoneType' object has no attribute 'lower'")
  | VBool _ =>
      Raised (Exn "AttributeError" "'bool' object has no attribute 'lower'")
  end.

(** The [is_termination_msg] of [numberguess.py]:
    [lambda msg: "53" in msg["content"]]. *)
Definition is_termination_msg_53 (msg : gmap string value) : outcome value :=
  match content_of msg with
  | Returned c => contained_in "53" c
  | Raised e => Raised e
  end.

(** The [is_termination_msg] of [main.py]:
    [lambda msg: "good bye" in msg["content"].lower()]. *)
Definition is_termination_msg_good_bye (msg : gmap string value) : outcome value :=
  match content_of msg with
  | Returned c =>
      match lower_of c with
      | Returned l => contained_in "good bye" l
      | Raised e => Raised e
      end
  | Raised e => Raised e
  end.

End Termination.

(** ** The PDF-processing Lambda function ([process-lease-pdf/index.py]) *)

Module ProcessLeasePdf.

(** The body posted to the Next.js API. *)
Record Payload := {
  p_analysisId : option string;
  p_s3Bucket : json;
  p_s3Key : string;
  p_extractedText : string;
  p_userSelectedState : string
}.

(** Everything outside the function: the two environment variables, the
    library function [urllib.parse.unquote_plus], and the answers of the
    services it calls.  [update_item_fault n] is the exception the [n]-th
    call of [table.update_item] fails with, if it fails;
    [utcnow_iso n] is the [n]-th reading of the clock as an ISO string. *)
Record World := {
  LEASE_ANALYSES_TABLE_NAME : option string;
  NEXTJS_API_ENDPOINT_FOR_LAMBDA : option string;
  unquote_plus : string -> string;
  head_object : json -> string -> outcome (option (gmap string string));
  get_object_read : json -> string -> outcome (list Byte.byte);
  fitz_text : list Byte.byte -> outcome string;
  update_item_fault : nat -> option exn;
  utcnow_iso : nat -> string;
  requests_post : option string -> Payload -> outcome HttpResponse
}.

(** One constructor per [print] of the function, with the values its
    message interpolates. *)
Inductive LogEntry :=
| LogTriggered (event : json)
| LogConfigError
| LogProcessing (bucket : json) (key : string)
| LogMetadataDict (metadata : gmap string string)
| LogMissingAnalysisId
| LogMetadata (analysisId : option string) (userId state filename : string)
| LogMetadataError (e : exn)
| LogNoText
| LogExtracted (len : nat)
| LogTableUpdated (analysisId : option string)
| LogCallingApi (endpoint : option string) (analysisId : option string)
| LogApiOk (status : Z) (text : string)
| LogError (key : string) (bucket : json) (e : exn)
| LogFailedRecorded (analysisId : option string) (error_message : string)
| LogFailedNotRecorded (analysisId : option string) (db_error : exn)
| LogNoAnalysisId.

(** The mutable state the function runs in: the table (items by
    [analysisId], each a map from attribute name to value), standard
    output, the number of [update_item] calls and clock readings so far,
    and the three local variables its [except] clause reads. *)
Record St := {
  table : gmap string (gmap string string);
  stdout : list LogEntry;
  update_calls : nat;
  clock_reads : nat;
  analysis_id_from_metadata : option string;
  s3_object_key : string;
  bucket_name : json
}.

Definition with_table (t : gmap string (gmap string string)) (s : St) : St :=
  {| table := t; stdout := stdout s; update_calls := update_calls s;
     clock_reads := clock_reads s;
     analysis_id_from_metadata := analysis_id_from_metadata s;
     s3_object_key := s3_object_key s; bucket_name := bucket_name s |}.

Definition with_stdout (o : list LogEntry) (s : St) : St :=
  {| table := table s; stdout := o; update_calls := update_calls s;
     clock_reads := clock_reads s;
     analysis_id_from_metadata := analysis_id_from_metadata s;
     s3_object_key := s3_object_key s; bucket_name := bucket_name s |}.

Definition with_update_calls (n : nat) (s : St) : St :=
  {| table := table s; stdout := stdout s; update_calls := n;
     clock_reads := clock_reads s;
     analysis_id_from_metadata := analysis_id_from_metadata s;
     s3_object_key := s3_object_key s; bucket_name := bucket_name s |}.

Definition with_clock_reads (n : nat) (s : St) : St :=
  {| table := table s; stdout := stdout s; update_calls := update_calls s;
     clock_reads := n;
     analysis_id_from_metadata := analysis_id_from_metadata s;
     s3_object_key := s3_object_key s; bucket_name := bucket_name s |}.

Definition with_analysis_id (a : option string) (s : St) : St :=
  {| table := table s; stdout := stdout s; update_calls := update_calls s;
     clock_reads := clock_reads s;
     analysis_id_from_metadata := a;
     s3_object_key := s3_object_key s; bucket_name := bucket_name s |}.

Definition with_s3_object_key (k : string) (s : St) : St :=
  {| table := table s; stdout := stdout s; update_calls := update_calls s;
     clock_reads := clock_reads s;
     analysis_id_from_metadata := analysis_id_from_metadata s;
     s3_object_key := k; bucket_name := bucket_name s |}.

Definition with_bucket_name (b : json) (s : St) : St :=
  {| table := table s; stdout := stdout s; update_calls := update_calls s;
     clock_reads := clock_reads s;
     analysis_id_from_metadata := analysis_id_from_metadata s;
     s3_object_key := s3_object_key s; bucket_name := b |}.

Definition print (e : LogEntry) : M St unit :=
  modify (fun s => with_stdout (stdout s ++ [e])%list s).

(** [datetime.datetime.now(datetime.timezone.utc).isoformat()] *)
Definition now (w : World) : M St string :=
  fun s => (Returned (utcnow_iso w (clock_reads s)),
            with_clock_reads (S (clock_reads s)) s).

(** The effect of [SET #a = :a, ...] on the item with key [id]: the
    named attributes are overwritten, the others kept; an absent item is
    created with its key attribute. *)
Definition apply_update (id : string) (sets : list (string * string))
    (t : gmap string (gmap string string)) : gmap string (gmap string string) :=
  let item := default {[ "analysisId" := id ]} (t !! id) in
  <[ id := foldl (fun m kv => <[ kv.1 := kv.2 ]> m) item sets ]> t.

(** [table.update_item(Key={'analysisId': key}, UpdateExpression="SET ...")].
    The call may fail as the world decides; a [None] key is rejected by
    the service. *)
Definition update_item (w : World) (key : option string)
    (sets : list (string * string)) : M St unit :=
  fun s =>
    let s' := with_update_calls (S (update_calls s)) s in
    match update_item_fault w (update_calls s) with
    | Some e => (Raised e, s')
    | None =>
        match key with
        | None => (Raised (Exn "ClientError" "ValidationException"), s')
        | Some id => (Returned tt, with_table (apply_update id sets (table s)) s')
        end
    end.

(** [urllib.parse.unquote_plus(v)]: it starts with [v.replace], which
    only a [str] has. *)
Definition unquote_plus_value (w : World) (v : json) : outcome string :=
  match v with
  | JStr s => Returned (unquote_plus w s)
  | _ =>
      Raised (Exn "AttributeError"
                ("'" ++ Json.type_name v ++ "' object has no attribute 'replace'"))
  end.

Record Response := { statusCode : Z; body : json }.

(** The [SET] list of the three failure updates. *)
Definition failed_update (details time : string) : list (string * string) :=
  [("status", "FAILED"); ("errorDetails", details); ("lastUpdatedTimestamp", time)].

Definition bucket_path : list Json.key :=
  [Json.KStr "Records"; Json.KInt 0; Json.KStr "s3"; Json.KStr "bucket"; Json.KStr "name"].

Definition key_path : list Json.key :=
  [Json.KStr "Records"; Json.KInt 0; Json.KStr "s3"; Json.KStr "object"; Json.KStr "key"].

(** Lines 44-59: the body of the inner [try].  It returns the three
    locals the rest of the function reads. *)
Definition metadata_try (w : World) (user_id0 state0 filename0 : string)
    : M St (string * string * string) :=
  b <~ gets bucket_name ;;
  k <~ gets s3_object_key ;;
  head <~ lift (head_object w b k) ;;
  let metadata := default ∅ head in
  print (LogMetadataDict metadata) ;;;
  modify (with_analysis_id (metadata !! "analysis-id")) ;;;
  let user_id := default user_id0 (metadata !! "user-id") in
  let user_selected_state := default state0 (metadata !! "user-selected-state") in
  let original_filename := default filename0 (metadata !! "original-filename") in
  aid <~ gets analysis_id_from_metadata ;;
  if negb (Py.truthy_opt aid) then
    print LogMissingAnalysisId ;;;
    raise (Exn "ValueError" "Missing 'analysis-id' in S3 metadata, cannot proceed.")
  else
    print (LogMetadata aid user_id user_selected_state original_filename) ;;;
    ret (user_id, user_selected_state, original_filename).

(** Lines 60-80: the inner [except Exception as e]. *)
Definition metadata_except (w : World) (e : exn) : M St (string * string * string) :=
  print (LogMetadataError e) ;;;
  aid <~ gets analysis_id_from_metadata ;;
  if negb (Py.truthy_opt aid) then
    raise e
  else
    t <~ now w ;;
    update_item w aid
      (failed_update ("S3 metadata retrieval/parsing error: " ++ exn_str e) t) ;;;
    raise e.

(** Lines 91-166: from the extracted text to the response. *)
Definition respond (w : World) (b : json)
    (k user_id user_selected_state original_filename extracted_text : string)
    : M St Response :=
  current_time_iso <~ now w ;;
  aid <~ gets analysis_id_from_metadata ;;
  if negb (Py.truthy (Py.strip extracted_text)) then
    print LogNoText ;;;
    update_item w aid
      (failed_update
         "No text could be extracted. The PDF might be image-based or empty."
         current_time_iso) ;;;
    ret {| statusCode := 400;
           body := JDict [("error", JStr "No text extracted from PDF.")] |}
  else
    print (LogExtracted (String.length extracted_text)) ;;;
    update_item w aid
      [("status", "TEXT_EXTRACTION_COMPLETE");
       ("lastUpdatedTimestamp", current_time_iso);
       ("s3Key", k);
       ("fileName", original_filename);
       ("userId", user_id);
       ("userSelectedState", user_selected_state)] ;;;
    print (LogTableUpdated aid) ;;;
    let nextjs_payload :=
      {| p_analysisId := aid; p_s3Bucket := b; p_s3Key := k;
         p_extractedText := extracted_text;
         p_userSelectedState := user_selected_state |} in
    print (LogCallingApi (NEXTJS_API_ENDPOINT_FOR_LAMBDA w) aid) ;;;
    response <~ lift (requests_post w (NEXTJS_API_ENDPOINT_FOR_LAMBDA w) nextjs_payload) ;;
    raise_for_status response ;;;
    print (LogApiOk (status_code response) (text response)) ;;;
    ret {| statusCode := 200;
           body := JDict [("message", JStr "Text extracted and AI processing initiated.");
                          ("analysisId", Json.of_opt aid)] |}.

(** Lines 32-166: the body of the outer [try]; its last part is
    [respond]. *)
Definition handler_try (w : World) (event : json) : M St Response :=
  b <~ lift (Json.path event bucket_path) ;;
  modify (with_bucket_name b) ;;;
  raw_key <~ lift (Json.path event key_path) ;;
  k <~ lift (unquote_plus_value w raw_key) ;;
  modify (with_s3_object_key k) ;;;
  print (LogProcessing b k) ;;;
  let user_id0 := "unknown_user_metadata_error" in
  let state0 := "unknown_state_metadata_error" in
  filename0 <~ Py.index (Py.split "/" k) (-1) ;;
  md <~ try_except (metadata_try w user_id0 state0 filename0) (metadata_except w) ;;
  let '(user_id, user_selected_state, original_filename) := md in
  pdf_content <~ lift (get_object_read w b k) ;;
  extracted_text <~ lift (fitz_text w pdf_content) ;;
  respond w b k user_id user_selected_state original_filename extracted_text.

(** Lines 168-201: the outer [except Exception as e]. *)
Definition handler_except (w : World) (e : exn) : M St Response :=
  k <~ gets s3_object_key ;;
  b <~ gets bucket_name ;;
  print (LogError k b e) ;;;
  current_time_iso_error <~ now w ;;
  let error_message := exn_str e in
  aid <~ gets analysis_id_from_metadata ;;
  (if Py.truthy_opt aid then
     try_except
       (update_item w aid (failed_update error_message current_time_iso_error) ;;;
        print (LogFailedRecorded aid error_message))
       (fun db_error => print (LogFailedNotRecorded aid db_error))
   else
     print LogNoAnalysisId) ;;;
  ret {| statusCode := 500;
         body := JDict [("error", JStr error_message);
                        ("analysisIdAttempted",
                         if Py.truthy_opt aid then Json.of_opt aid else JStr k)] |}.

(** [handler(event, context)] from line 20 on, that is, once the two
    [boto3] constructors of lines 17-18 have returned; [handler_entry]
    below is the function with them.  [json.dumps] of the body is left
    unapplied: [body] is the dictionary it serialises.  The exceptions
    of the services are instances of [Exception], the class both
    [except] clauses name. *)
Definition handler (w : World) (event : json) : M St Response :=
  print (LogTriggered event) ;;;
  if negb (Py.truthy_opt (LEASE_ANALYSES_TABLE_NAME w))
     || negb (Py.truthy_opt (NEXTJS_API_ENDPOINT_FOR_LAMBDA w)) then
    print LogConfigError ;;;
    ret {| statusCode := 500;
           body := JDict [("error", JStr "Lambda configuration error.")] |}
  else
    modify (with_analysis_id None) ;;;
    modify (with_s3_object_key "unknown_s3_key_on_error") ;;;
    modify (with_bucket_name (JStr "unknown_bucket_on_error")) ;;;
    try_except (handler_try w event) (handler_except w).

(** The outcomes of [boto3.client('s3')] and
    [boto3.resource('dynamodb')].  Either can raise, when no region is
    configured for one. *)
Record Boto3 := {
  client_s3 : outcome unit;
  resource_dynamodb : outcome unit
}.

(** [handler(event, context)] from its first line: lines 17-18 run
    before anything is printed and outside the [try], so that an
    exception of a constructor leaves the function. *)
Definition handler_entry (boto3 : Boto3) (w : World) (event : json)
    : M St Response :=
  lift (client_s3 boto3) ;;;
  lift (resource_dynamodb boto3) ;;;
  handler w event.

(** *** Vocabulary of the statements below *)

(** Both environment variables are set and non-empty, so that line 22
    lets the call through. *)
Definition configured (w : World) : bool :=
  Py.truthy_opt (LEASE_ANALYSES_TABLE_NAME w)
  && Py.truthy_opt (NEXTJS_API_ENDPOINT_FOR_LAMBDA w).

(** The state in which the outer [try] is entered from [s]: the event
    has been printed and lines 27-29 have set the three locals. *)
Definition try_entry (event : json) (s : St) : St :=
  with_bucket_name (JStr "unknown_bucket_on_error")
    (with_s3_object_key "unknown_s3_key_on_error"
       (with_analysis_id None
          (with_stdout (stdout s ++ [LogTriggered event])%list s))).

(** Attribute [a] of the item stored under [id], if any. *)
Definition attr (t : gmap string (gmap string string)) (id a : string)
    : option string :=
  t !! id ≫= fun item => item !! a.

(** The run gets as far as the extracted text: the function is
    configured, the event names bucket [b] and key [k], the object's
    metadata carry the non-empty analysis id [id] and the user state
    [ust], the object is read and [txt] is the text extracted from it. *)
Definition extracts (w : World) (event : json)
    (b : json) (k id ust txt : string) : Prop :=
  configured w = true
  /\ exists raw head pdf,
      Json.path event bucket_path = Returned b
      /\ Json.path event key_path = Returned (JStr raw)
      /\ k = unquote_plus w raw
      /\ head_object w b k = Returned head
      /\ default ∅ head !! "analysis-id" = Some id
      /\ Py.truthy id = true
      /\ ust = default "unknown_state_metadata_error"
                 (default ∅ head !! "user-selected-state")
      /\ get_object_read w b k = Returned pdf
      /\ fitz_text w pdf = Returned txt.

(** The payload line 158 posts for such a run. *)
Definition payload_of (b : json) (k id ust txt : string) : Payload :=
  {| p_analysisId := Some id; p_s3Bucket := b; p_s3Key := k;
     p_extractedText := txt; p_userSelectedState := ust |}.

(** The same world with another answer of the Next.js API. *)
Definition with_requests_post
    (post : option string -> Payload -> outcome HttpResponse) (w : World) : World :=
  {| LEASE_ANALYSES_TABLE_NAME := LEASE_ANALYSES_TABLE_NAME w;
     NEXTJS_API_ENDPOINT_FOR_LAMBDA := NEXTJS_API_ENDPOINT_FOR_LAMBDA w;
     unquote_plus := unquote_plus w;
     head_object := head_object w;
     get_object_read := get_object_read w;
     fitz_text := fitz_text w;
     update_item_fault := update_item_fault w;
     utcnow_iso := utcnow_iso w;
     requests_post := post |}.

(** The event names bucket [b] and, after unquoting, key [k]. *)
Definition names (w : World) (event : json) (b : json) (k : string) : Prop :=
  exists raw,
    Json.path event bucket_path = Returned b
    /\ Json.path event key_path = Returned (JStr raw)
    /\ k = unquote_plus w raw.

(** The object [b]/[k] carries the metadata [md], among them a non-empty
    analysis id [id]. *)
Definition tagged (w : World) (b : json) (k : string)
    (md : gmap string string) (id : string) : Prop :=
  exists head,
    head_object w b k = Returned head
    /\ md = default ∅ head
    /\ md !! "analysis-id" = Some id
    /\ Py.truthy id = true.

(** The object [b]/[k] is read and [txt] is the text extracted from it. *)
Definition reads_text (w : World) (b : json) (k txt : string) : Prop :=
  exists pdf, get_object_read w b k = Returned pdf /\ fitz_text w pdf = Returned txt.

(** The state in which lines 83-166 run, for an object with metadata
    [md], analysis id [id] and default file name [f0]: the locals are
    set and the three messages of lines 35-59 are printed. *)
Definition after_metadata (b : json) (k : string) (md : gmap string string)
    (id f0 : string) (s0 : St) : St :=
  with_stdout
    (stdout s0
       ++ [LogProcessing b k; LogMetadataDict md;
           LogMetadata (Some id)
             (default "unknown_user_metadata_error" (md !! "user-id"))
             (default "unknown_state_metadata_error" (md !! "user-selected-state"))
             (default f0 (md !! "original-filename"))])%list
    (with_analysis_id (Some id) (with_s3_object_key k (with_bucket_name b s0))).

End ProcessLeasePdf.

(** ** Concrete runs used as examples *)

Module Scenario.

Import ProcessLeasePdf.

(** An S3 notification for [uploads/a.pdf] in bucket [bk]. *)
Definition s3_event : json :=
  JDict [("Records",
          JList [JDict [("s3",
                         JDict [("bucket", JDict [("name", JStr "bk")]);
                                ("object", JDict [("key", JStr "uploads/a.pdf")])])]])].

(** A configured function; the object's metadata, the extracted text,
    the status of the Next.js answer and the faults of the table are
    left open. *)
Definition world_with (metadata : gmap string string)
    (txt : string) (status : Z) (fault : nat -> option exn) : World :=
  {| LEASE_ANALYSES_TABLE_NAME := Some "LeaseAnalyses";
     NEXTJS_API_ENDPOINT_FOR_LAMBDA := Some "https://app.example/api/process";
     unquote_plus := fun s => s;
     head_object := fun _ _ => Returned (Some metadata);
     get_object_read := fun _ _ => Returned [];
     fitz_text := fun _ => Returned txt;
     update_item_fault := fault;
     utcnow_iso := fun _ => "2025-01-01T00:00:00+00:00";
     requests_post := fun _ _ =>
       Returned {| status_code := status; text := "";
                   error_msg := "Error for url: https://app.example/api/process" |} |}.

(** The same, for an object uploaded with analysis id [A1]. *)
Definition world : string -> Z -> (nat -> option exn) -> World :=
  world_with {[ "analysis-id" := "A1" ]}.

Definition no_fault : nat -> option exn := fun _ => None.

Definition throttled : exn := Exn "ClientError" "ProvisionedThroughputExceededException".

(** Both constructors return. *)
Definition clients : Boto3 :=
  {| client_s3 := Returned tt; resource_dynamodb := Returned tt |}.

(** No region is configured: the first constructor raises. *)
Definition no_region : exn := Exn "NoRegionError" "You must specify a region.".

Definition no_clients : Boto3 :=
  {| client_s3 := Raised no_region; resource_dynamodb := Raised no_region |}.

(** Only the second [update_item] call fails. *)
Definition second_write_fails : nat -> option exn :=
  fun n => if (n =? 1)%nat then Some throttled else None.

Definition always_throttled : nat -> option exn := fun _ => Some throttled.

(** An object store that cannot be reached. *)
Definition offline : World :=
  {| LEASE_ANALYSES_TABLE_NAME := Some "LeaseAnalyses";
     NEXTJS_API_ENDPOINT_FOR_LAMBDA := Some "https://app.example/api/process";
     unquote_plus := fun s => s;
     head_object := fun _ _ => Raised (Exn "EndpointConnectionError" "Could not connect");
     get_object_read := fun _ _ => Raised (Exn "EndpointConnectionError" "Could not connect");
     fitz_text := fun _ => Returned "";
     update_item_fault := no_fault;
     utcnow_iso := fun _ => "2025-01-01T00:00:00+00:00";
     requests_post := fun _ _ =>
       Raised (Exn "ConnectionError" "Failed to establish a new connection") |}.


(** An object with analysis id [A1] that is not a PDF. *)
Definition corrupt_pdf : World :=
  {| LEASE_ANALYSES_TABLE_NAME := Some "LeaseAnalyses";
     NEXTJS_API_ENDPOINT_FOR_LAMBDA := Some "https://app.example/api/process";
     unquote_plus := fun s => s;
     head_object := fun _ _ => Returned (Some {[ "analysis-id" := "A1" ]});
     get_object_read := fun _ _ => Returned [];
     fitz_text := fun _ => Raised (Exn "FileDataError" "Failed to open stream");
     update_item_fault := no_fault;
     utcnow_iso := fun _ => "2025-01-01T00:00:00+00:00";
     requests_post := fun _ _ =>
       Returned {| status_code := 200; text := ""; error_msg := "" |} |}.

Definition fresh : St :=
  {| table := ∅; stdout := []; update_calls := 0; clock_reads := 0;
     analysis_id_from_metadata := None; s3_object_key := "";
     bucket_name := JNull |}.

(** A table in which the upload API has already created the record of
    analysis [A1]. *)
Definition pending : St :=
  {| table := {[ "A1" := {[ "analysisId" := "A1"; "status" := "PENDING";
                           "userId" := "u1" ]} ]};
     stdout := []; update_calls := 0; clock_reads := 0;
     analysis_id_from_metadata := None; s3_object_key := "";
     bucket_name := JNull |}.

Definition unreachable : exn := Exn "ConnectionError" "Failed to establish a new connection".

End Scenario.

(** ** Scraping scripts *)

(** An element of a parsed document, as far as the scripts look at it:
    its text and its attributes. *)
Record Tag := { tag_text : string; tag_attrs : gmap string string }.

Module Bs4.

(** [tag[attr]]: the attribute, or [KeyError]. *)
Definition getitem {S} (t : Tag) (attr : string) : M S string :=
  match tag_attrs t !! attr with
  | Some v => ret v
  | None => raise (Exn "KeyError" ("'" ++ attr ++ "'"))
  end.

(** [tag.text] of the result of a [find], which is [None] when nothing
    was found. *)
Definition text_of {S} (found : option Tag) : M S string :=
  match found with
  | Some t => ret (tag_text t)
  | None => raise (Exn "AttributeError" "'NoneType' object has no attribute 'text'")
  end.

End Bs4.

(** *** [cruise_promo/google_search.py] *)

Module GoogleSearch.

(** What the function prints: the list of anchors, and each result it
    visits. *)
Inductive Printed :=
| PrintAnchors (anchors : list Tag)
| PrintResult (result : Tag).

(** The two queries made on the parsed page: [soup.find_all('a')] and
    [soup.select("#res")]. *)
Record Soup := { find_all_a : list Tag; select_res : list Tag }.

Definition print (p : Printed) : M (list Printed) unit :=
  modify (fun out => (out ++ [p])%list).

(** The [for i, result in enumerate(...)] loop, from index [i] on, with
    the links collected so far. *)
Fixpoint results_loop (num_results i : Z) (results : list Tag) (links : list string)
    : M (list Printed) (list string) :=
  match results with
  | [] => ret links
  | result :: rest =>
      print (PrintResult result) ;;;
      if (i =? num_results)%Z then
        ret links
      else
        link <~ Bs4.getitem result "href" ;;
        if Py.startswith "/url?q=" link then
          results_loop num_results (i + 1) rest (links ++ [Py.slice_from 7 link])%list
        else
          results_loop num_results (i + 1) rest links
  end.

(** [get_google_search_results(query, num_results)]; [requests_get url]
    is the text of the answer. *)
Definition get_google_search_results
    (requests_get : string -> outcome string)
    (BeautifulSoup : string -> Soup)
    (query : string) (num_results : Z) : M (list Printed) (list string) :=
  let url := "https://www.google.com/search?q=" ++ query in
  response_text <~ lift (requests_get url) ;;
  let soup := BeautifulSoup response_text in
  print (PrintAnchors (find_all_a soup)) ;;;
  results_loop num_results 0 (select_res soup) [].

(** The link a result contributes: its [href] without the prefix
    ["/url?q="], if it has that prefix. *)
Definition link_of (href : string) : option string :=
  if Py.startswith "/url?q=" href then Some (Py.slice_from 7 href) else None.

(** The links of a list of results that all have an [href]; [None] if one
    of them has none. *)
Fixpoint links_of (results : list Tag) : option (list string) :=
  match results with
  | [] => Some []
  | result :: rest =>
      match tag_attrs result !! "href", links_of rest with
      | Some href, Some ls => Some (option_list (link_of href) ++ ls)%list
      | _, _ => None
      end
  end.

End GoogleSearch.

(** *** [cruise_promo/bing_image_retrieve.py] *)

Module BingImages.

Definition search_url : string := "https://api.bing.microsoft.com/v7.0/images/search".

(** The request [get_images] sends. *)
Record ImageRequest := {
  url : string;
  subscription_key : string;
  q : string;
  license : string;
  imageType : string
}.

(** [v[:16]] as the sequence the comprehension iterates over: the first
    sixteen elements of a list, the first sixteen characters of a string;
    a dictionary cannot be sliced (its key would be a slice, which is not
    hashable before Python 3.12 and is a missing key from then on: the
    earlier message is kept here), and nothing else can be subscripted. *)
Definition first_16 (v : json) : outcome (list json) :=
  match v with
  | JList l => Returned (take 16 l)
  | JStr s =>
      Returned (map (fun c => JStr (String c EmptyString))
                  (take 16 (list_ascii_of_string s)))
  | JDict _ => Raised (Exn "TypeError" "unhashable type: 'slice'")
  | JNull => Raised (Json.not_subscriptable "NoneType")
  | JBool _ => Raised (Json.not_subscriptable "bool")
  | JNum _ => Raised (Json.not_subscriptable "int")
  end.

(** [[img["thumbnailUrl"] for img in imgs]], left to right. *)
Fixpoint thumbnails (imgs : list json) : outcome (list json) :=
  match imgs with
  | [] => Returned []
  | img :: rest =>
      match Json.subscript img (Json.KStr "thumbnailUrl") with
      | Raised e => Raised e
      | Returned u =>
          match thumbnails rest with
          | Raised e => Raised e
          | Returned us => Returned (u :: us)
          end
      end
  end.

(** [get_images(search_term)].  [environ_key] is the environment
    variable [BING_SEARCH_API_KEY], [response_json] is
    [response.json()]. *)
Definition get_images
    (environ_key : option string)
    (requests_get : ImageRequest -> outcome HttpResponse)
    (response_json : HttpResponse -> outcome json)
    (search_term : string) : M unit (list json) :=
  subscription_key <~ match environ_key with
                      | Some key => ret key
                      | None => raise (Exn "KeyError" "'BING_SEARCH_API_KEY'")
                      end ;;
  let req := {| url := search_url; subscription_key := subscription_key;
                q := search_term; license := "public"; imageType := "photo" |} in
  response <~ lift (requests_get req) ;;
  raise_for_status response ;;;
  search_results <~ lift (response_json response) ;;
  value <~ lift (Json.subscript search_results (Json.KStr "value")) ;;
  imgs <~ lift (first_16 value) ;;
  thumbnail_urls <~ lift (thumbnails imgs) ;;
  ret thumbnail_urls.

End BingImages.

(** *** [tools/searchsocial.py] *)

Module SearchSocial.

(** The loop over [soup.find_all("div", class_="MQZWZd")]; each division
    is given by its [div.find("a")]. *)
Fixpoint usernames_loop (divs : list (option Tag)) (usernames : list string)
    : M unit (list string) :=
  match divs with
  | [] => ret usernames
  | a :: rest =>
      match a with
      | Some anchor =>
          href <~ Bs4.getitem anchor "href" ;;
          let username := Py.strip_chars "/" href in
          usernames_loop rest (usernames ++ [username])%list
      | None => usernames_loop rest usernames
      end
  end.

(** [search_social_media(platform, keyword)]; [requests_get url] is the
    content of the answer. *)
Definition search_social_media
    (requests_get : string -> outcome string)
    (BeautifulSoup : string -> list (option Tag))
    (platform keyword : string) : M unit (list string) :=
  url <~ (if String.eqb platform "twitter" then
            ret ("https://twitter.com/search?q=" ++ keyword ++ "%20-filter:retweets")
          else if String.eqb platform "instagram" then
            ret ("https://www.instagram.com/explore/tags/" ++ keyword ++ "/")
          else
            raise (Exn "ValueError" "Invalid social media platform")) ;;
  content <~ lift (requests_get url) ;;
  usernames_loop (BeautifulSoup content) [].

(** The [href] of every anchor found, in order; [None] if an anchor has
    no [href]. *)
Fixpoint hrefs_of (divs : list (option Tag)) : option (list string) :=
  match divs with
  | [] => Some []
  | None :: rest => hrefs_of rest
  | Some anchor :: rest =>
      match tag_attrs anchor !! "href", hrefs_of rest with
      | Some href, Some hs => Some (href :: hs)
      | _, _ => None
      end
  end.

End SearchSocial.

(** *** [paper/tmp_code_fc0fc10c7c5fc8287990da6df77b7448.py] *)

Module CruiseInfo.

(** One [div] of class [cruise]: its text and the three divisions the
    function looks for in it. *)
Record Cruise := {
  cruise_text : string;
  find_destination : option Tag;
  find_duration : option Tag;
  find_features : option Tag
}.

(** Line 12: both the ship and the sail date occur in the text. *)
Definition matches (cruise : Cruise) : bool :=
  Py.contains "Navigator of the Seas" (cruise_text cruise)
  && Py.contains "Dec. 16, 2024" (cruise_text cruise).

(** The [for cruise in cruises] loop; [None] is the value of a body that
    ends without [return]. *)
Fixpoint cruises_loop (cruises : list Cruise) : M unit (option (string * string * string)) :=
  match cruises with
  | [] => ret None
  | cruise :: rest =>
      if matches cruise then
        destination <~ Bs4.text_of (find_destination cruise) ;;
        duration <~ Bs4.text_of (find_duration cruise) ;;
        features <~ Bs4.text_of (find_features cruise) ;;
        ret (Some (destination, duration, features))
      else
        cruises_loop rest
  end.

(** [get_cruise_info()] *)
Definition get_cruise_info
    (requests_get : string -> outcome string)
    (BeautifulSoup : string -> list Cruise)
    : M unit (option (string * string * string)) :=
  let url := "https://www.royalcaribbean.com/cruises/?shipCode=NV" in
  response_text <~ lift (requests_get url) ;;
  cruises_loop (BeautifulSoup response_text).

End CruiseInfo.

(** *** [cruise_promo/cruise_groups_scrape.py] *)

Module CruiseGroups.

(** The key column [i] is stored under; columns from the eleventh on are
    not stored. *)
Definition column (i : nat) : option string :=
  match i with
  | 0 => Some "groupID"
  | 1 => Some "ship"
  | 2 => Some "vendor"
  | 3 => Some "itinerary"
  | 4 => Some "port"
  | 5 => Some "nights"
  | 6 => Some "saildate"
  | 7 => Some "amenities"
  | 8 => Some "price"
  | 9 => Some "advantage"
  | _ => None
  end.

(** The [for td in tr.find_all("td")] loop, from column [i] on; each cell
    is given by its text. *)
Fixpoint cells_loop (i : nat) (tds : list string) (obj : gmap string string)
    : gmap string string :=
  match tds with
  | [] => obj
  | td :: rest =>
      let obj' := match column i with
                  | Some key => <[ key := Py.strip td ]> obj
                  | None => obj
                  end in
      cells_loop (S i) rest obj'
  end.

(** The [for tr in table.find_all("tr")] loop. *)
Fixpoint rows_loop (trs : list (list string)) (promos : list (gmap string string))
    : list (gmap string string) :=
  match trs with
  | [] => promos
  | tr :: rest => rows_loop rest (promos ++ [cells_loop 0 tr ∅])%list
  end.

(** [get_current_cruise_group_promos()]: it prints the list and returns
    nothing.  [BeautifulSoup] gives the rows of the table of class
    [booking-table], if the page has one. *)
Definition get_current_cruise_group_promos
    (requests_get : string -> outcome string)
    (BeautifulSoup : string -> option (list (list string)))
    : M (list (list (gmap string string))) unit :=
  let url := "https://www.cbagenttools.com/groups/view_groups/" in
  response_text <~ lift (requests_get url) ;;
  let promos := match BeautifulSoup response_text with
                | Some trs => rows_loop trs []
                | None => []
                end in
  modify (fun out => (out ++ [promos])%list).

End CruiseGroups.

(** *** [cruise_promo/image_gen1.py] *)

Module ImageGen.

(** An answer of the image service: [response.status] and the outcome of
    [await response.json()]. *)
Record Answer := { answer_status : Z; answer_json : outcome json }.

(** What the coroutine prints, line by line. *)
Inductive Printed :=
| PrintResponseJson (response_json : json)
| PrintTaskId (task_id : json)
| PrintError (status : Z)
| PrintFetchStatus (status : Z)
| PrintFetchJson (fetch_response_json : json).

Definition print (p : Printed) : M (list Printed) unit :=
  modify (fun out => (out ++ [p])%list).

(** [generate_image()], its awaits taken in order (the five-second sleep
    changes nothing else).  [post_imagine key] is the POST to the
    [imagine] endpoint with the API key of the environment; [post_fetch
    task_id] is the POST of [{"task_id": task_id}] to the [fetch]
    endpoint.  The coroutine returns nothing. *)
Definition generate_image
    (key : option string)
    (post_imagine : option string -> outcome Answer)
    (post_fetch : json -> outcome Answer) : M (list Printed) unit :=
  response <~ lift (post_imagine key) ;;
  response_json <~ lift (answer_json response) ;;
  task_id <~ lift (Json.subscript response_json (Json.KStr "task_id")) ;;
  print (PrintResponseJson response_json) ;;;
  print (PrintTaskId task_id) ;;;
  if negb (answer_status response =? 200)%Z then
    print (PrintError (answer_status response)) ;;;
    ret tt
  else
    fetch_response <~ lift (post_fetch task_id) ;;
    fetch_response_json <~ lift (answer_json fetch_response) ;;
    print (PrintFetchStatus (answer_status fetch_response)) ;;;
    print (PrintFetchJson fetch_response_json).

End ImageGen.

(** ** Sample pages used as examples *)

Module Pages.

Definition anchor (href : string) : Tag :=
  {| tag_text := ""; tag_attrs := {[ "href" := href ]} |}.

Definition bare : Tag := {| tag_text := "no link"; tag_attrs := ∅ |}.

(** A result page with two outgoing links around an internal one. *)
Definition results : GoogleSearch.Soup :=
  {| GoogleSearch.find_all_a := [];
     GoogleSearch.select_res :=
       [anchor "/url?q=https://a.example"; anchor "/search?q=more";
        anchor "/url?q=https://b.example"] |}.

(** A listing with a cruise of another ship before the one looked for. *)
Definition listing : list CruiseInfo.Cruise :=
  [{| CruiseInfo.cruise_text := "Allure of the Seas Dec. 16, 2024";
      CruiseInfo.find_destination := None;
      CruiseInfo.find_duration := None;
      CruiseInfo.find_features := None |};
   {| CruiseInfo.cruise_text := "Navigator of the Seas, sails Dec. 16, 2024";
      CruiseInfo.find_destination :=
        Some {| tag_text := "Ensenada"; tag_attrs := ∅ |};
      CruiseInfo.find_duration :=
        Some {| tag_text := "4 nights"; tag_attrs := ∅ |};
      CruiseInfo.find_features :=
        Some {| tag_text := "pool"; tag_attrs := ∅ |} |}].

End Pages.

(** * Properties *)

(** ** Built-ins *)

Section Builtins.

Lemma getitem_minus_one {A} (l : list A) : Py.getitem l (-1) = last l.
Proof.
  unfold Py.getitem. rewrite last_lookup.
  destruct l as [|a l']; [reflexivity|].
  cbn [List.length].
  replace (-1 <? 0)%Z with true by reflexivity.
  destruct (Z.leb_spec 0 (-1 + Z.of_nat (S (List.length l')))) as [_|Hneg]; [|lia].
  destruct (Z.ltb_spec (-1 + Z.of_nat (S (List.length l'))) (Z.of_nat (S (List.length l')))) as [_|Hge]; [|lia].
  cbn [andb]. f_equal. cbn [length Nat.pred]. lia.
Qed.

Lemma getitem_snoc {A} (init : list A) (m : A) :
  Py.getitem (init ++ [m])%list (-1) = Some m.
Proof. rewrite getitem_minus_one. apply last_snoc. Qed.

Lemma startswith_spec (p s : string) :
  Py.startswith p s = true <-> exists post, s = p ++ post.
Proof.
  revert s. induction p as [|a p IH]; intros s; cbn.
  - split; [intros _; exists s; reflexivity | reflexivity].
  - destruct s as [|b s].
    + split; [discriminate | intros [post H]; discriminate].
    + rewrite andb_true_iff, Ascii.eqb_eq, IH. split.
      * intros [-> [post ->]]. exists post. reflexivity.
      * intros [post H]. injection H as -> ->. split; [reflexivity | eauto].
Qed.

(** [needle in hay] holds exactly when [needle] occurs somewhere in
    [hay]. *)
Lemma contains_spec (needle hay : string) :
  Py.contains needle hay = true <-> exists pre post, hay = pre ++ needle ++ post.
Proof.
  induction hay as [|c hay IH]; cbn [Py.contains].
  - rewrite orb_false_r, startswith_spec. split.
    + intros [post H]. exists "", post. exact H.
    + intros [pre [post H]]. destruct pre; [exists post; exact H | discriminate].
  - rewrite orb_true_iff, startswith_spec, IH. split.
    + intros [[post H] | [pre [post H]]].
      * exists "", post. exact H.
      * exists (String c pre), post. cbn. rewrite H. reflexivity.
    + intros [pre [post H]]. destruct pre as [|c' pre].
      * left. exists post. exact H.
      * right. cbn in H. injection H as _ H. eauto.
Qed.

Lemma lstrip_all_space (s : string) :
  Py.all_space s = true -> Py.lstrip s = "".
Proof.
  induction s as [|c s IH]; cbn; [reflexivity|].
  destruct (Py.isspace c); cbn; [exact IH | discriminate].
Qed.

Lemma rstrip_empty (s : string) :
  Py.rstrip s = "" -> Py.all_space s = true.
Proof.
  induction s as [|c s IH]; cbn; [reflexivity|].
  destruct (Py.rstrip s) eqn:E; [|discriminate].
  destruct (Py.isspace c); [intros _; cbn; apply IH; reflexivity | discriminate].
Qed.

Lemma lstrip_head (s : string) :
  Py.lstrip s = "" \/
  exists c t, Py.lstrip s = String c t /\ Py.isspace c = false.
Proof.
  induction s as [|c s IH]; cbn; [left; reflexivity|].
  destruct (Py.isspace c) eqn:E; [exact IH | right; eauto].
Qed.

Lemma lstrip_empty (s : string) :
  Py.lstrip s = "" -> Py.all_space s = true.
Proof.
  induction s as [|c s IH]; cbn; [reflexivity|].
  destruct (Py.isspace c); cbn; [exact IH | discriminate].
Qed.

(** [not s.strip()] holds exactly for the strings made of whitespace
    only, the empty string among them. *)
Lemma strip_falsy_iff (s : string) :
  Py.truthy (Py.strip s) = false <-> Py.all_space s = true.
Proof.
  unfold Py.strip. split.
  - intros H. destruct (lstrip_head s) as [E | [c [t [E Hc]]]].
    + apply lstrip_empty, E.
    + rewrite E in H. apply (f_equal (fun x => x)) in H.
      assert (Hr : Py.rstrip (String c t) = "")
        by (destruct (Py.rstrip (String c t)); [reflexivity | discriminate]).
      apply rstrip_empty in Hr. cbn in Hr. rewrite Hc in Hr. discriminate.
  - intros H. rewrite (lstrip_all_space s H). reflexivity.
Qed.

End Builtins.

(** ** The speaker routers *)

Section Routers.

(** Unfold a router call down to its branches. *)
Ltac run_router :=
  cbv [Research.state_transition Research3.state_transition_2
       bind gets ret raise Py.index is_];
  cbn -[Py.getitem Py.contains String.eqb].

Lemma state_transition_executor (g : GroupChat) :
  Research.state_transition executor g =
    match last (messages g) with
    | Some m =>
        (Returned (ret_agent (if String.eqb (content m) "exitcode: 1"
                              then researcher else planner)), g)
    | None => (Raised Py.IndexError, g)
    end.
Proof.
  run_router. rewrite getitem_minus_one.
  destruct (last (messages g)) as [m|]; [|reflexivity].
  destruct (String.eqb (content m) "exitcode: 1"); reflexivity.
Qed.

Lemma state_transition_2_executor (g : GroupChat) :
  Research3.state_transition_2 executor g =
    match last (messages g) with
    | Some m =>
        (Returned (ret_agent (if Py.contains "COMPLETE" (content m)
                              then planner else researcher)), g)
    | None => (Raised Py.IndexError, g)
    end.
Proof.
  run_router. rewrite getitem_minus_one.
  destruct (last (messages g)) as [m|]; [|reflexivity].
  destruct (Py.contains "COMPLETE" (content m)); reflexivity.
Qed.

Lemma state_transition_2_researcher (g : GroupChat) :
  Research3.state_transition_2 researcher g =
    match last (messages g) with
    | Some m =>
        (Returned (ret_agent (if Py.contains "COMPLETE" (content m)
                              then planner else executor)), g)
    | None => (Raised Py.IndexError, g)
    end.
Proof.
  run_router. rewrite getitem_minus_one.
  destruct (last (messages g)) as [m|]; [|reflexivity].
  destruct (Py.contains "COMPLETE" (content m)); reflexivity.
Qed.

(** Neither router writes to the group chat. *)
Lemma state_transition_state (a : Agent) (g : GroupChat) :
  (Research.state_transition a g).2 = g.
Proof.
  destruct a; try reflexivity.
  rewrite state_transition_executor. destruct (last (messages g)); reflexivity.
Qed.

Lemma state_transition_2_state (a : Agent) (g : GroupChat) :
  (Research3.state_transition_2 a g).2 = g.
Proof.
  destruct a; try reflexivity.
  - rewrite state_transition_2_researcher. destruct (last (messages g)); reflexivity.
  - rewrite state_transition_2_executor. destruct (last (messages g)); reflexivity.
Qed.

(** C1 (as stated, refuted): for a speaker that is none of the five
    agents, at an explicit input, neither router raises; each returns
    [None], the value of a body that ends without [return]. *)
Lemma unmatched_speaker_returns_None_example :
  (Research.state_transition (other_agent "Engineer") {| messages := [] |}).1
    = Returned ret_None
  /\ (Research3.state_transition_2 (other_agent "Engineer") {| messages := [] |}).1
    = Returned ret_None
  /\ ~ (exists e, (Research.state_transition (other_agent "Engineer") {| messages := [] |}).1
                  = Raised e)
  /\ ~ (exists e, (Research3.state_transition_2 (other_agent "Engineer") {| messages := [] |}).1
                  = Raised e).
Proof.
  repeat split; try reflexivity; intros [e H]; discriminate H.
Qed.

(** C1 (amended): for both routing policies, when [last_speaker] is none
    of Admin, Planner, Researcher, Executor and Writer, no branch
    matches: the router returns [None] without raising, whatever the
    transcript, and leaves the transcript as it was. *)
Theorem unmatched_speaker_falls_through (n : string) (g : GroupChat) :
  Research.state_transition (other_agent n) g = (Returned ret_None, g)
  /\ Research3.state_transition_2 (other_agent n) g = (Returned ret_None, g).
Proof. split; reflexivity. Qed.

(** C2: Policy A, last speaker Executor, non-empty transcript whose last
    message is [m]: content equal to ["exitcode: 1"] routes to the
    Researcher, any other content to the Planner. *)
Theorem policy_A_executor (init : list Message) (m : Message) :
  (content m = "exitcode: 1" ->
     (Research.state_transition executor {| messages := init ++ [m] |}).1
       = Returned (ret_agent researcher))
  /\ (content m <> "exitcode: 1" ->
     (Research.state_transition executor {| messages := init ++ [m] |}).1
       = Returned (ret_agent planner)).
Proof.
  rewrite state_transition_executor. cbn [messages]. rewrite last_snoc.
  split; intros H.
  - apply String.eqb_eq in H. rewrite H. reflexivity.
  - apply String.eqb_neq in H. rewrite H. reflexivity.
Qed.

(** [policy_A_executor] on the transcript of the end-to-end scenario and
    on one with a successful execution. *)
Lemma policy_A_executor_witness :
  (Research.state_transition executor
     {| messages := [{| name := "Executor"; content := "exitcode: 1" |}] |}).1
    = Returned (ret_agent researcher)
  /\ (Research.state_transition executor
     {| messages := [{| name := "Planner"; content := "plan" |};
                     {| name := "Executor"; content := "exitcode: 0" |}] |}).1
    = Returned (ret_agent planner).
Proof.
  split.
  - apply (policy_A_executor [] {| name := "Executor"; content := "exitcode: 1" |}).
    reflexivity.
  - apply (policy_A_executor [{| name := "Planner"; content := "plan" |}]
             {| name := "Executor"; content := "exitcode: 0" |}).
    cbn. discriminate.
Defined.

(** C3: Policy B, last speaker Researcher, non-empty transcript whose
    last message is [m]: if ["COMPLETE"] occurs (case-sensitively)
    anywhere in the content the router returns the Planner, otherwise
    the Executor. *)
Theorem policy_B_researcher (init : list Message) (m : Message) :
  ((exists pre post, content m = pre ++ "COMPLETE" ++ post) ->
     (Research3.state_transition_2 researcher {| messages := init ++ [m] |}).1
       = Returned (ret_agent planner))
  /\ (~ (exists pre post, content m = pre ++ "COMPLETE" ++ post) ->
     (Research3.state_transition_2 researcher {| messages := init ++ [m] |}).1
       = Returned (ret_agent executor)).
Proof.
  rewrite state_transition_2_researcher. cbn [messages]. rewrite last_snoc.
  split; intros H.
  - apply contains_spec in H. rewrite H. reflexivity.
  - destruct (Py.contains "COMPLETE" (content m)) eqn:E; [|reflexivity].
    exfalso. apply H, contains_spec, E.
Qed.

(** [policy_B_researcher] on a report that ends in the token and on one
    that spells it in lower case. *)
Lemma policy_B_researcher_witness :
  (Research3.state_transition_2 researcher
     {| messages := [{| name := "Researcher"; content := "Report is COMPLETE" |}] |}).1
    = Returned (ret_agent planner)
  /\ (Research3.state_transition_2 researcher
     {| messages := [{| name := "Researcher"; content := "Report is complete" |}] |}).1
    = Returned (ret_agent executor).
Proof.
  split.
  - apply (policy_B_researcher [] {| name := "Researcher"; content := "Report is COMPLETE" |}).
    exists "Report is ", "". reflexivity.
  - apply (policy_B_researcher [] {| name := "Researcher"; content := "Report is complete" |}).
    intros H. apply contains_spec in H. cbn in H. discriminate H.
Defined.

(** C8: both routers are deterministic and leave the transcript alone:
    a call hands back the group chat it was given, and a second call on
    what the first one left returns the same decision. *)
Theorem routers_deterministic_and_read_only (a : Agent) (g : GroupChat) :
  ((Research.state_transition a g).2 = g
   /\ (Research.state_transition a (Research.state_transition a g).2).1 = (Research.state_transition a g).1)
  /\ ((Research3.state_transition_2 a g).2 = g
   /\ (Research3.state_transition_2 a (Research3.state_transition_2 a g).2).1 = (Research3.state_transition_2 a g).1).
Proof.
  rewrite !state_transition_state, !state_transition_2_state. repeat split.
Qed.

(** C9: after the Admin, both policies route to the Planner, for every
    transcript, the empty one included. *)
Theorem admin_routes_to_planner (g : GroupChat) :
  (Research.state_transition user_proxy g).1 = Returned (ret_agent planner)
  /\ (Research3.state_transition_2 user_proxy g).1 = Returned (ret_agent planner)
  /\ (Research.state_transition user_proxy {| messages := [] |}).1 = Returned (ret_agent planner)
  /\ (Research3.state_transition_2 user_proxy {| messages := [] |}).1 = Returned (ret_agent planner).
Proof. repeat split. Qed.

(** C10: both routers read the transcript only through its last
    element (the decision on a transcript is the decision on its last
    message alone), and only where they inspect content: after the
    Executor (both policies) and after the Researcher (Policy B) an
    empty transcript makes [messages[-1]] raise [IndexError], while any
    non-empty transcript gives a decision; after the Admin, the Planner
    and the Writer the decision is fixed for every transcript. *)
Theorem routers_read_last_message_only (g : GroupChat) (init : list Message) (m : Message) :
  (forall a,
      (Research.state_transition a g).1
        = (Research.state_transition a {| messages := option_list (last (messages g)) |}).1
      /\ (Research3.state_transition_2 a g).1
        = (Research3.state_transition_2 a {| messages := option_list (last (messages g)) |}).1)
  /\ ((Research.state_transition executor {| messages := [] |}).1 = Raised Py.IndexError
      /\ (Research3.state_transition_2 executor {| messages := [] |}).1 = Raised Py.IndexError
      /\ (Research3.state_transition_2 researcher {| messages := [] |}).1 = Raised Py.IndexError)
  /\ ((exists d, (Research.state_transition executor {| messages := init ++ [m] |}).1 = Returned d)
      /\ (exists d, (Research3.state_transition_2 executor {| messages := init ++ [m] |}).1 = Returned d)
      /\ (exists d, (Research3.state_transition_2 researcher {| messages := init ++ [m] |}).1 = Returned d))
  /\ (Research.state_transition user_proxy g = (Returned (ret_agent planner), g)
      /\ Research.state_transition planner g = (Returned ret_auto, g)
      /\ Research.state_transition writer g = (Returned (ret_agent user_proxy), g)
      /\ Research3.state_transition_2 user_proxy g = (Returned (ret_agent planner), g)
      /\ Research3.state_transition_2 planner g = (Returned ret_auto, g)
      /\ Research3.state_transition_2 writer g = (Returned ret_auto, g)).
Proof.
  assert (Hlast : forall o : option Message, last (option_list o) = o)
    by (intros [x|]; reflexivity).
  split; [|split; [|split]].
  - intros a. destruct a; try (split; reflexivity).
    + split; [reflexivity|].
      rewrite !state_transition_2_researcher. cbn [messages]. rewrite Hlast.
      destruct (last (messages g)); reflexivity.
    + rewrite !state_transition_executor, !state_transition_2_executor.
      cbn [messages]. rewrite Hlast.
      destruct (last (messages g)); split; reflexivity.
  - repeat split.
  - rewrite state_transition_executor, state_transition_2_executor,
      state_transition_2_researcher. cbn [messages]. rewrite last_snoc.
    repeat split; eexists; reflexivity.
  - repeat split.
Qed.

End Routers.

(** ** Tool adapters *)

Section Adapters.

(** C7 (as stated, refuted): the search adapter does not catch.  With a
    remote call that raises, [bing_search] raises the same exception to
    its caller, prints nothing and returns no neutral value. *)
Lemma bing_search_propagates_example :
  Tools.bing_search (fun _ => Raised Scenario.unreachable) None "Navigator of the seas" 2 []
    = (Raised Scenario.unreachable, []).
Proof. reflexivity. Qed.

(** C7 (amended): the transcript adapter catches an exception of the
    remote call at the call site, prints it and returns the empty list;
    the search adapter has no handler, so an exception of the remote
    call, and the [HTTPError] of a 4XX or 5XX answer, reach its caller
    with nothing printed. *)
Theorem adapters_on_remote_failure {E}
    (get_transcript : string -> list string -> outcome (list E))
    (requests_get : Tools.SearchRequest -> outcome HttpResponse)
    (video_id : string) (languages : list string)
    (api_key : option string) (search_term : string) (max_results : Z)
    (out : list string) (e : exn) :
  (get_transcript video_id languages = Raised e ->
     Tools.get_youtube_transcription get_transcript video_id languages out
       = (Returned [], (out ++ [("Error fetching transcript: " ++ exn_str e)%string])%list))
  /\ (requests_get {| Tools.url := Tools.search_url; Tools.subscription_key := api_key;
                      Tools.q := search_term; Tools.count := max_results |} = Raised e ->
     Tools.bing_search requests_get api_key search_term max_results out
       = (Raised e, out))
  /\ (forall r,
       requests_get {| Tools.url := Tools.search_url; Tools.subscription_key := api_key;
                       Tools.q := search_term; Tools.count := max_results |} = Returned r ->
       (400 <= status_code r < 600)%Z ->
       Tools.bing_search requests_get api_key search_term max_results out
         = (Raised (Exn "HTTPError" (error_msg r)), out)).
Proof.
  split; [|split].
  - intros H.
    cbv [Tools.get_youtube_transcription try_except bind lift ret Tools.print modify].
    rewrite H. reflexivity.
  - intros H. cbv [Tools.bing_search bind lift]. rewrite H. reflexivity.
  - intros r H Hr.
    cbv [Tools.bing_search bind lift raise_for_status]. rewrite H.
    replace ((400 <=? status_code r)%Z && (status_code r <? 600)%Z) with true
      by (symmetry; apply andb_true_iff; split; [apply Z.leb_le | apply Z.ltb_lt]; lia).
    reflexivity.
Qed.

(** [adapters_on_remote_failure] with an unreachable remote and with a
    401 answer. *)
Lemma adapters_on_remote_failure_witness :
  Tools.get_youtube_transcription
      (fun _ _ => @Raised (list string) Scenario.unreachable) "sPzc6hMg7So" ["en"] []
    = (Returned [], ["Error fetching transcript: Failed to establish a new connection"])
  /\ Tools.bing_search (fun _ => Raised Scenario.unreachable) None "cruise" 2 []
    = (Raised Scenario.unreachable, [])
  /\ Tools.bing_search
       (fun _ => Returned {| status_code := 401; text := ""; error_msg := "401 Client Error" |})
       None "cruise" 2 []
    = (Raised (Exn "HTTPError" "401 Client Error"), []).
Proof.
  pose proof (adapters_on_remote_failure
                (fun _ _ => @Raised (list string) Scenario.unreachable)
                (fun _ => Raised Scenario.unreachable)
                "sPzc6hMg7So" ["en"] None "cruise" 2 [] Scenario.unreachable) as [H1 [H2 _]].
  pose proof (adapters_on_remote_failure
                (fun _ _ => @Raised (list string) Scenario.unreachable)
                (fun _ => Returned {| status_code := 401; text := ""; error_msg := "401 Client Error" |})
                "sPzc6hMg7So" ["en"] None "cruise" 2 [] Scenario.unreachable) as [_ [_ H3]].
  split; [|split].
  - apply H1. reflexivity.
  - apply H2. reflexivity.
  - apply (H3 {| status_code := 401; text := ""; error_msg := "401 Client Error" |}).
    + reflexivity.
    + cbn. lia.
Defined.

End Adapters.

(** ** The PDF-processing handler *)

Section Handler.

Import ProcessLeasePdf.

Lemma split_nonempty (sep : ascii) (s : string) : Py.split sep s <> [].
Proof.
  induction s as [|c s IH]; cbn; [discriminate|].
  destruct (Ascii.eqb c sep); [discriminate|].
  destruct (Py.split sep s); [contradiction | discriminate].
Qed.

Lemma index_split_last (sep : ascii) (k : string) (s : St) :
  exists x, Py.index (Py.split sep k) (-1) s = (Returned x, s).
Proof.
  unfold Py.index. rewrite getitem_minus_one.
  destruct (last (Py.split sep k)) as [x|] eqn:E; [exists x; reflexivity|].
  apply last_None in E. destruct (split_nonempty _ _ E).
Qed.

Lemma handler_run (w : World) (event : json) (s : St) :
  handler w event s =
    if configured w then
      try_except (handler_try w event) (handler_except w) (try_entry event s)
    else
      (Returned {| statusCode := 500;
                   body := JDict [("error", JStr "Lambda configuration error.")] |},
       with_stdout (stdout s ++ [LogTriggered event; LogConfigError])%list s).
Proof.
  unfold handler, configured.
  destruct (Py.truthy_opt (LEASE_ANALYSES_TABLE_NAME w)),
    (Py.truthy_opt (NEXTJS_API_ENDPOINT_FOR_LAMBDA w)); cbn.
  all: try reflexivity.
  all: cbv [bind print modify ret with_stdout]; cbn; rewrite <- ?app_assoc; reflexivity.
Qed.

(** The inner [try] when the metadata carry an analysis id. *)
Lemma metadata_block_ok (w : World) (u0 st0 f0 : string) (s : St)
    (head : option (gmap string string)) (id : string) :
  head_object w (bucket_name s) (s3_object_key s) = Returned head ->
  default ∅ head !! "analysis-id" = Some id ->
  Py.truthy id = true ->
  try_except (metadata_try w u0 st0 f0) (metadata_except w) s =
    (Returned (default u0 (default ∅ head !! "user-id"),
               default st0 (default ∅ head !! "user-selected-state"),
               default f0 (default ∅ head !! "original-filename")),
     with_stdout
       (stdout s ++ [LogMetadataDict (default ∅ head);
                     LogMetadata (Some id)
                       (default u0 (default ∅ head !! "user-id"))
                       (default st0 (default ∅ head !! "user-selected-state"))
                       (default f0 (default ∅ head !! "original-filename"))])%list
       (with_analysis_id (Some id) s)).
Proof.
  intros Hh Hid Ht.
  cbv [try_except metadata_try bind gets lift print modify]. rewrite Hh.
  cbn [analysis_id_from_metadata with_analysis_id with_stdout].
  rewrite Hid. cbn [Py.truthy_opt]. rewrite Ht. cbn [negb].
  cbv [ret with_stdout with_analysis_id]. cbn. rewrite <- app_assoc. reflexivity.
Qed.

(** The outer [try] up to the extracted text. *)
Lemma handler_try_extracts (w : World) (event : json) (s0 : St)
    (b : json) (raw id txt : string)
    (head : option (gmap string string)) (pdf : list Byte.byte) :
  Json.path event bucket_path = Returned b ->
  Json.path event key_path = Returned (JStr raw) ->
  head_object w b (unquote_plus w raw) = Returned head ->
  default ∅ head !! "analysis-id" = Some id ->
  Py.truthy id = true ->
  get_object_read w b (unquote_plus w raw) = Returned pdf ->
  fitz_text w pdf = Returned txt ->
  exists uid fn sx,
    handler_try w event s0 =
      respond w b (unquote_plus w raw) uid
        (default "unknown_state_metadata_error" (default ∅ head !! "user-selected-state"))
        fn txt sx
    /\ table sx = table s0
    /\ update_calls sx = update_calls s0
    /\ clock_reads sx = clock_reads s0
    /\ analysis_id_from_metadata sx = Some id.
Proof.
  intros Hb Hk Hh Hid Ht Hg Hf.
  set (k := unquote_plus w raw) in *.
  set (s1 := with_stdout (stdout s0 ++ [LogProcessing b k])%list
               (with_s3_object_key k (with_bucket_name b s0))).
  destruct (index_split_last "/" k s1) as [f0 Hidx].
  pose proof (metadata_block_ok w "unknown_user_metadata_error"
                "unknown_state_metadata_error" f0 s1 head id Hh Hid Ht) as Hm.
  eexists _, _, _. split.
  - unfold handler_try.
    cbv [bind lift modify print]. rewrite Hb, Hk.
    cbn [unquote_plus_value]. fold k. cbn [stdout with_s3_object_key with_bucket_name].
    change (with_stdout _ _) with s1 at 1. 
    rewrite Hidx. rewrite Hm. rewrite Hg, Hf. reflexivity.
  - repeat split.
Qed.


Lemma returns_only_bind {S A B} (m : M S A) (k : A -> M S B) (P : B -> Prop) :
  (forall x, returns_only (k x) P) -> returns_only (bind m k) P.
Proof.
  intros Hk s v s'. unfold bind.
  destruct (m s) as [[x|e] s1]; [apply Hk | discriminate].
Qed.

Lemma returns_only_ret {S A} (v : A) (P : A -> Prop) :
  P v -> returns_only (@ret S A v) P.
Proof. intros Hv s v' s' [= <- _]. exact Hv. Qed.

Lemma returns_only_raise {S A} (e : exn) (P : A -> Prop) :
  returns_only (@raise S A e) P.
Proof. intros s v s'. discriminate. Qed.

Ltac returns_only_step :=
  first
    [ apply returns_only_bind; intros ?
    | apply returns_only_ret
    | apply returns_only_raise
    | match goal with
      | |- returns_only (if ?c then _ else _) _ => destruct c
      | |- returns_only (match ?x with (_, _) => _ end) _ => destruct x
      end ].

(** The outer [try] returns only through [respond], with 400 or 200. *)
Lemma handler_try_status (w : World) (event : json) :
  returns_only (handler_try w event)
    (fun resp => statusCode resp = 400%Z \/ statusCode resp = 200%Z).
Proof.
  unfold handler_try. repeat returns_only_step; cbn; auto.
Qed.

Lemma not_all_space_truthy (txt : string) :
  Py.all_space txt = false -> negb (Py.truthy (Py.strip txt)) = false.
Proof.
  intros H. destruct (Py.truthy (Py.strip txt)) eqn:E; [reflexivity|].
  apply strip_falsy_iff in E. congruence.
Qed.

Lemma all_space_falsy (txt : string) :
  Py.all_space txt = true -> negb (Py.truthy (Py.strip txt)) = true.
Proof. intros H. apply strip_falsy_iff in H. rewrite H. reflexivity. Qed.

(** Blank text, and the table accepts the update. *)
Lemma respond_blank_recorded (w : World) (b : json) (k uid ust fn txt id : string) (sx : St) :
  Py.all_space txt = true ->
  analysis_id_from_metadata sx = Some id ->
  update_item_fault w (update_calls sx) = None ->
  exists s1,
    respond w b k uid ust fn txt sx =
      (Returned {| statusCode := 400;
                   body := JDict [("error", JStr "No text extracted from PDF.")] |}, s1)
    /\ table s1 =
         apply_update id
           (failed_update
              "No text could be extracted. The PDF might be image-based or empty."
              (utcnow_iso w (clock_reads sx)))
           (table sx).
Proof.
  intros Hsp Hid Hfault. eexists. split.
  - cbv [respond bind now gets print modify update_item].
    rewrite (all_space_falsy _ Hsp).
    cbn [analysis_id_from_metadata update_calls with_stdout with_clock_reads].
    rewrite Hid, Hfault. reflexivity.
  - reflexivity.
Qed.

(** Blank text, and the table refuses the update. *)
Lemma respond_blank_fault (w : World) (b : json) (k uid ust fn txt id : string)
    (sx : St) (e : exn) :
  Py.all_space txt = true ->
  analysis_id_from_metadata sx = Some id ->
  update_item_fault w (update_calls sx) = Some e ->
  exists s1,
    respond w b k uid ust fn txt sx = (Raised e, s1)
    /\ table s1 = table sx
    /\ analysis_id_from_metadata s1 = Some id
    /\ update_calls s1 = S (update_calls sx)
    /\ clock_reads s1 = S (clock_reads sx).
Proof.
  intros Hsp Hid Hfault. eexists. split.
  - cbv [respond bind now gets print modify update_item].
    rewrite (all_space_falsy _ Hsp).
    cbn [analysis_id_from_metadata update_calls with_stdout with_clock_reads].
    rewrite Hfault. reflexivity.
  - cbn. auto.
Qed.

(** Text found, the table accepts the update and the POST is answered
    by [r]. *)
Lemma respond_posted (w : World) (b : json) (k uid ust fn txt id : string)
    (sx : St) (r : HttpResponse) :
  Py.all_space txt = false ->
  analysis_id_from_metadata sx = Some id ->
  update_item_fault w (update_calls sx) = None ->
  requests_post w (NEXTJS_API_ENDPOINT_FOR_LAMBDA w) (payload_of b k id ust txt)
    = Returned r ->
  exists s1 s2,
    respond w b k uid ust fn txt sx =
      (if ((400 <=? status_code r) && (status_code r <? 600))%Z
       then (Raised (Exn "HTTPError" (error_msg r)), s1)
       else (Returned {| statusCode := 200;
                         body := JDict [("message", JStr "Text extracted and AI processing initiated.");
                                        ("analysisId", JStr id)] |}, s2))
    /\ (table s1 =
         apply_update id
           [("status", "TEXT_EXTRACTION_COMPLETE");
            ("lastUpdatedTimestamp", utcnow_iso w (clock_reads sx));
            ("s3Key", k); ("fileName", fn); ("userId", uid);
            ("userSelectedState", ust)]
           (table sx)
        /\ analysis_id_from_metadata s1 = Some id
        /\ update_calls s1 = S (update_calls sx)
        /\ clock_reads s1 = S (clock_reads sx))
    /\ table s2 = table s1.
Proof.
  intros Hsp Hid Hfault Hpost. eexists _, _. split; [|split].
  - cbv [respond bind now gets print modify update_item lift raise_for_status].
    rewrite (not_all_space_truthy _ Hsp).
    cbn [analysis_id_from_metadata update_calls with_stdout with_clock_reads with_table].
    rewrite Hid, Hfault. fold (payload_of b k id ust txt). rewrite Hpost.
    destruct ((400 <=? status_code r) && (status_code r <? 600))%Z; reflexivity.
  - cbn. auto.
  - reflexivity.
Qed.

(** Reduce the projections of updated states. *)
Ltac state_simpl :=
  cbn [analysis_id_from_metadata update_calls clock_reads table stdout
       s3_object_key bucket_name
       with_stdout with_clock_reads with_table with_update_calls
       with_analysis_id with_s3_object_key with_bucket_name].

Lemma attr_failed_update (id details time : string)
    (t : gmap string (gmap string string)) :
  attr (apply_update id (failed_update details time) t) id "status" = Some "FAILED"
  /\ attr (apply_update id (failed_update details time) t) id "errorDetails" = Some details.
Proof.
  unfold attr, apply_update, failed_update. rewrite lookup_insert_eq. cbn.
  split.
  - rewrite lookup_insert_ne by discriminate.
    rewrite lookup_insert_ne by discriminate.
    apply lookup_insert_eq.
  - rewrite lookup_insert_ne by discriminate.
    apply lookup_insert_eq.
Qed.

Lemma attr_complete_update (id time k fn uid ust : string)
    (t : gmap string (gmap string string)) :
  attr (apply_update id
          [("status", "TEXT_EXTRACTION_COMPLETE"); ("lastUpdatedTimestamp", time);
           ("s3Key", k); ("fileName", fn); ("userId", uid);
           ("userSelectedState", ust)] t) id "status"
    = Some "TEXT_EXTRACTION_COMPLETE".
Proof.
  unfold attr, apply_update. rewrite lookup_insert_eq. cbn.
  do 5 (rewrite lookup_insert_ne by discriminate).
  apply lookup_insert_eq.
Qed.

(** The outer [except] when the analysis id is known and the table
    accepts the update. *)
Lemma handler_except_recorded (w : World) (e : exn) (s1 : St) (id : string) :
  analysis_id_from_metadata s1 = Some id ->
  Py.truthy id = true ->
  update_item_fault w (update_calls s1) = None ->
  exists s2,
    handler_except w e s1 =
      (Returned {| statusCode := 500;
                   body := JDict [("error", JStr (exn_str e));
                                  ("analysisIdAttempted", JStr id)] |}, s2)
    /\ table s2 =
         apply_update id
           (failed_update (exn_str e) (utcnow_iso w (clock_reads s1))) (table s1)
    /\ stdout s2 =
         (stdout s1 ++ [LogError (s3_object_key s1) (bucket_name s1) e;
                        LogFailedRecorded (Some id) (exn_str e)])%list.
Proof.
  intros Hid Ht Hfault. eexists. split; [|split].
  - cbv [handler_except bind gets print modify now try_except update_item].
    cbn [analysis_id_from_metadata update_calls with_stdout with_clock_reads].
    rewrite Hid. cbn [Py.truthy_opt]. rewrite Ht. state_simpl.
    rewrite Hfault. reflexivity.
  - reflexivity.
  - cbn. rewrite <- app_assoc. reflexivity.
Qed.

(** The outer [except] when the analysis id is known and the table
    refuses the update: the failure is printed, nothing is stored. *)
Lemma handler_except_not_recorded (w : World) (e : exn) (s1 : St)
    (id : string) (db_error : exn) :
  analysis_id_from_metadata s1 = Some id ->
  Py.truthy id = true ->
  update_item_fault w (update_calls s1) = Some db_error ->
  exists s2,
    handler_except w e s1 =
      (Returned {| statusCode := 500;
                   body := JDict [("error", JStr (exn_str e));
                                  ("analysisIdAttempted", JStr id)] |}, s2)
    /\ table s2 = table s1
    /\ stdout s2 =
         (stdout s1 ++ [LogError (s3_object_key s1) (bucket_name s1) e;
                        LogFailedNotRecorded (Some id) db_error])%list.
Proof.
  intros Hid Ht Hfault. eexists. split; [|split].
  - cbv [handler_except bind gets print modify now try_except update_item].
    cbn [analysis_id_from_metadata update_calls with_stdout with_clock_reads].
    rewrite Hid. cbn [Py.truthy_opt]. rewrite Ht. state_simpl.
    rewrite Hfault. reflexivity.
  - reflexivity.
  - cbn. rewrite <- app_assoc. reflexivity.
Qed.

(** The outer [except] when no analysis id is known: the table is not
    called. *)
Lemma handler_except_no_id (w : World) (e : exn) (s1 : St) :
  Py.truthy_opt (analysis_id_from_metadata s1) = false ->
  exists s2,
    handler_except w e s1 =
      (Returned {| statusCode := 500;
                   body := JDict [("error", JStr (exn_str e));
                                  ("analysisIdAttempted", JStr (s3_object_key s1))] |}, s2)
    /\ table s2 = table s1
    /\ update_calls s2 = update_calls s1
    /\ stdout s2 =
         (stdout s1 ++ [LogError (s3_object_key s1) (bucket_name s1) e;
                        LogNoAnalysisId])%list.
Proof.
  intros Hid. eexists. split; [|split; [|split]].
  - cbv [handler_except bind gets print modify now try_except update_item].
    cbn [analysis_id_from_metadata update_calls with_stdout with_clock_reads].
    rewrite Hid. reflexivity.
  - reflexivity.
  - reflexivity.
  - cbn. rewrite <- app_assoc. reflexivity.
Qed.

(** The outer [except] always answers 500. *)
Lemma handler_except_500 (w : World) (e : exn) (s1 : St) :
  exists attempted s2,
    handler_except w e s1 =
      (Returned {| statusCode := 500;
                   body := JDict [("error", JStr (exn_str e));
                                  ("analysisIdAttempted", attempted)] |}, s2).
Proof.
  destruct (Py.truthy_opt (analysis_id_from_metadata s1)) eqn:Ht.
  - destruct (analysis_id_from_metadata s1) as [id|] eqn:Hid; [|discriminate].
    destruct (update_item_fault w (update_calls s1)) as [db|] eqn:Hf.
    + destruct (handler_except_not_recorded w e s1 id db Hid Ht Hf) as (s2 & H & _).
      eauto.
    + destruct (handler_except_recorded w e s1 id Hid Ht Hf) as (s2 & H & _).
      eauto.
  - destruct (handler_except_no_id w e s1 Ht) as (s2 & H & _). eauto.
Qed.

Ltac frame_simpl :=
  cbn [analysis_id_from_metadata update_calls clock_reads table stdout
       s3_object_key bucket_name
       with_stdout with_clock_reads with_table with_update_calls
       with_analysis_id with_s3_object_key with_bucket_name].

Ltac frame_simpl_in H :=
  cbn [analysis_id_from_metadata update_calls clock_reads table stdout
       s3_object_key bucket_name
       with_stdout with_clock_reads with_table with_update_calls
       with_analysis_id with_s3_object_key with_bucket_name] in H.

Lemma apply_update_other (id id' : string) (sets : list (string * string))
    (t : gmap string (gmap string string)) :
  id' <> id -> apply_update id sets t !! id' = t !! id'.
Proof. intros H. unfold apply_update. apply lookup_insert_ne. congruence. Qed.

(** One [update_item] call: the counter advances by one, and at most the
    item under the given key changes. *)
Lemma update_item_effect (w : World) (key : option string)
    (sets : list (string * string)) (s : St) (o : outcome unit) (s' : St) :
  update_item w key sets s = (o, s') ->
  update_calls s' = S (update_calls s)
  /\ clock_reads s' = clock_reads s
  /\ analysis_id_from_metadata s' = analysis_id_from_metadata s
  /\ s3_object_key s' = s3_object_key s
  /\ (forall id', key <> Some id' -> table s' !! id' = table s !! id').
Proof.
  unfold update_item.
  destruct (update_item_fault w (update_calls s)); [intros [= <- <-]; cbn; auto|].
  destruct key as [id|]; intros [= <- <-]; cbn; repeat split.
  intros id' H. apply apply_update_other. congruence.
Qed.

(** The inner [try] with its [except], entered without an analysis id:
    either it returns with a non-empty id in place, or it raises with no
    usable id; in both cases it has not called the table, so the
    [update_item] of lines 66-79 is never executed. *)
Lemma metadata_block_cases (w : World) (u0 st0 f0 : string) (s : St)
    (o : outcome (string * string * string)) (s' : St) :
  analysis_id_from_metadata s = None ->
  try_except (metadata_try w u0 st0 f0) (metadata_except w) s = (o, s') ->
  table s' = table s
  /\ update_calls s' = update_calls s
  /\ clock_reads s' = clock_reads s
  /\ s3_object_key s' = s3_object_key s
  /\ ((exists v id, o = Returned v /\ analysis_id_from_metadata s' = Some id
                    /\ Py.truthy id = true)
      \/ (exists e, o = Raised e
                    /\ Py.truthy_opt (analysis_id_from_metadata s') = false)).
Proof.
  intros Hnone.
  cbv [try_except metadata_try metadata_except bind gets lift print modify].
  destruct (head_object w (bucket_name s) (s3_object_key s)) as [head|e].
  - frame_simpl.
    destruct (default ∅ head !! "analysis-id") as [id|] eqn:Hid; cbn [Py.truthy_opt].
    + destruct (Py.truthy id) eqn:Ht; cbn [negb].
      * cbv [ret]. frame_simpl. intros [= <- <-]. frame_simpl.
        repeat split. left. eauto.
      * cbv [raise]. frame_simpl. cbn [Py.truthy_opt]. rewrite Ht. cbn [negb].
        intros [= <- <-]. frame_simpl. repeat split. right.
        eexists. split; [reflexivity|]. exact Ht.
    + cbn [negb]. cbv [raise]. frame_simpl. cbn [Py.truthy_opt negb].
      intros [= <- <-]. frame_simpl. repeat split. right. eauto.
  - frame_simpl. rewrite Hnone. cbn [Py.truthy_opt negb]. cbv [raise].
    intros [= <- <-]. frame_simpl. repeat split. right.
    eexists. split; [reflexivity|]. rewrite Hnone. reflexivity.
Qed.

(** [respond] calls the table once and reads the clock once, whatever
    its outcome, and changes no item but the one of the analysis id. *)
Lemma respond_cases (w : World) (b : json) (k uid ust fn txt : string)
    (sx : St) (o : outcome Response) (s' : St) :
  respond w b k uid ust fn txt sx = (o, s') ->
  update_calls s' = S (update_calls sx)
  /\ clock_reads s' = S (clock_reads sx)
  /\ analysis_id_from_metadata s' = analysis_id_from_metadata sx
  /\ s3_object_key s' = s3_object_key sx
  /\ (forall id', analysis_id_from_metadata sx <> Some id' ->
        table s' !! id' = table sx !! id').
Proof.
  cbv [respond bind now gets print modify lift raise_for_status ret raise].
  frame_simpl.
  destruct (negb (Py.truthy (Py.strip txt))).
  - destruct (update_item _ _ _ _) as [[u|e] s1] eqn:Hu;
      apply update_item_effect in Hu; frame_simpl_in Hu;
      destruct Hu as (Hc & Hk & Ha & Hkey & Ht);
      intros [= <- <-]; repeat split; assumption.
  - destruct (update_item _ _ _ _) as [[u|e] s1] eqn:Hu;
      apply update_item_effect in Hu; frame_simpl_in Hu;
      destruct Hu as (Hc & Hk & Ha & Hkey & Ht).
    + frame_simpl. destruct (requests_post _ _ _) as [r|e].
      * destruct ((400 <=? status_code r) && (status_code r <? 600))%Z;
          frame_simpl; intros [= <- <-]; frame_simpl; repeat split; assumption.
      * intros [= <- <-]; frame_simpl; repeat split; assumption.
    + intros [= <- <-]; repeat split; assumption.
Qed.

(** The outer [except] always answers 500; it reads the clock once, calls
    the table once if an analysis id is known and not at all otherwise,
    and changes no item but the one of that id. *)
Lemma handler_except_cases (w : World) (e : exn) (s1 : St)
    (o : outcome Response) (s2 : St) :
  handler_except w e s1 = (o, s2) ->
  (exists resp, o = Returned resp /\ statusCode resp = 500%Z)
  /\ update_calls s2
       = (if Py.truthy_opt (analysis_id_from_metadata s1)
          then S (update_calls s1) else update_calls s1)
  /\ clock_reads s2 = S (clock_reads s1)
  /\ analysis_id_from_metadata s2 = analysis_id_from_metadata s1
  /\ (forall id', analysis_id_from_metadata s1 <> Some id' ->
        table s2 !! id' = table s1 !! id').
Proof.
  cbv [handler_except bind gets print modify now try_except ret].
  frame_simpl.
  destruct (Py.truthy_opt (analysis_id_from_metadata s1)).
  - destruct (update_item _ _ _ _) as [[u|e'] s'] eqn:Hu;
      apply update_item_effect in Hu; frame_simpl_in Hu;
      destruct Hu as (Hc & Hk & Ha & Hkey & Ht);
      frame_simpl; intros [= <- <-]; frame_simpl;
      (split; [eexists; split; reflexivity|]); repeat split; assumption.
  - intros [= <- <-]. frame_simpl.
    split; [eexists; split; reflexivity|]. repeat split.
Qed.

(** The outer [try], entered without an analysis id.  Either it raises
    before [respond] is reached, and then neither the table nor the clock
    has been used; or [respond] ran, with one table call and one clock
    reading, a non-empty analysis id in place, and no item changed but
    the one of that id. *)
Lemma handler_try_cases (w : World) (event : json) (s0 : St)
    (o : outcome Response) (s1 : St) :
  analysis_id_from_metadata s0 = None ->
  handler_try w event s0 = (o, s1) ->
  ((exists e, o = Raised e)
   /\ table s1 = table s0
   /\ update_calls s1 = update_calls s0
   /\ clock_reads s1 = clock_reads s0)
  \/ ((exists id, analysis_id_from_metadata s1 = Some id /\ Py.truthy id = true)
      /\ update_calls s1 = S (update_calls s0)
      /\ clock_reads s1 = S (clock_reads s0)
      /\ (forall id', analysis_id_from_metadata s1 <> Some id' ->
            table s1 !! id' = table s0 !! id')).
Proof.
  intros Hnone. unfold handler_try. cbv [bind lift modify print].
  destruct (Json.path event bucket_path) as [b|e];
    [|intros [= <- <-]; left; split; [eauto | repeat split]].
  destruct (Json.path event key_path) as [raw|e];
    [|intros [= <- <-]; left; split; [eauto | repeat split]].
  destruct (unquote_plus_value w raw) as [k|e];
    [|intros [= <- <-]; left; split; [eauto | repeat split]].
  frame_simpl.
  set (sp := with_stdout _ _).
  destruct (index_split_last "/" k sp) as [f0 Hidx]. rewrite Hidx.
  destruct (try_except _ _ sp) as [[md|e] sm] eqn:Hm;
    apply metadata_block_cases in Hm; [| exact Hnone | | exact Hnone];
    destruct Hm as (Htab & Hcalls & Hclock & Hkey & Hcase).
  - destruct Hcase as [(v & id & _ & Hid & Ht) | (e & He & _)]; [|discriminate He].
    destruct md as [[uid ust] fn].
    destruct (get_object_read w b k) as [pdf|e];
      [|intros [= <- <-]; left; split; [eauto | repeat split; assumption]].
    destruct (fitz_text w pdf) as [txt|e];
      [|intros [= <- <-]; left; split; [eauto | repeat split; assumption]].
    intros Hr. apply respond_cases in Hr.
    destruct Hr as (Hc & Hk & Ha & _ & Hfoot).
    right. split; [|split; [|split]].
    + exists id. rewrite Ha. auto.
    + rewrite Hc, Hcalls. reflexivity.
    + rewrite Hk, Hclock. reflexivity.
    + intros id' Hne. rewrite Ha in Hne. rewrite (Hfoot id' Hne), Htab. reflexivity.
  - intros [= <- <-]. left. split; [eauto | repeat split; assumption].
Qed.

(** C4 (as stated, refuted): an exception raised during processing
    need not lead to a record-store update.  For an object uploaded
    without the [analysis-id] metadata the inner [try] raises
    [ValueError]; the handler answers 500, but the table is never
    called and stays empty. *)
Lemma missing_analysis_id_not_recorded_example :
  (exists s1,
      handler_try (Scenario.world_with ∅ "lease text" 200 Scenario.no_fault)
        Scenario.s3_event (try_entry Scenario.s3_event Scenario.fresh)
      = (Raised (Exn "ValueError" "Missing 'analysis-id' in S3 metadata, cannot proceed."),
         s1))
  /\ (handler (Scenario.world_with ∅ "lease text" 200 Scenario.no_fault)
        Scenario.s3_event Scenario.fresh).1
     = Returned {| statusCode := 500;
                   body := JDict [("error", JStr "Missing 'analysis-id' in S3 metadata, cannot proceed.");
                                  ("analysisIdAttempted", JStr "uploads/a.pdf")] |}
  /\ table (handler (Scenario.world_with ∅ "lease text" 200 Scenario.no_fault)
              Scenario.s3_event Scenario.fresh).2 = ∅
  /\ update_calls (handler (Scenario.world_with ∅ "lease text" 200 Scenario.no_fault)
                     Scenario.s3_event Scenario.fresh).2 = 0.
Proof.
  split; [|split; [|split]].
  - eexists. vm_compute. reflexivity.
  - vm_compute. reflexivity.
  - vm_compute. reflexivity.
  - vm_compute. reflexivity.
Qed.

(** C4 (amended): the outer [try] lets no exception through.  Lines
    17-18 are before it: an exception of one of the two [boto3]
    constructors leaves the function, before anything is printed or
    written.  Once both have returned (and standard output taking what
    is printed), every call returns a response with status 200, 400 or
    500.  An exception raised inside the outer [try] is answered with
    500 and its message.  If the analysis id has been read from the
    metadata by then, the handler also tries to set the record's status
    to FAILED with the message as error details; when that write fails
    too, the failure is only printed and the table is left as it was.
    If no analysis id is known by then, the whole call has not called
    the table: the table and the number of [update_item] calls are
    those the call started with. *)
Theorem handler_contains_exceptions
    (boto3 : Boto3) (w : World) (event : json) (s : St) :
  (forall e,
      client_s3 boto3 = Raised e
      \/ (client_s3 boto3 = Returned tt /\ resource_dynamodb boto3 = Raised e) ->
      handler_entry boto3 w event s = (Raised e, s))
  /\ (client_s3 boto3 = Returned tt ->
      resource_dynamodb boto3 = Returned tt ->
      (exists resp,
          (handler_entry boto3 w event s).1 = Returned resp
          /\ (statusCode resp = 200 \/ statusCode resp = 400 \/ statusCode resp = 500)%Z)
      /\ (forall e s1,
          configured w = true ->
          handler_try w event (try_entry event s) = (Raised e, s1) ->
          exists attempted s2,
            handler_entry boto3 w event s =
              (Returned {| statusCode := 500;
                           body := JDict [("error", JStr (exn_str e));
                                          ("analysisIdAttempted", attempted)] |}, s2)
            /\ (forall id,
                 analysis_id_from_metadata s1 = Some id -> Py.truthy id = true ->
                 (update_item_fault w (update_calls s1) = None ->
                    attr (table s2) id "status" = Some "FAILED"
                    /\ attr (table s2) id "errorDetails" = Some (exn_str e))
                 /\ (forall db_error,
                       update_item_fault w (update_calls s1) = Some db_error ->
                       table s2 = table s1
                       /\ last (stdout s2)
                          = Some (LogFailedNotRecorded (Some id) db_error)))
            /\ (Py.truthy_opt (analysis_id_from_metadata s1) = false ->
                 table s2 = table s /\ update_calls s2 = update_calls s))).
Proof.
  split.
  - intros e [H1 | [H1 H2]]; unfold handler_entry; cbv [bind lift].
    + rewrite H1. reflexivity.
    + rewrite H1, H2. reflexivity.
  - intros H1 H2.
    assert (Hentry : handler_entry boto3 w event s = handler w event s).
    { unfold handler_entry. cbv [bind lift]. rewrite H1, H2. reflexivity. }
    rewrite Hentry. split.
    + rewrite handler_run. destruct (configured w).
      * unfold try_except.
        destruct (handler_try w event (try_entry event s)) as [[resp|e] s1] eqn:E.
        -- apply handler_try_status in E. exists resp. cbn. tauto.
        -- destruct (handler_except_500 w e s1) as (att & s2 & H).
           rewrite H. eexists. split; [reflexivity|]. cbn. auto.
      * eexists. split; [reflexivity|]. cbn. auto.
    + intros e s1 Hc Htry. rewrite handler_run, Hc. unfold try_except. rewrite Htry.
      destruct (handler_except_500 w e s1) as (att & s2 & H).
      exists att, s2. split; [exact H|]. split.
      * intros id Hid Ht. split.
        -- intros Hf.
           destruct (handler_except_recorded w e s1 id Hid Ht Hf)
             as (s2' & H' & Htab & _).
           rewrite H in H'. injection H' as _ <-. rewrite Htab.
           apply attr_failed_update.
        -- intros db Hf.
           destruct (handler_except_not_recorded w e s1 id db Hid Ht Hf)
             as (s2' & H' & Htab & Hout).
           rewrite H in H'. injection H' as _ <-. split; [exact Htab|].
           rewrite Hout.
           change [LogError (s3_object_key s1) (bucket_name s1) e;
                   LogFailedNotRecorded (Some id) db]
             with ([LogError (s3_object_key s1) (bucket_name s1) e]
                     ++ [LogFailedNotRecorded (Some id) db])%list.
           rewrite app_assoc. apply last_snoc.
      * intros Hno.
        destruct (handler_except_no_id w e s1 Hno) as (s2' & H' & Htab & Hcalls & _).
        rewrite H in H'. injection H' as _ <-.
        destruct (handler_try_cases w event (try_entry event s) (Raised e) s1
                    eq_refl Htry)
          as [(_ & Htab1 & Hcalls1 & _) | ((id & Hid & Ht) & _)].
        -- rewrite Htab, Hcalls, Htab1, Hcalls1. split; reflexivity.
        -- rewrite Hid in Hno. cbn [Py.truthy_opt] in Hno. congruence.
Qed.

(** [handler_contains_exceptions] on four runs: a constructor that
    raises, and one for each way the outer [except] can go. *)
Lemma handler_contains_exceptions_witness :
  (* no region configured: the exception leaves the function *)
  handler_entry Scenario.no_clients
    (Scenario.world "lease text" 200 Scenario.no_fault)
    Scenario.s3_event Scenario.fresh
  = (Raised Scenario.no_region, Scenario.fresh)
  (* no analysis id: answered 500, table untouched and not called *)
  /\ ((handler_entry Scenario.clients
         (Scenario.world_with ∅ "lease text" 200 Scenario.no_fault)
         Scenario.s3_event Scenario.fresh).1
        = Returned {| statusCode := 500;
                      body := JDict [("error", JStr "Missing 'analysis-id' in S3 metadata, cannot proceed.");
                                     ("analysisIdAttempted", JStr "uploads/a.pdf")] |}
      /\ table (handler_entry Scenario.clients
                  (Scenario.world_with ∅ "lease text" 200 Scenario.no_fault)
                  Scenario.s3_event Scenario.fresh).2 = ∅
      /\ update_calls (handler_entry Scenario.clients
                         (Scenario.world_with ∅ "lease text" 200 Scenario.no_fault)
                         Scenario.s3_event Scenario.fresh).2 = 0)
  (* analysis id known, failure recorded *)
  /\ (attr (table (handler_entry Scenario.clients
                     (Scenario.world "lease text" 503 Scenario.no_fault)
                     Scenario.s3_event Scenario.fresh).2) "A1" "status"
        = Some "FAILED"
      /\ attr (table (handler_entry Scenario.clients
                        (Scenario.world "lease text" 503 Scenario.no_fault)
                        Scenario.s3_event Scenario.fresh).2) "A1" "errorDetails"
        = Some "Error for url: https://app.example/api/process")
  (* analysis id known, recording the failure fails too *)
  /\ last (stdout (handler_entry Scenario.clients
                     (Scenario.world "lease text" 503 Scenario.second_write_fails)
                     Scenario.s3_event Scenario.fresh).2)
       = Some (LogFailedNotRecorded (Some "A1") Scenario.throttled).
Proof.
  split; [|split; [|split]].
  - apply (proj1 (handler_contains_exceptions Scenario.no_clients
                    (Scenario.world "lease text" 200 Scenario.no_fault)
                    Scenario.s3_event Scenario.fresh)).
    left. reflexivity.
  - destruct (proj2 (handler_contains_exceptions Scenario.clients
                (Scenario.world_with ∅ "lease text" 200 Scenario.no_fault)
                Scenario.s3_event Scenario.fresh) eq_refl eq_refl) as [_ H].
    assert (Htry :
      handler_try (Scenario.world_with ∅ "lease text" 200 Scenario.no_fault)
        Scenario.s3_event (try_entry Scenario.s3_event Scenario.fresh)
      = (Raised (Exn "ValueError" "Missing 'analysis-id' in S3 metadata, cannot proceed."),
         (handler_try (Scenario.world_with ∅ "lease text" 200 Scenario.no_fault)
            Scenario.s3_event (try_entry Scenario.s3_event Scenario.fresh)).2))
      by (vm_compute; reflexivity).
    specialize (H _ _ eq_refl Htry). destruct H as (att & s2 & Hrun & _ & Hno).
    assert (Hnone :
      Py.truthy_opt
        (analysis_id_from_metadata
           (handler_try (Scenario.world_with ∅ "lease text" 200 Scenario.no_fault)
              Scenario.s3_event (try_entry Scenario.s3_event Scenario.fresh)).2)
      = false) by (vm_compute; reflexivity).
    destruct (Hno Hnone) as [Htab Hcalls].
    split; [|split].
    + vm_compute. reflexivity.
    + rewrite Hrun. cbn [snd]. rewrite Htab. reflexivity.
    + rewrite Hrun. cbn [snd]. rewrite Hcalls. reflexivity.
  - destruct (proj2 (handler_contains_exceptions Scenario.clients
                (Scenario.world "lease text" 503 Scenario.no_fault)
                Scenario.s3_event Scenario.fresh) eq_refl eq_refl) as [_ H].
    assert (Htry :
      handler_try (Scenario.world "lease text" 503 Scenario.no_fault)
        Scenario.s3_event (try_entry Scenario.s3_event Scenario.fresh)
      = (Raised (Exn "HTTPError" "Error for url: https://app.example/api/process"),
         (handler_try (Scenario.world "lease text" 503 Scenario.no_fault)
            Scenario.s3_event (try_entry Scenario.s3_event Scenario.fresh)).2))
      by (vm_compute; reflexivity).
    specialize (H _ _ eq_refl Htry). destruct H as (att & s2 & Hrun & Hid & _).
    assert (Hsome :
      analysis_id_from_metadata
        (handler_try (Scenario.world "lease text" 503 Scenario.no_fault)
           Scenario.s3_event (try_entry Scenario.s3_event Scenario.fresh)).2
      = Some "A1") by (vm_compute; reflexivity).
    destruct (Hid "A1" Hsome eq_refl) as [Hok _].
    rewrite Hrun. cbn [snd]. apply Hok. vm_compute. reflexivity.
  - destruct (proj2 (handler_contains_exceptions Scenario.clients
                (Scenario.world "lease text" 503 Scenario.second_write_fails)
                Scenario.s3_event Scenario.fresh) eq_refl eq_refl) as [_ H].
    assert (Htry :
      handler_try (Scenario.world "lease text" 503 Scenario.second_write_fails)
        Scenario.s3_event (try_entry Scenario.s3_event Scenario.fresh)
      = (Raised (Exn "HTTPError" "Error for url: https://app.example/api/process"),
         (handler_try (Scenario.world "lease text" 503 Scenario.second_write_fails)
            Scenario.s3_event (try_entry Scenario.s3_event Scenario.fresh)).2))
      by (vm_compute; reflexivity).
    specialize (H _ _ eq_refl Htry). destruct H as (att & s2 & Hrun & Hid & _).
    assert (Hsome :
      analysis_id_from_metadata
        (handler_try (Scenario.world "lease text" 503 Scenario.second_write_fails)
           Scenario.s3_event (try_entry Scenario.s3_event Scenario.fresh)).2
      = Some "A1") by (vm_compute; reflexivity).
    destruct (Hid "A1" Hsome eq_refl) as [_ Hfail].
    rewrite Hrun. cbn [snd]. apply (Hfail Scenario.throttled). vm_compute. reflexivity.
Defined.

(** Discharge [extracts] on a concrete run. *)
Ltac prove_extracts raw head :=
  split; [reflexivity|];
  exists raw, head, (@nil Byte.byte);
  repeat split; vm_compute; reflexivity.

(** C5 (as stated, refuted): with blank extracted text the answer is not
    always 400.  When the table refuses its updates, the update of the
    blank-text branch raises, the outer [except] answers 500, and the
    record's status is not set. *)
Lemma blank_text_with_failing_table_example :
  extracts (Scenario.world "   " 200 Scenario.always_throttled) Scenario.s3_event
    (JStr "bk") "uploads/a.pdf" "A1" "unknown_state_metadata_error" "   "
  /\ Py.all_space "   " = true
  /\ (handler (Scenario.world "   " 200 Scenario.always_throttled)
        Scenario.s3_event Scenario.fresh).1
     = Returned {| statusCode := 500;
                   body := JDict [("error", JStr "ProvisionedThroughputExceededException");
                                  ("analysisIdAttempted", JStr "A1")] |}
  /\ attr (table (handler (Scenario.world "   " 200 Scenario.always_throttled)
                    Scenario.s3_event Scenario.fresh).2) "A1" "status" = None.
Proof.
  split; [|split; [|split]].
  - prove_extracts "uploads/a.pdf" (Some ({[ "analysis-id" := "A1" ]} : gmap string string)).
  - reflexivity.
  - vm_compute. reflexivity.
  - vm_compute. reflexivity.
Qed.

(** C5 (amended): when the text extracted from the PDF is empty or
    whitespace-only and the record-store update of that branch
    succeeds, the handler returns 400 and the record's status is FAILED
    (with the fixed error details); when that update raises, the
    exception is handled like any other and the handler returns 500. *)
Theorem blank_text_is_400 (w : World) (event : json) (s : St)
    (b : json) (k id ust txt : string) :
  extracts w event b k id ust txt ->
  Py.all_space txt = true ->
  (update_item_fault w (update_calls s) = None ->
     (handler w event s).1
       = Returned {| statusCode := 400;
                     body := JDict [("error", JStr "No text extracted from PDF.")] |}
     /\ attr (table (handler w event s).2) id "status" = Some "FAILED"
     /\ attr (table (handler w event s).2) id "errorDetails"
          = Some "No text could be extracted. The PDF might be image-based or empty.")
  /\ (forall e,
       update_item_fault w (update_calls s) = Some e ->
       (handler w event s).1
         = Returned {| statusCode := 500;
                       body := JDict [("error", JStr (exn_str e));
                                      ("analysisIdAttempted", JStr id)] |}).
Proof.
  intros [Hc (raw & head & pdf & Hb & Hk & -> & Hh & Hid & Ht & -> & Hg & Hf)] Hsp.
  destruct (handler_try_extracts w event (try_entry event s) b raw id txt head pdf
              Hb Hk Hh Hid Ht Hg Hf)
    as (uid & fn & sx & Htry & Htab & Hcalls & Hclock & Haid).
  cbn in Hcalls.
  rewrite handler_run, Hc. unfold try_except. rewrite Htry. split.
  - intros Hfault. rewrite <- Hcalls in Hfault.
    destruct (respond_blank_recorded w b (unquote_plus w raw) uid
                (default "unknown_state_metadata_error"
                   (default ∅ head !! "user-selected-state"))
                fn txt id sx Hsp Haid Hfault) as (s1 & Hr & Ht1).
    rewrite Hr. cbn [fst snd]. split; [reflexivity|].
    rewrite Ht1. apply attr_failed_update.
  - intros e Hfault. rewrite <- Hcalls in Hfault.
    destruct (respond_blank_fault w b (unquote_plus w raw) uid
                (default "unknown_state_metadata_error"
                   (default ∅ head !! "user-selected-state"))
                fn txt id sx e Hsp Haid Hfault) as (s1 & Hr & _ & Ha1 & _).
    rewrite Hr.
    destruct (update_item_fault w (update_calls s1)) as [db|] eqn:Hf2.
    + destruct (handler_except_not_recorded w e s1 id db Ha1 Ht Hf2) as (s2 & H & _).
      rewrite H. reflexivity.
    + destruct (handler_except_recorded w e s1 id Ha1 Ht Hf2) as (s2 & H & _).
      rewrite H. reflexivity.
Qed.

(** [blank_text_is_400] on a blank PDF, with a table that accepts the
    update and with one that refuses it. *)
Lemma blank_text_is_400_witness :
  ((handler (Scenario.world "   " 200 Scenario.no_fault) Scenario.s3_event Scenario.fresh).1
     = Returned {| statusCode := 400;
                   body := JDict [("error", JStr "No text extracted from PDF.")] |}
   /\ attr (table (handler (Scenario.world "   " 200 Scenario.no_fault)
                     Scenario.s3_event Scenario.fresh).2) "A1" "status" = Some "FAILED"
   /\ attr (table (handler (Scenario.world "   " 200 Scenario.no_fault)
                     Scenario.s3_event Scenario.fresh).2) "A1" "errorDetails"
        = Some "No text could be extracted. The PDF might be image-based or empty.")
  /\ (handler (Scenario.world "" 200 Scenario.always_throttled)
        Scenario.s3_event Scenario.fresh).1
     = Returned {| statusCode := 500;
                   body := JDict [("error", JStr "ProvisionedThroughputExceededException");
                                  ("analysisIdAttempted", JStr "A1")] |}.
Proof.
  split.
  - destruct (blank_text_is_400 (Scenario.world "   " 200 Scenario.no_fault)
                Scenario.s3_event Scenario.fresh
                (JStr "bk") "uploads/a.pdf" "A1" "unknown_state_metadata_error" "   ")
      as [Hok _].
    + prove_extracts "uploads/a.pdf" (Some ({[ "analysis-id" := "A1" ]} : gmap string string)).
    + reflexivity.
    + apply Hok. reflexivity.
  - destruct (blank_text_is_400 (Scenario.world "" 200 Scenario.always_throttled)
                Scenario.s3_event Scenario.fresh
                (JStr "bk") "uploads/a.pdf" "A1" "unknown_state_metadata_error" "")
      as [_ Hfail].
    + prove_extracts "uploads/a.pdf" (Some ({[ "analysis-id" := "A1" ]} : gmap string string)).
    + reflexivity.
    + apply (Hfail Scenario.throttled). reflexivity.
Defined.

(** C6 (as stated, refuted): a non-2xx answer does not always give 500,
    and a 500 does not always come with a FAILED record.  A 304 answer
    passes [raise_for_status]: the handler returns 200 and the record
    stays at TEXT_EXTRACTION_COMPLETE.  And after a 503 answer, when the
    write of the [except] clause fails, the handler returns 500 but the
    record stays at TEXT_EXTRACTION_COMPLETE without error details. *)
Lemma non_2xx_answers_example :
  ((handler (Scenario.world "lease text" 304 Scenario.no_fault)
      Scenario.s3_event Scenario.fresh).1
     = Returned {| statusCode := 200;
                   body := JDict [("message", JStr "Text extracted and AI processing initiated.");
                                  ("analysisId", JStr "A1")] |}
   /\ attr (table (handler (Scenario.world "lease text" 304 Scenario.no_fault)
                     Scenario.s3_event Scenario.fresh).2) "A1" "status"
        = Some "TEXT_EXTRACTION_COMPLETE")
  /\ ((handler (Scenario.world "lease text" 503 Scenario.second_write_fails)
         Scenario.s3_event Scenario.fresh).1
        = Returned {| statusCode := 500;
                      body := JDict [("error", JStr "Error for url: https://app.example/api/process");
                                     ("analysisIdAttempted", JStr "A1")] |}
      /\ attr (table (handler (Scenario.world "lease text" 503 Scenario.second_write_fails)
                        Scenario.s3_event Scenario.fresh).2) "A1" "status"
           = Some "TEXT_EXTRACTION_COMPLETE"
      /\ attr (table (handler (Scenario.world "lease text" 503 Scenario.second_write_fails)
                        Scenario.s3_event Scenario.fresh).2) "A1" "errorDetails"
           = None).
Proof.
  repeat split; vm_compute; reflexivity.
Qed.

(** C6 (amended): when the notification POST is answered with a 4XX or
    5XX status, the handler returns 500 with the [HTTPError] message;
    if the record-store write of the [except] clause succeeds, the
    record's status is FAILED and its error details are that message,
    and if that write fails the record keeps TEXT_EXTRACTION_COMPLETE.
    Any other status, 2xx or not, lets the handler return 200. *)
Theorem bad_status_is_500 (w : World) (event : json) (s : St)
    (b : json) (k id ust txt : string) (r : HttpResponse) :
  extracts w event b k id ust txt ->
  Py.all_space txt = false ->
  update_item_fault w (update_calls s) = None ->
  requests_post w (NEXTJS_API_ENDPOINT_FOR_LAMBDA w) (payload_of b k id ust txt)
    = Returned r ->
  ((400 <= status_code r < 600)%Z ->
     (handler w event s).1
       = Returned {| statusCode := 500;
                     body := JDict [("error", JStr (error_msg r));
                                    ("analysisIdAttempted", JStr id)] |}
     /\ (update_item_fault w (S (update_calls s)) = None ->
           attr (table (handler w event s).2) id "status" = Some "FAILED"
           /\ attr (table (handler w event s).2) id "errorDetails" = Some (error_msg r))
     /\ (forall db_error,
           update_item_fault w (S (update_calls s)) = Some db_error ->
           attr (table (handler w event s).2) id "status"
             = Some "TEXT_EXTRACTION_COMPLETE"))
  /\ (~ (400 <= status_code r < 600)%Z ->
     (handler w event s).1
       = Returned {| statusCode := 200;
                     body := JDict [("message", JStr "Text extracted and AI processing initiated.");
                                    ("analysisId", JStr id)] |}
     /\ attr (table (handler w event s).2) id "status"
          = Some "TEXT_EXTRACTION_COMPLETE").
Proof.
  intros [Hc (raw & head & pdf & Hb & Hk & -> & Hh & Hid & Ht & -> & Hg & Hf)]
    Hsp Hfault Hpost.
  destruct (handler_try_extracts w event (try_entry event s) b raw id txt head pdf
              Hb Hk Hh Hid Ht Hg Hf)
    as (uid & fn & sx & Htry & Htab & Hcalls & Hclock & Haid).
  cbn in Hcalls. rewrite <- Hcalls in *.
  destruct (respond_posted w b (unquote_plus w raw) uid
              (default "unknown_state_metadata_error"
                 (default ∅ head !! "user-selected-state"))
              fn txt id sx r Hsp Haid Hfault Hpost)
    as (s1 & s2 & Hr & (Ht1 & Ha1 & Hc1 & _) & Ht2).
  rewrite handler_run, Hc. unfold try_except. rewrite Htry, Hr.
  split; intros Hcode.
  - replace ((400 <=? status_code r) && (status_code r <? 600))%Z with true
      by (symmetry; apply andb_true_iff; split; [apply Z.leb_le | apply Z.ltb_lt]; lia).
    rewrite <- Hc1.
    destruct (update_item_fault w (update_calls s1)) as [db|] eqn:Hf2.
    + destruct (handler_except_not_recorded
                  w (Exn "HTTPError" (error_msg r)) s1 id db Ha1 Ht Hf2)
        as (s3 & H & Ht3 & _).
      rewrite H. cbn [fst snd]. split; [reflexivity|]. split; [discriminate|].
      intros db' _. rewrite Ht3, Ht1. apply attr_complete_update.
    + destruct (handler_except_recorded
                  w (Exn "HTTPError" (error_msg r)) s1 id Ha1 Ht Hf2)
        as (s3 & H & Ht3 & _).
      rewrite H. cbn [fst snd]. split; [reflexivity|]. split; [|discriminate].
      intros _. rewrite Ht3. apply attr_failed_update.
  - replace ((400 <=? status_code r) && (status_code r <? 600))%Z with false.
    + cbn [fst snd]. split; [reflexivity|].
      rewrite Ht2, Ht1. apply attr_complete_update.
    + symmetry. apply andb_false_iff.
      destruct (Z.leb_spec 400 (status_code r)); [|left; reflexivity].
      destruct (Z.ltb_spec (status_code r) 600); [|right; reflexivity].
      exfalso. apply Hcode. lia.
Qed.

(** [bad_status_is_500] on a 503 answer, on a 404 answer with a failing
    second write, and on a 204 answer. *)
Lemma bad_status_is_500_witness :
  ((handler (Scenario.world "lease text" 503 Scenario.no_fault)
      Scenario.s3_event Scenario.fresh).1
     = Returned {| statusCode := 500;
                   body := JDict [("error", JStr "Error for url: https://app.example/api/process");
                                  ("analysisIdAttempted", JStr "A1")] |}
   /\ attr (table (handler (Scenario.world "lease text" 503 Scenario.no_fault)
                     Scenario.s3_event Scenario.fresh).2) "A1" "status" = Some "FAILED"
   /\ attr (table (handler (Scenario.world "lease text" 503 Scenario.no_fault)
                     Scenario.s3_event Scenario.fresh).2) "A1" "errorDetails"
        = Some "Error for url: https://app.example/api/process")
  /\ attr (table (handler (Scenario.world "lease text" 404 Scenario.second_write_fails)
                    Scenario.s3_event Scenario.fresh).2) "A1" "status"
       = Some "TEXT_EXTRACTION_COMPLETE"
  /\ (handler (Scenario.world "lease text" 204 Scenario.no_fault)
        Scenario.s3_event Scenario.fresh).1
     = Returned {| statusCode := 200;
                   body := JDict [("message", JStr "Text extracted and AI processing initiated.");
                                  ("analysisId", JStr "A1")] |}.
Proof.
  split; [|split].
  - destruct (bad_status_is_500 (Scenario.world "lease text" 503 Scenario.no_fault)
                Scenario.s3_event Scenario.fresh
                (JStr "bk") "uploads/a.pdf" "A1" "unknown_state_metadata_error" "lease text"
                {| status_code := 503; text := "";
                   error_msg := "Error for url: https://app.example/api/process" |})
      as [Hbad _].
    + prove_extracts "uploads/a.pdf" (Some ({[ "analysis-id" := "A1" ]} : gmap string string)).
    + reflexivity.
    + reflexivity.
    + reflexivity.
    + destruct Hbad as (Hresp & Hrec & _); [cbn; lia|].
      split; [exact Hresp|]. apply Hrec. reflexivity.
  - destruct (bad_status_is_500 (Scenario.world "lease text" 404 Scenario.second_write_fails)
                Scenario.s3_event Scenario.fresh
                (JStr "bk") "uploads/a.pdf" "A1" "unknown_state_metadata_error" "lease text"
                {| status_code := 404; text := "";
                   error_msg := "Error for url: https://app.example/api/process" |})
      as [Hbad _].
    + prove_extracts "uploads/a.pdf" (Some ({[ "analysis-id" := "A1" ]} : gmap string string)).
    + reflexivity.
    + reflexivity.
    + reflexivity.
    + destruct Hbad as (_ & _ & Hkeep); [cbn; lia|].
      apply (Hkeep Scenario.throttled). reflexivity.
  - destruct (bad_status_is_500 (Scenario.world "lease text" 204 Scenario.no_fault)
                Scenario.s3_event Scenario.fresh
                (JStr "bk") "uploads/a.pdf" "A1" "unknown_state_metadata_error" "lease text"
                {| status_code := 204; text := "";
                   error_msg := "Error for url: https://app.example/api/process" |})
      as [_ Hgood].
    + prove_extracts "uploads/a.pdf" (Some ({[ "analysis-id" := "A1" ]} : gmap string string)).
    + reflexivity.
    + reflexivity.
    + reflexivity.
    + apply Hgood. cbn. lia.
Defined.

End Handler.

(** * Further properties of the code *)

(** ** The routers: errors, reachable decisions, the third router *)

Section RouterTables.

Lemma last_None_nil {A} (l : list A) : last l = None <-> l = [].
Proof. apply last_None. Qed.

(** Policy A raises exactly after the Executor on an empty transcript,
    Policy B exactly after the Executor or the Researcher on an empty
    transcript; what is raised is the [IndexError] of [messages[-1]]. *)
Theorem routers_raise_iff (a : Agent) (g : GroupChat) :
  ((exists e, (Research.state_transition a g).1 = Raised e)
     <-> a = executor /\ messages g = [])
  /\ ((exists e, (Research3.state_transition_2 a g).1 = Raised e)
     <-> (a = executor \/ a = researcher) /\ messages g = [])
  /\ (forall e, (Research.state_transition a g).1 = Raised e -> e = Py.IndexError)
  /\ (forall e, (Research3.state_transition_2 a g).1 = Raised e -> e = Py.IndexError).
Proof.
  split; [|split; [|split]].
  - split.
    + intros [e H]. destruct a; try discriminate H.
      split; [reflexivity|].
      rewrite state_transition_executor in H.
      destruct (last (messages g)) eqn:E; [discriminate H|].
      apply last_None_nil, E.
    + intros [-> Hnil]. exists Py.IndexError.
      rewrite state_transition_executor, Hnil. reflexivity.
  - split.
    + intros [e H]. destruct a; try discriminate H.
      * split; [right; reflexivity|].
        rewrite state_transition_2_researcher in H.
        destruct (last (messages g)) eqn:E; [discriminate H|].
        apply last_None_nil, E.
      * split; [left; reflexivity|].
        rewrite state_transition_2_executor in H.
        destruct (last (messages g)) eqn:E; [discriminate H|].
        apply last_None_nil, E.
    + intros [[-> | ->] Hnil]; exists Py.IndexError.
      * rewrite state_transition_2_executor, Hnil. reflexivity.
      * rewrite state_transition_2_researcher, Hnil. reflexivity.
  - intros e H. destruct a; try discriminate H.
    rewrite state_transition_executor in H.
    destruct (last (messages g)); cbn in H; congruence.
  - intros e H. destruct a; try discriminate H.
    + rewrite state_transition_2_researcher in H.
      destruct (last (messages g)); cbn in H; congruence.
    + rewrite state_transition_2_executor in H.
      destruct (last (messages g)); cbn in H; congruence.
Qed.

(** [routers_raise_iff] read at the empty transcript after the Executor
    and after the Researcher. *)
Lemma routers_raise_iff_witness :
  (exists e, (Research.state_transition executor {| messages := [] |}).1 = Raised e)
  /\ (exists e, (Research3.state_transition_2 researcher {| messages := [] |}).1 = Raised e)
  /\ (Research.state_transition executor {| messages := [] |}).1 = Raised Py.IndexError.
Proof.
  destruct (routers_raise_iff executor {| messages := [] |}) as (HA & _ & HeA & _).
  destruct (routers_raise_iff researcher {| messages := [] |}) as (_ & HB & _ & _).
  split; [|split].
  - apply HA. split; reflexivity.
  - apply HB. split; [right; reflexivity | reflexivity].
  - destruct (proj2 HA (conj eq_refl eq_refl)) as [e He].
    rewrite He. f_equal. apply HeA, He.
Defined.

(** Policy A never hands the turn to the Writer and Policy B never hands
    it to the Writer or to the Admin: whatever the speaker and the
    transcript, a returned decision is one of the listed ones (the Writer
    can only be chosen by the automatic selection behind ["auto"]). *)
Theorem routers_reachable_decisions (a : Agent) (g : GroupChat) (d : RoutingDecision) :
  ((Research.state_transition a g).1 = Returned d ->
     d ∈ [ret_agent planner; ret_agent executor; ret_agent researcher;
          ret_agent user_proxy; ret_auto; ret_None])
  /\ ((Research3.state_transition_2 a g).1 = Returned d ->
     d ∈ [ret_agent planner; ret_agent executor; ret_agent researcher;
          ret_auto; ret_None]).
Proof.
  split; intros H.
  - destruct a; try (cbn in H; injection H as <-; set_solver).
    rewrite state_transition_executor in H.
    destruct (last (messages g)) as [m|]; [|discriminate H].
    cbn in H. injection H as <-.
    destruct (String.eqb (content m) "exitcode: 1"); set_solver.
  - destruct a; try (cbn in H; injection H as <-; set_solver).
    + rewrite state_transition_2_researcher in H.
      destruct (last (messages g)) as [m|]; [|discriminate H].
      cbn in H. injection H as <-.
      destruct (Py.contains "COMPLETE" (content m)); set_solver.
    + rewrite state_transition_2_executor in H.
      destruct (last (messages g)) as [m|]; [|discriminate H].
      cbn in H. injection H as <-.
      destruct (Py.contains "COMPLETE" (content m)); set_solver.
Qed.

(** [routers_reachable_decisions] on the decisions after the Writer. *)
Lemma routers_reachable_decisions_witness :
  ret_agent user_proxy
    ∈ [ret_agent planner; ret_agent executor; ret_agent researcher;
       ret_agent user_proxy; ret_auto; ret_None]
  /\ ret_auto
    ∈ [ret_agent planner; ret_agent executor; ret_agent researcher;
       ret_auto; ret_None].
Proof.
  split.
  - apply (proj1 (routers_reachable_decisions writer {| messages := [] |}
                    (ret_agent user_proxy))).
    reflexivity.
  - apply (proj2 (routers_reachable_decisions writer {| messages := [] |} ret_auto)).
    reflexivity.
Defined.

(** Policy B after the Executor mirrors its Researcher branch: with
    ["COMPLETE"] anywhere in the last message the Planner is next; without
    it the Executor hands over to the Researcher, and the Researcher back
    to the Executor. *)
Theorem policy_B_executor (init : list Message) (m : Message) :
  ((exists pre post, content m = pre ++ "COMPLETE" ++ post) ->
     (Research3.state_transition_2 executor {| messages := init ++ [m] |}).1
       = Returned (ret_agent planner))
  /\ (~ (exists pre post, content m = pre ++ "COMPLETE" ++ post) ->
     (Research3.state_transition_2 executor {| messages := init ++ [m] |}).1
       = Returned (ret_agent researcher)
     /\ (Research3.state_transition_2 researcher {| messages := init ++ [m] |}).1
       = Returned (ret_agent executor)).
Proof.
  rewrite state_transition_2_executor, state_transition_2_researcher.
  cbn [messages]. rewrite last_snoc.
  split; intros H.
  - apply contains_spec in H. rewrite H. reflexivity.
  - destruct (Py.contains "COMPLETE" (content m)) eqn:E; [|split; reflexivity].
    exfalso. apply H, contains_spec, E.
Qed.

(** [policy_B_executor] on an execution report with and without the
    token. *)
Lemma policy_B_executor_witness :
  (Research3.state_transition_2 executor
     {| messages := [{| name := "Executor"; content := "search COMPLETE, 3 results" |}] |}).1
    = Returned (ret_agent planner)
  /\ (Research3.state_transition_2 executor
     {| messages := [{| name := "Executor"; content := "exitcode: 0" |}] |}).1
    = Returned (ret_agent researcher).
Proof.
  split.
  - apply (proj1 (policy_B_executor []
                    {| name := "Executor"; content := "search COMPLETE, 3 results" |})).
    exists "search ", ", 3 results". reflexivity.
  - apply (proj2 (policy_B_executor [] {| name := "Executor"; content := "exitcode: 0" |})).
    intros H. apply contains_spec in H. cbn in H. discriminate H.
Defined.

Lemma append_empty_r (s : string) : s ++ "" = s.
Proof.
  induction s as [|c s IH]; [reflexivity|].
  change (String c (s ++ "") = String c s). f_equal. exact IH.
Qed.

Lemma contains_refl (s : string) : Py.contains s s = true.
Proof. apply contains_spec. exists "", "". cbn. symmetry. apply append_empty_r. Qed.

Lemma research3_state_transition_researcher (g : GroupChat) :
  Research3.state_transition researcher g =
    match last (messages g) with
    | Some m =>
        (Returned (ret_agent (if Py.contains "COMPLETE" (content m)
                              then writer else planner)), g)
    | None => (Raised Py.IndexError, g)
    end.
Proof.
  cbv [Research3.state_transition bind gets ret raise Py.index is_];
    cbn -[Py.getitem Py.contains String.eqb].
  rewrite getitem_minus_one.
  destruct (last (messages g)) as [m|]; [|reflexivity].
  destruct (String.eqb (content m) "COMPLETE") eqn:E.
  - apply String.eqb_eq in E. rewrite E, contains_refl. reflexivity.
  - destruct (Py.contains "COMPLETE" (content m)); reflexivity.
Qed.

(** The third router, [state_transition] of [research3.py], after the
    Researcher: the Writer is next exactly when ["COMPLETE"] occurs in the
    last message, otherwise the Planner; the equality test of line 187
    adds nothing to the substring test of line 188.  On an empty
    transcript the branch raises [IndexError]. *)
Theorem research3_researcher_routes (init : list Message) (m : Message) :
  ((exists pre post, content m = pre ++ "COMPLETE" ++ post) ->
     (Research3.state_transition researcher {| messages := init ++ [m] |}).1
       = Returned (ret_agent writer))
  /\ (~ (exists pre post, content m = pre ++ "COMPLETE" ++ post) ->
     (Research3.state_transition researcher {| messages := init ++ [m] |}).1
       = Returned (ret_agent planner))
  /\ (Research3.state_transition researcher {| messages := [] |}).1
       = Raised Py.IndexError.
Proof.
  rewrite !research3_state_transition_researcher.
  cbn [messages]. rewrite last_snoc.
  split; [|split].
  - intros H. apply contains_spec in H. rewrite H. reflexivity.
  - intros H. destruct (Py.contains "COMPLETE" (content m)) eqn:E; [|reflexivity].
    exfalso. apply H, contains_spec, E.
  - reflexivity.
Qed.

(** [research3_researcher_routes] on a report that is the bare token and
    on an unfinished one. *)
Lemma research3_researcher_routes_witness :
  (Research3.state_transition researcher
     {| messages := [{| name := "Researcher"; content := "COMPLETE" |}] |}).1
    = Returned (ret_agent writer)
  /\ (Research3.state_transition researcher
     {| messages := [{| name := "Researcher"; content := "still gathering data" |}] |}).1
    = Returned (ret_agent planner).
Proof.
  split.
  - apply (proj1 (research3_researcher_routes []
                    {| name := "Researcher"; content := "COMPLETE" |})).
    exists "", "". reflexivity.
  - apply (proj1 (proj2 (research3_researcher_routes []
                    {| name := "Researcher"; content := "still gathering data" |}))).
    intros H. apply contains_spec in H. cbn in H. discriminate H.
Defined.

(** Apart from the Researcher branch the third router is Policy A: for
    every other speaker and every transcript the two functions give the
    same outcome. *)
Theorem research3_state_transition_agrees (a : Agent) (g : GroupChat) :
  a <> researcher ->
  Research3.state_transition a g = Research.state_transition a g.
Proof.
  intros H. destruct a; try reflexivity. contradiction.
Qed.

(** [research3_state_transition_agrees] after the Executor. *)
Lemma research3_state_transition_agrees_witness :
  Research3.state_transition executor
    {| messages := [{| name := "Executor"; content := "exitcode: 1" |}] |}
  = Research.state_transition executor
    {| messages := [{| name := "Executor"; content := "exitcode: 1" |}] |}.
Proof.
  apply (research3_state_transition_agrees executor
           {| messages := [{| name := "Executor"; content := "exitcode: 1" |}] |}).
  discriminate.
Defined.

End RouterTables.

(** ** Termination predicates *)

Section TerminationPredicates.

Import Termination.

Lemma append_assoc (a b c : string) : (a ++ b) ++ c = a ++ b ++ c.
Proof.
  induction a as [|x a IH]; [reflexivity|].
  change (String x ((a ++ b) ++ c) = String x (a ++ b ++ c)). f_equal. exact IH.
Qed.

Lemma endswith_spec (suffix s : string) :
  Py.endswith suffix s = true <-> exists pre, s = pre ++ suffix.
Proof.
  induction s as [|c s IH]; cbn [Py.endswith].
  - rewrite orb_false_r, String.eqb_eq. split.
    + intros <-. exists "". reflexivity.
    + intros [pre H]. destruct pre; [exact H | discriminate H].
  - rewrite orb_true_iff, String.eqb_eq, IH. split.
    + intros [<- | [pre ->]].
      * exists "". reflexivity.
      * exists (String c pre). reflexivity.
    + intros [pre H]. destruct pre as [|c' pre].
      * left. exact H.
      * right. injection H as _ H. exists pre. exact H.
Qed.

(** [rstrip] removes a whitespace tail and nothing else. *)
Lemma rstrip_decompose (s : string) :
  exists ws, s = Py.rstrip s ++ ws /\ Py.all_space ws = true.
Proof.
  induction s as [|c s (ws & Hs & Hws)]; [exists ""; split; reflexivity|].
  cbn [Py.rstrip]. destruct (Py.rstrip s) as [|c' r] eqn:E.
  - destruct (Py.isspace c) eqn:Hc.
    + exists (String c s). split; [reflexivity|].
      change (s = ws) in Hs. cbn [Py.all_space]. rewrite Hc, Hs. exact Hws.
    + exists ws. split; [|exact Hws].
      change (String c s = String c ("" ++ ws)). f_equal. exact Hs.
  - exists ws. split; [|exact Hws].
    change (String c s = String c (String c' r ++ ws)). f_equal. exact Hs.
Qed.

Lemma rstrip_all_space (ws : string) :
  Py.all_space ws = true -> Py.rstrip ws = "".
Proof.
  induction ws as [|c ws IH]; [reflexivity|].
  cbn [Py.all_space Py.rstrip]. intros H. apply andb_true_iff in H as [Hc Hws].
  rewrite (IH Hws), Hc. reflexivity.
Qed.

Lemma rstrip_append_space (a ws : string) :
  Py.all_space ws = true -> Py.rstrip (a ++ ws) = Py.rstrip a.
Proof.
  intros Hws. induction a as [|c a IH].
  - cbn. apply rstrip_all_space, Hws.
  - change (Py.rstrip (String c (a ++ ws)) = Py.rstrip (String c a)).
    cbn [Py.rstrip]. rewrite IH. reflexivity.
Qed.

Lemma rstrip_keeps_nonspace_end (a : string) (c : ascii) :
  Py.isspace c = false ->
  Py.rstrip (a ++ String c "") = a ++ String c "".
Proof.
  intros Hc. induction a as [|x a IH].
  - change (Py.rstrip (String c "") = String c "").
    cbn [Py.rstrip]. rewrite Hc. reflexivity.
  - change (Py.rstrip (String x (a ++ String c "")) = String x (a ++ String c "")).
    cbn [Py.rstrip]. rewrite IH.
    destruct (a ++ String c "") eqn:E; [|reflexivity].
    destruct a; discriminate E.
Qed.

Lemma rstrip_terminate (body ws : string) :
  Py.all_space ws = true ->
  Py.rstrip (body ++ "TERMINATE" ++ ws) = body ++ "TERMINATE".
Proof.
  intros Hws. rewrite <- append_assoc, (rstrip_append_space _ _ Hws).
  change "TERMINATE" with ("TERMINAT" ++ "E"). rewrite <- append_assoc.
  apply rstrip_keeps_nonspace_end. reflexivity.
Qed.

(** The guarded predicate never raises on a message whose content is a
    string, is [None] or is missing.  On a string it is true exactly when
    the content ends with ["TERMINATE"] up to trailing whitespace; a
    [None] or missing content is not a termination message. *)
Theorem is_termination_msg_spec (x : gmap string value) :
  (forall s, x !! "content" = Some (VStr s) ->
     exists v, is_termination_msg x = Returned v
       /\ (truth v = true <->
           exists body ws, s = body ++ "TERMINATE" ++ ws /\ Py.all_space ws = true))
  /\ (x !! "content" = None \/ x !! "content" = Some VNone ->
     exists v, is_termination_msg x = Returned v /\ truth v = false).
Proof.
  split.
  - intros s Hx. unfold is_termination_msg, get_content. rewrite Hx.
    cbn -[Py.truthy Py.endswith Py.rstrip].
    destruct (Py.truthy s) eqn:Ht.
    + eexists. split; [reflexivity|]. cbn [truth]. rewrite endswith_spec. split.
      * intros [pre Hpre]. destruct (rstrip_decompose s) as (ws & Hs & Hws).
        exists pre, ws. split; [|exact Hws].
        rewrite Hs at 1. rewrite Hpre. apply append_assoc.
      * intros (body & ws & -> & Hws). exists body. apply rstrip_terminate, Hws.
    + eexists. split; [reflexivity|]. cbn [truth]. rewrite Ht. split; [discriminate|].
      intros (body & ws & -> & _). destruct body; discriminate Ht.
  - intros [Hx | Hx]; unfold is_termination_msg, get_content; rewrite Hx;
      eexists; split; reflexivity.
Qed.

(** [is_termination_msg_spec] on a closing message with a trailing
    newline and on a message without content. *)
Lemma is_termination_msg_spec_witness :
  (exists v, is_termination_msg {[ "content" := VStr "All done. TERMINATE  " ]} = Returned v
             /\ truth v = true)
  /\ (exists v, is_termination_msg {[ "role" := VStr "assistant" ]} = Returned v
                /\ truth v = false).
Proof.
  split.
  - assert (Hx : ({[ "content" := VStr "All done. TERMINATE  " ]} : gmap string value)
                   !! "content" = Some (VStr "All done. TERMINATE  "))
      by (vm_compute; reflexivity).
    destruct (proj1 (is_termination_msg_spec _) _ Hx) as (v & Hv & Hiff).
    exists v. split; [exact Hv|]. apply Hiff.
    exists "All done. ", "  ". split; reflexivity.
  - apply (proj2 (is_termination_msg_spec {[ "role" := VStr "assistant" ]})).
    left. vm_compute. reflexivity.
Defined.

(** The predicate of [app.py] lacks the guard: on a [None] content it
    raises [AttributeError], where the guarded one answers false; on a
    string content both have the same truth value. *)
Theorem unguarded_termination_msg (x : gmap string value) :
  (x !! "content" = Some VNone ->
     (exists e, is_termination_msg_unguarded x = Raised e
                /\ exn_class e = "AttributeError")
     /\ is_termination_msg x = Returned VNone)
  /\ (forall s, x !! "content" = Some (VStr s) ->
     exists b v, is_termination_msg_unguarded x = Returned (VBool b)
       /\ is_termination_msg x = Returned v /\ truth v = b).
Proof.
  split.
  - intros Hx. unfold is_termination_msg_unguarded, is_termination_msg, get_content.
    rewrite Hx. split; [eexists; split; reflexivity | reflexivity].
  - intros s Hx. unfold is_termination_msg_unguarded, is_termination_msg, get_content.
    rewrite Hx. cbn -[Py.truthy Py.endswith Py.rstrip].
    destruct (Py.truthy s) eqn:Ht.
    + eexists _, _. repeat split.
    + destruct s; [|discriminate Ht].
      exists false, (VStr ""). repeat split.
Qed.

(** [unguarded_termination_msg] on a function-call message, whose content
    is [None], and on a plain reply. *)
Lemma unguarded_termination_msg_witness :
  (exists e, is_termination_msg_unguarded {[ "content" := VNone ]} = Raised e
             /\ exn_class e = "AttributeError")
  /\ (exists b v, is_termination_msg_unguarded {[ "content" := VStr "CONTINUE" ]}
                    = Returned (VBool b)
        /\ is_termination_msg {[ "content" := VStr "CONTINUE" ]} = Returned v
        /\ truth v = b).
Proof.
  split.
  - apply (proj1 (unguarded_termination_msg {[ "content" := VNone ]})).
    vm_compute. reflexivity.
  - apply (proj2 (unguarded_termination_msg {[ "content" := VStr "CONTINUE" ]}) "CONTINUE").
    vm_compute. reflexivity.
Defined.

End TerminationPredicates.

(** ** Tool adapters, beyond the failing remote call *)

Section AdapterResults.

(** [get_youtube_transcription] never raises: it returns what the API
    returned and prints nothing, or, when the API raised, returns the
    empty list after printing one line with the exception's text. *)
Theorem get_youtube_transcription_never_raises {E}
    (get_transcript : string -> list string -> outcome (list E))
    (video_id : string) (languages : list string) (out : list string) :
  exists v out',
    Tools.get_youtube_transcription get_transcript video_id languages out
      = (Returned v, out')
    /\ ((get_transcript video_id languages = Returned v /\ out' = out)
        \/ (exists e, get_transcript video_id languages = Raised e
                      /\ v = []
                      /\ out' = (out ++ [("Error fetching transcript: " ++ exn_str e)%string])%list)).
Proof.
  cbv [Tools.get_youtube_transcription try_except bind lift ret Tools.print modify].
  destruct (get_transcript video_id languages) as [v|e] eqn:Hget.
  - exists v, out. split; [reflexivity|]. left. split; reflexivity.
  - eexists _, _. split; [reflexivity|]. right. exists e. repeat split.
Qed.

(** [bing_search] returns a text exactly when the request was answered
    with a status outside 400..599, and then it is the body of that
    answer; whatever happens, it prints nothing. *)
Theorem bing_search_returns_iff
    (requests_get : Tools.SearchRequest -> outcome HttpResponse)
    (api_key : option string) (search_term : string) (max_results : Z)
    (out : list string) (t : string) :
  ((Tools.bing_search requests_get api_key search_term max_results out).1 = Returned t
     <-> exists r,
         requests_get {| Tools.url := Tools.search_url; Tools.subscription_key := api_key;
                         Tools.q := search_term; Tools.count := max_results |} = Returned r
         /\ ~ (400 <= status_code r < 600)%Z
         /\ t = text r)
  /\ (Tools.bing_search requests_get api_key search_term max_results out).2 = out.
Proof.
  cbv [Tools.bing_search bind lift raise_for_status raise ret].
  destruct (requests_get _) as [r|e].
  - destruct (Z.leb_spec 400 (status_code r)) as [Hlo|Hlo];
      destruct (Z.ltb_spec (status_code r) 600) as [Hhi|Hhi]; cbn.
    + split; [|reflexivity]. split; [discriminate|].
      intros (r' & [= <-] & Hn & _). exfalso. apply Hn. lia.
    + split; [|reflexivity]. split.
      * intros [= <-]. exists r. repeat split. lia.
      * intros (r' & [= <-] & _ & ->). reflexivity.
    + split; [|reflexivity]. split.
      * intros [= <-]. exists r. repeat split. lia.
      * intros (r' & [= <-] & _ & ->). reflexivity.
    + split; [|reflexivity]. split.
      * intros [= <-]. exists r. repeat split. lia.
      * intros (r' & [= <-] & _ & ->). reflexivity.
  - cbn. split; [|reflexivity]. split; [discriminate|].
    intros (r' & H & _). discriminate H.
Qed.

(** [bing_search_returns_iff] on a 200 answer. *)
Lemma bing_search_returns_iff_witness :
  (Tools.bing_search
     (fun _ => Returned {| status_code := 200; text := "{}"; error_msg := "" |})
     (Some "key") "Navigator of the seas" 2 []).1
  = Returned "{}".
Proof.
  apply (proj1 (bing_search_returns_iff
                  (fun _ => Returned {| status_code := 200; text := "{}"; error_msg := "" |})
                  (Some "key") "Navigator of the seas" 2 [] "{}")).
  exists {| status_code := 200; text := "{}"; error_msg := "" |}.
  split; [reflexivity|]. split; [cbn; lia | reflexivity].
Defined.

(** [scraper_tool] never looks at the status of the answer: any page
    whose document has a title is scraped, title and paragraphs in
    document order.  A document without a title makes it raise
    [AttributeError], and an exception of the request reaches the caller;
    nothing is printed in any case. *)
Theorem scraper_tool_outcomes {Tag}
    (requests_get : string -> string -> outcome Tools.Page)
    (BeautifulSoup : string -> Tools.Soup Tag)
    (url : string) (out : list string) :
  (forall page t,
      requests_get url Tools.user_agent = Returned page ->
      Tools.soup_title (BeautifulSoup (Tools.page_content page)) = Some t ->
      Tools.scraper_tool requests_get BeautifulSoup url out
        = (Returned {| Tools.ed_title := t;
                       Tools.ed_paragraphs :=
                         Tools.soup_find_all_p (BeautifulSoup (Tools.page_content page)) |},
           out))
  /\ (forall page,
      requests_get url Tools.user_agent = Returned page ->
      Tools.soup_title (BeautifulSoup (Tools.page_content page)) = None ->
      Tools.scraper_tool requests_get BeautifulSoup url out
        = (Raised (Exn "AttributeError" "'NoneType' object has no attribute 'text'"), out))
  /\ (forall e,
      requests_get url Tools.user_agent = Raised e ->
      Tools.scraper_tool requests_get BeautifulSoup url out = (Raised e, out)).
Proof.
  split; [|split].
  - intros page t Hp Ht. cbv [Tools.scraper_tool bind lift]. rewrite Hp, Ht. reflexivity.
  - intros page Hp Ht. cbv [Tools.scraper_tool bind lift]. rewrite Hp, Ht. reflexivity.
  - intros e Hp. cbv [Tools.scraper_tool bind lift]. rewrite Hp. reflexivity.
Qed.

(** [scraper_tool_outcomes] on a 404 page that has a title, on a page
    without one, and on an unreachable host. *)
Lemma scraper_tool_outcomes_witness :
  Tools.scraper_tool
      (fun _ _ => Returned {| Tools.page_status := 404; Tools.page_content := "not found" |})
      (fun _ => {| Tools.soup_title := Some "Not Found"; Tools.soup_find_all_p := ["gone"] |})
      "https://example.org/x" []
    = (Returned {| Tools.ed_title := "Not Found"; Tools.ed_paragraphs := ["gone"] |}, [])
  /\ Tools.scraper_tool
      (fun _ _ => Returned {| Tools.page_status := 200; Tools.page_content := "" |})
      (fun _ => {| Tools.soup_title := None; Tools.soup_find_all_p := @nil string |})
      "https://example.org/x" []
    = (Raised (Exn "AttributeError" "'NoneType' object has no attribute 'text'"), [])
  /\ Tools.scraper_tool
      (fun _ _ => Raised Scenario.unreachable)
      (fun _ => {| Tools.soup_title := None; Tools.soup_find_all_p := @nil string |})
      "https://example.org/x" []
    = (Raised Scenario.unreachable, []).
Proof.
  split; [|split].
  - apply (proj1 (scraper_tool_outcomes
                    (fun _ _ => Returned {| Tools.page_status := 404;
                                            Tools.page_content := "not found" |})
                    (fun _ => {| Tools.soup_title := Some "Not Found";
                                 Tools.soup_find_all_p := ["gone"] |})
                    "https://example.org/x" [])
             {| Tools.page_status := 404; Tools.page_content := "not found" |} "Not Found");
      reflexivity.
  - apply (proj1 (proj2 (scraper_tool_outcomes
                    (fun _ _ => Returned {| Tools.page_status := 200;
                                            Tools.page_content := "" |})
                    (fun _ => {| Tools.soup_title := None;
                                 Tools.soup_find_all_p := @nil string |})
                    "https://example.org/x" []))
             {| Tools.page_status := 200; Tools.page_content := "" |});
      reflexivity.
  - apply (proj2 (proj2 (scraper_tool_outcomes
                    (fun _ _ => Raised Scenario.unreachable)
                    (fun _ => {| Tools.soup_title := None;
                                 Tools.soup_find_all_p := @nil string |})
                    "https://example.org/x" [])) Scenario.unreachable).
    reflexivity.
Defined.

End AdapterResults.

(** ** The PDF-processing handler, path by path *)

Section HandlerPaths.

Import ProcessLeasePdf.

Ltac frame_simpl :=
  cbn [analysis_id_from_metadata update_calls clock_reads table stdout
       s3_object_key bucket_name
       with_stdout with_clock_reads with_table with_update_calls
       with_analysis_id with_s3_object_key with_bucket_name].

Ltac frame_simpl_in H :=
  cbn [analysis_id_from_metadata update_calls clock_reads table stdout
       s3_object_key bucket_name
       with_stdout with_clock_reads with_table with_update_calls
       with_analysis_id with_s3_object_key with_bucket_name] in H.

(** The outer [try] up to line 83, for an event that names an object
    with a non-empty analysis id. *)
Lemma handler_try_prefix (w : World) (event : json) (s0 : St)
    (b : json) (k : string) (md : gmap string string) (id f0 : string) :
  names w event b k ->
  tagged w b k md id ->
  last (Py.split "/" k) = Some f0 ->
  handler_try w event s0 =
    (pdf_content <~ lift (get_object_read w b k) ;;
     extracted_text <~ lift (fitz_text w pdf_content) ;;
     respond w b k
       (default "unknown_user_metadata_error" (md !! "user-id"))
       (default "unknown_state_metadata_error" (md !! "user-selected-state"))
       (default f0 (md !! "original-filename"))
       extracted_text)
      (after_metadata b k md id f0 s0).
Proof.
  intros (raw & Hb & Hk & ->) (head & Hh & -> & Hid & Ht) Hlast.
  set (k := unquote_plus w raw) in *.
  set (s1 := with_stdout (stdout s0 ++ [LogProcessing b k])%list
               (with_s3_object_key k (with_bucket_name b s0))).
  assert (Hidx : Py.index (Py.split "/" k) (-1) s1 = (Returned f0, s1)).
  { unfold Py.index. rewrite getitem_minus_one, Hlast. reflexivity. }
  pose proof (metadata_block_ok w "unknown_user_metadata_error"
                "unknown_state_metadata_error" f0 s1 head id Hh Hid Ht) as Hm.
  unfold handler_try. cbv [bind lift modify print]. rewrite Hb, Hk.
  cbn [unquote_plus_value]. fold k. cbn [stdout with_s3_object_key with_bucket_name].
  change (with_stdout _ _) with s1 at 1.
  rewrite Hidx. rewrite Hm.
  unfold after_metadata, s1. cbn. rewrite <- app_assoc. reflexivity.
Qed.

Lemma split_shape (sep : ascii) (k : string) :
  exists dir f,
    last (Py.split sep k) = Some f
    /\ k = dir ++ f
    /\ Py.contains (String sep "") f = false
    /\ ((dir = "" /\ Py.split sep k = [f])
        \/ ((exists d, dir = d ++ String sep "")
            /\ exists x y ys, Py.split sep k = x :: y :: ys)).
Proof.
  induction k as [|c k (dir & f & Hlast & Hk & Hfree & Hshape)].
  - exists "", "". repeat split. left. split; reflexivity.
  - cbn [Py.split]. destruct (Ascii.eqb c sep) eqn:Hc.
    + apply Ascii.eqb_eq in Hc. subst c.
      exists (String sep dir), f. split; [|split; [|split]].
      * destruct (Py.split sep k) as [|x xs] eqn:E; [discriminate Hlast|].
        exact Hlast.
      * change (String sep k = String sep (dir ++ f)). f_equal. exact Hk.
      * exact Hfree.
      * right. split.
        -- destruct Hshape as [[-> _] | [[d ->] _]].
           ++ exists "". reflexivity.
           ++ exists (String sep d). reflexivity.
        -- destruct (Py.split sep k) as [|x xs] eqn:E; [discriminate Hlast|].
           eauto.
    + destruct Hshape as [[-> Hone] | [[d ->] (x & y & ys & Hmany)]].
      * rewrite Hone. exists "", (String c f). split; [reflexivity|].
        split; [change (k = f) in Hk; change (String c k = String c f);
                f_equal; exact Hk|]. split.
        -- cbn [Py.contains Py.startswith]. rewrite Ascii.eqb_sym, Hc. exact Hfree.
        -- left. split; reflexivity.
      * rewrite Hmany. rewrite Hmany in Hlast.
        exists (String c (d ++ String sep "")), f. split; [exact Hlast|].
        split; [change (String c k = String c ((d ++ String sep "") ++ f));
                f_equal; exact Hk|].
        split; [exact Hfree|].
        right. split; [exists (String c d); reflexivity | eauto].
Qed.

(** Line 40, [s3_object_key.split('/')[-1]], never raises and yields the
    part of the key after its last slash: the key is a directory part,
    empty or ending in a slash, followed by a file name without slash. *)
Theorem default_file_name_is_last_segment (k : string) (s : St) :
  exists dir f,
    Py.index (Py.split "/" k) (-1) s = (Returned f, s)
    /\ k = dir ++ f
    /\ Py.contains "/" f = false
    /\ (dir = "" \/ exists d, dir = d ++ "/").
Proof.
  destruct (split_shape "/" k) as (dir & f & Hlast & Hk & Hfree & Hshape).
  exists dir, f. split; [|split; [|split]].
  - unfold Py.index. rewrite getitem_minus_one, Hlast. reflexivity.
  - exact Hk.
  - exact Hfree.
  - destruct Hshape as [[-> _] | [Hd _]]; [left; reflexivity | right; exact Hd].
Qed.



(** Whatever the event and the services do, a call of the handler changes
    no item of the table other than the one stored under the analysis id
    it read from the object's metadata. *)
Theorem handler_writes_one_item (w : World) (event : json) (s : St) (id' : string) :
  analysis_id_from_metadata (handler w event s).2 <> Some id' ->
  table (handler w event s).2 !! id' = table s !! id'.
Proof.
  rewrite handler_run. destruct (configured w); [|reflexivity].
  unfold try_except.
  destruct (handler_try w event (try_entry event s)) as [[resp|e] s1] eqn:Htry;
    apply handler_try_cases in Htry; try reflexivity.
  - cbn [fst snd]. intros Hne.
    destruct Htry as [([e He] & _) | (_ & _ & _ & Hfoot)]; [discriminate He|].
    rewrite (Hfoot id' Hne). reflexivity.
  - destruct (handler_except w e s1) as [o s2] eqn:Hex.
    apply handler_except_cases in Hex. destruct Hex as (_ & _ & _ & Ha & Hfoot2).
    cbn [fst snd]. rewrite Ha. intros Hne. rewrite (Hfoot2 id' Hne).
    destruct Htry as [(_ & Htab & _) | (_ & _ & _ & Hfoot)].
    + rewrite Htab. reflexivity.
    + rewrite (Hfoot id' Hne). reflexivity.
Qed.

(** [handler_writes_one_item] on a run that marks [A1] as failed, seen
    from another item. *)
Lemma handler_writes_one_item_witness :
  table (handler (Scenario.world "lease text" 503 Scenario.no_fault)
           Scenario.s3_event Scenario.fresh).2 !! "B2"
  = table Scenario.fresh !! "B2".
Proof.
  apply (handler_writes_one_item (Scenario.world "lease text" 503 Scenario.no_fault)
           Scenario.s3_event Scenario.fresh "B2").
  vm_compute. discriminate.
Defined.

(** A call of the handler calls the table at most twice and reads the
    clock at most twice; a call answered with 200 or 400 has called the
    table exactly once and read the clock exactly once. *)
Theorem handler_call_bounds (w : World) (event : json) (s : St) :
  (update_calls s <= update_calls (handler w event s).2 <= update_calls s + 2)
  /\ (clock_reads s <= clock_reads (handler w event s).2 <= clock_reads s + 2)
  /\ (forall resp,
        (handler w event s).1 = Returned resp ->
        statusCode resp <> 500%Z ->
        update_calls (handler w event s).2 = S (update_calls s)
        /\ clock_reads (handler w event s).2 = S (clock_reads s)).
Proof.
  rewrite handler_run. destruct (configured w).
  - unfold try_except.
    destruct (handler_try w event (try_entry event s)) as [[resp|e] s1] eqn:Htry;
      apply handler_try_cases in Htry; try reflexivity;
      cbn [try_entry update_calls clock_reads with_bucket_name with_s3_object_key
           with_analysis_id with_stdout] in Htry.
    + cbn [fst snd].
      destruct Htry as [([e He] & _) | (_ & Hc & Hk & _)]; [discriminate He|].
      rewrite Hc, Hk. repeat split; lia.
    + destruct (handler_except w e s1) as [o s2] eqn:Hex.
      apply handler_except_cases in Hex.
      destruct Hex as ((r500 & -> & H500) & Hc2 & Hk2 & _).
      cbn [fst snd]. rewrite Hc2, Hk2.
      assert (Hcalls : update_calls s <= update_calls s1 <= update_calls s + 1
                       /\ clock_reads s <= clock_reads s1 <= clock_reads s + 1).
      { destruct Htry as [(_ & _ & Hc & Hk) | (_ & Hc & Hk & _)];
          rewrite Hc, Hk; lia. }
      split; [|split].
      * destruct (Py.truthy_opt (analysis_id_from_metadata s1)); lia.
      * lia.
      * intros resp [= <-] Hne. contradiction.
  - cbn. split; [lia|]. split; [lia|]. intros resp [= <-] Hne. contradiction.
Qed.

(** [handler_call_bounds] on a blank PDF, answered with 400 after one
    table call. *)
Lemma handler_call_bounds_witness :
  update_calls (handler (Scenario.world "   " 200 Scenario.no_fault)
                  Scenario.s3_event Scenario.fresh).2 = 1
  /\ clock_reads (handler (Scenario.world "   " 200 Scenario.no_fault)
                    Scenario.s3_event Scenario.fresh).2 = 1.
Proof.
  apply (proj2 (proj2 (handler_call_bounds (Scenario.world "   " 200 Scenario.no_fault)
                         Scenario.s3_event Scenario.fresh))
           {| statusCode := 400;
              body := JDict [("error", JStr "No text extracted from PDF.")] |}).
  - vm_compute. reflexivity.
  - discriminate.
Defined.



(** When the metadata cannot be fetched, or carry no (non-empty)
    analysis id, the handler answers 500 with that error and the key of
    the object; it has no record to mark, and the table is not called. *)
Theorem metadata_failure_is_500 (w : World) (event : json) (s : St)
    (b : json) (k : string) (e : exn) :
  configured w = true ->
  names w event b k ->
  (head_object w b k = Raised e
   \/ (exists head, head_object w b k = Returned head
       /\ Py.truthy_opt (default ∅ head !! "analysis-id") = false
       /\ e = Exn "ValueError" "Missing 'analysis-id' in S3 metadata, cannot proceed.")) ->
  (handler w event s).1
    = Returned {| statusCode := 500;
                  body := JDict [("error", JStr (exn_str e));
                                 ("analysisIdAttempted", JStr k)] |}
  /\ table (handler w event s).2 = table s
  /\ update_calls (handler w event s).2 = update_calls s.
Proof.
  intros Hc (raw & Hb & Hk & ->) H. rewrite handler_run, Hc. unfold try_except.
  set (k := unquote_plus w raw) in *.
  set (s1 := with_stdout (stdout (try_entry event s) ++ [LogProcessing b k])%list
               (with_s3_object_key k (with_bucket_name b (try_entry event s)))).
  destruct (index_split_last "/" k s1) as [f0 Hidx].
  assert (Hblock : exists sm,
             try_except (metadata_try w "unknown_user_metadata_error"
                           "unknown_state_metadata_error" f0)
               (metadata_except w) s1 = (Raised e, sm)
             /\ Py.truthy_opt (analysis_id_from_metadata sm) = false
             /\ s3_object_key sm = k
             /\ table sm = table s
             /\ update_calls sm = update_calls s).
  { cbv [try_except metadata_try metadata_except bind gets lift print modify raise].
    unfold s1 at 1 2. frame_simpl.
    destruct H as [Hh | (head & Hh & Hid & ->)]; rewrite Hh.
    - unfold s1. frame_simpl. cbn [try_entry]. frame_simpl. cbn [Py.truthy_opt negb].
      eexists. split; [reflexivity|]. repeat split.
    - frame_simpl. rewrite Hid. cbn [negb]. frame_simpl. rewrite Hid. cbn [negb].
      eexists. split; [reflexivity|]. frame_simpl. repeat split. exact Hid. }
  destruct Hblock as (sm & Hblock & Ha & Hkey & Htab & Hcalls).
  assert (Htry : handler_try w event (try_entry event s) = (Raised e, sm)).
  { unfold handler_try. cbv [bind lift modify print]. rewrite Hb, Hk.
    cbn [unquote_plus_value]. fold k. cbn [stdout with_s3_object_key with_bucket_name].
    change (with_stdout _ _) with s1 at 1.
    rewrite Hidx, Hblock. reflexivity. }
  rewrite Htry.
  destruct (handler_except_no_id w e sm Ha) as (s2 & Hex & Htab2 & Hcalls2 & _).
  rewrite Hex, Hkey. cbn [fst snd]. rewrite Htab2, Hcalls2. auto.
Qed.

(** [metadata_failure_is_500] on an object whose analysis id is the empty
    string. *)
Lemma metadata_failure_is_500_witness :
  (handler (Scenario.world_with {[ "analysis-id" := "" ]} "lease text" 200 Scenario.no_fault)
     Scenario.s3_event Scenario.fresh).1
    = Returned {| statusCode := 500;
                  body := JDict [("error", JStr "Missing 'analysis-id' in S3 metadata, cannot proceed.");
                                 ("analysisIdAttempted", JStr "uploads/a.pdf")] |}.
Proof.
  apply (metadata_failure_is_500
           (Scenario.world_with {[ "analysis-id" := "" ]} "lease text" 200 Scenario.no_fault)
           Scenario.s3_event Scenario.fresh (JStr "bk") "uploads/a.pdf"
           (Exn "ValueError" "Missing 'analysis-id' in S3 metadata, cannot proceed.")).
  - reflexivity.
  - exists "uploads/a.pdf". repeat split.
  - right. exists (Some ({[ "analysis-id" := "" ]} : gmap string string)).
    split; [reflexivity|]. split; [vm_compute; reflexivity | reflexivity].
Defined.

(** The [update_item] of the inner [except] (lines 66-79) is never
    executed: entered without an analysis id, as line 27 leaves it, the
    inner [try] either returns with a non-empty id or raises with none,
    and in neither case has the table been called. *)
Theorem inner_except_never_updates (w : World) (u0 st0 f0 : string) (s : St)
    (o : outcome (string * string * string)) (s' : St) :
  analysis_id_from_metadata s = None ->
  try_except (metadata_try w u0 st0 f0) (metadata_except w) s = (o, s') ->
  table s' = table s
  /\ update_calls s' = update_calls s
  /\ ((exists v id, o = Returned v /\ analysis_id_from_metadata s' = Some id
                    /\ Py.truthy id = true)
      \/ (exists e, o = Raised e
                    /\ Py.truthy_opt (analysis_id_from_metadata s') = false)).
Proof.
  intros Hnone H.
  destruct (metadata_block_cases w u0 st0 f0 s o s' Hnone H) as (Ht & Hc & _ & _ & Hcase).
  auto.
Qed.

(** [inner_except_never_updates] on a metadata call that fails. *)
Lemma inner_except_never_updates_witness :
  update_calls
    (try_except (metadata_try Scenario.offline "u" "st" "a.pdf")
       (metadata_except Scenario.offline) Scenario.fresh).2
  = 0.
Proof.
  destruct (try_except (metadata_try Scenario.offline "u" "st" "a.pdf")
              (metadata_except Scenario.offline) Scenario.fresh) as [o s'] eqn:H.
  apply inner_except_never_updates in H; [|reflexivity].
  cbn [snd]. apply H.
Defined.

Lemma attr_failed_time (id details time : string)
    (t : gmap string (gmap string string)) :
  attr (apply_update id (failed_update details time) t) id "lastUpdatedTimestamp"
    = Some time.
Proof.
  unfold attr, apply_update, failed_update. rewrite lookup_insert_eq. cbn.
  apply lookup_insert_eq.
Qed.

(** An attribute the update does not name keeps the value it had. *)
Lemma attr_failed_update_keeps (id details time a : string)
    (t : gmap string (gmap string string)) (item : gmap string string) :
  t !! id = Some item ->
  a <> "status" -> a <> "errorDetails" -> a <> "lastUpdatedTimestamp" ->
  attr (apply_update id (failed_update details time) t) id a = item !! a.
Proof.
  intros Hitem H1 H2 H3.
  unfold attr, apply_update, failed_update. rewrite lookup_insert_eq, Hitem. cbn.
  rewrite !lookup_insert_ne by congruence. reflexivity.
Qed.

(** When the object cannot be downloaded, or its text cannot be
    extracted, the handler answers 500 with that error and the analysis
    id; it calls the table once, and if that call succeeds the record is
    FAILED with the error text as details and the time of the failure,
    while the attributes the update does not name stay as they were. *)
Theorem download_failure_is_recorded (w : World) (event : json) (s : St)
    (b : json) (k : string) (md : gmap string string) (id : string) (e : exn) :
  configured w = true ->
  names w event b k ->
  tagged w b k md id ->
  (get_object_read w b k = Raised e
   \/ exists pdf, get_object_read w b k = Returned pdf /\ fitz_text w pdf = Raised e) ->
  (handler w event s).1
    = Returned {| statusCode := 500;
                  body := JDict [("error", JStr (exn_str e));
                                 ("analysisIdAttempted", JStr id)] |}
  /\ update_calls (handler w event s).2 = S (update_calls s)
  /\ (update_item_fault w (update_calls s) = None ->
      attr (table (handler w event s).2) id "status" = Some "FAILED"
      /\ attr (table (handler w event s).2) id "errorDetails" = Some (exn_str e)
      /\ attr (table (handler w event s).2) id "lastUpdatedTimestamp"
           = Some (utcnow_iso w (clock_reads s))
      /\ (forall item a,
            table s !! id = Some item ->
            a <> "status" -> a <> "errorDetails" -> a <> "lastUpdatedTimestamp" ->
            attr (table (handler w event s).2) id a = item !! a)).
Proof.
  intros Hc Hn Htag Hfail.
  destruct (split_shape "/" k) as (dir & f0 & Hlast & _).
  pose proof (handler_try_prefix w event (try_entry event s) b k md id f0 Hn Htag Hlast)
    as Hpre.
  destruct Htag as (head & _ & _ & _ & Ht).
  set (sx := after_metadata b k md id f0 (try_entry event s)) in *.
  assert (Htry : handler_try w event (try_entry event s) = (Raised e, sx)).
  { rewrite Hpre. cbv [bind lift].
    destruct Hfail as [Hg | (pdf & Hg & Hf)]; rewrite Hg; [|rewrite Hf]; reflexivity. }
  rewrite handler_run, Hc. unfold try_except. rewrite Htry.
  destruct (handler_except w e sx) as [o s2] eqn:Hex.
  pose proof (handler_except_cases w e sx o s2 Hex) as (_ & Hcalls & _).
  change (Py.truthy_opt (analysis_id_from_metadata sx)) with (Py.truthy id) in Hcalls.
  rewrite Ht in Hcalls.
  destruct (update_item_fault w (update_calls s)) as [db|] eqn:Hfault.
  - destruct (handler_except_not_recorded w e sx id db eq_refl Ht Hfault)
      as (s3 & H3 & _).
    rewrite Hex in H3. injection H3 as -> <-. cbn [fst snd].
    split; [reflexivity|]. split; [exact Hcalls | discriminate].
  - destruct (handler_except_recorded w e sx id eq_refl Ht Hfault)
      as (s3 & H3 & Htab & _).
    rewrite Hex in H3. injection H3 as -> <-. cbn [fst snd].
    split; [reflexivity|]. split; [exact Hcalls|]. intros _.
    rewrite Htab.
    change (table sx) with (table s). change (clock_reads sx) with (clock_reads s).
    split; [apply attr_failed_update|]. split; [apply attr_failed_update|].
    split; [apply attr_failed_time|].
    intros item a Hitem H1 H2 H3. apply attr_failed_update_keeps; assumption.
Qed.

(** [download_failure_is_recorded] on an object that is not a PDF, in a
    table that already holds the record. *)
Lemma download_failure_is_recorded_witness :
  attr (table (handler Scenario.corrupt_pdf Scenario.s3_event Scenario.pending).2)
    "A1" "status" = Some "FAILED"
  /\ attr (table (handler Scenario.corrupt_pdf Scenario.s3_event Scenario.pending).2)
       "A1" "errorDetails" = Some "Failed to open stream"
  /\ attr (table (handler Scenario.corrupt_pdf Scenario.s3_event Scenario.pending).2)
       "A1" "userId" = Some "u1".
Proof.
  destruct (download_failure_is_recorded
              Scenario.corrupt_pdf Scenario.s3_event Scenario.pending
              (JStr "bk") "uploads/a.pdf" {[ "analysis-id" := "A1" ]} "A1"
              (Exn "FileDataError" "Failed to open stream"))
    as (_ & _ & H).
  - reflexivity.
  - exists "uploads/a.pdf". repeat split.
  - exists (Some ({[ "analysis-id" := "A1" ]} : gmap string string)).
    repeat split; vm_compute; reflexivity.
  - right. exists []. split; reflexivity.
  - destruct (H eq_refl) as (Hs & He & _ & Hkeep).
    split; [exact Hs|]. split; [exact He|].
    rewrite (Hkeep {[ "analysisId" := "A1"; "status" := "PENDING"; "userId" := "u1" ]}
               "userId").
    + vm_compute. reflexivity.
    + vm_compute. reflexivity.
    + discriminate.
    + discriminate.
    + discriminate.
Defined.

(** The item the success update leaves behind. *)
Lemma complete_item (id time k fn uid ust : string)
    (t : gmap string (gmap string string)) :
  exists item,
    apply_update id
      [("status", "TEXT_EXTRACTION_COMPLETE"); ("lastUpdatedTimestamp", time);
       ("s3Key", k); ("fileName", fn); ("userId", uid);
       ("userSelectedState", ust)] t !! id = Some item
    /\ item !! "status" = Some "TEXT_EXTRACTION_COMPLETE"
    /\ item !! "lastUpdatedTimestamp" = Some time
    /\ item !! "s3Key" = Some k
    /\ item !! "fileName" = Some fn
    /\ item !! "userId" = Some uid
    /\ item !! "userSelectedState" = Some ust.
Proof.
  unfold apply_update. rewrite lookup_insert_eq. eexists. split; [reflexivity|].
  cbn. repeat split.
  - do 5 (rewrite lookup_insert_ne by discriminate). apply lookup_insert_eq.
  - do 4 (rewrite lookup_insert_ne by discriminate). apply lookup_insert_eq.
  - do 3 (rewrite lookup_insert_ne by discriminate). apply lookup_insert_eq.
  - do 2 (rewrite lookup_insert_ne by discriminate). apply lookup_insert_eq.
  - do 1 (rewrite lookup_insert_ne by discriminate). apply lookup_insert_eq.
  - apply lookup_insert_eq.
Qed.

(** The run of [respond] on a text that is not blank, when the table
    accepts the update and the POST is answered by [r]. *)
Lemma handler_posts (w : World) (event : json) (s : St)
    (b : json) (k : string) (md : gmap string string) (id txt f0 : string)
    (r : HttpResponse) :
  names w event b k ->
  tagged w b k md id ->
  reads_text w b k txt ->
  Py.all_space txt = false ->
  update_item_fault w (update_calls s) = None ->
  last (Py.split "/" k) = Some f0 ->
  requests_post w (NEXTJS_API_ENDPOINT_FOR_LAMBDA w)
    (payload_of b k id
       (default "unknown_state_metadata_error" (md !! "user-selected-state")) txt)
    = Returned r ->
  exists s1 s2,
    handler_try w event (try_entry event s) =
      (if ((400 <=? status_code r) && (status_code r <? 600))%Z
       then (Raised (Exn "HTTPError" (error_msg r)), s1)
       else (Returned {| statusCode := 200;
                         body := JDict [("message", JStr "Text extracted and AI processing initiated.");
                                        ("analysisId", JStr id)] |}, s2))
    /\ table s1 =
         apply_update id
           [("status", "TEXT_EXTRACTION_COMPLETE");
            ("lastUpdatedTimestamp", utcnow_iso w (clock_reads s));
            ("s3Key", k);
            ("fileName", default f0 (md !! "original-filename"));
            ("userId", default "unknown_user_metadata_error" (md !! "user-id"));
            ("userSelectedState",
             default "unknown_state_metadata_error" (md !! "user-selected-state"))]
           (table s)
    /\ table s2 = table s1
    /\ analysis_id_from_metadata s1 = Some id
    /\ update_calls s1 = S (update_calls s)
    /\ clock_reads s1 = S (clock_reads s).
Proof.
  intros Hn Htag (pdf & Hg & Hf) Hsp Hfault Hlast Hpost.
  rewrite (handler_try_prefix w event (try_entry event s) b k md id f0 Hn Htag Hlast).
  cbv [bind lift]. rewrite Hg, Hf.
  set (sx := after_metadata b k md id f0 (try_entry event s)).
  destruct (respond_posted w b k
              (default "unknown_user_metadata_error" (md !! "user-id"))
              (default "unknown_state_metadata_error" (md !! "user-selected-state"))
              (default f0 (md !! "original-filename"))
              txt id sx r Hsp eq_refl Hfault Hpost)
    as (s1 & s2 & Hr & (Ht1 & Ha1 & Hc1 & Hk1) & Ht2).
  exists s1, s2. repeat split; assumption.
Qed.

Lemma status_in_range (r : HttpResponse) :
  ((400 <=? status_code r) && (status_code r <? 600))%Z = true
  <-> (400 <= status_code r < 600)%Z.
Proof. rewrite andb_true_iff, Z.leb_le, Z.ltb_lt. reflexivity. Qed.

(** A run that extracts text, updates the record and is answered with a
    status outside 400..599 returns 200 with the analysis id, after one
    table call.  The record then holds status TEXT_EXTRACTION_COMPLETE,
    the time of the run, the key, and file name, user id and user state
    from the metadata, where a missing file name defaults to the last
    segment of the key and a missing user id or state to its placeholder.
    The POST carried the analysis id, bucket, key, text and user state. *)
Theorem success_record (w : World) (event : json) (s : St)
    (b : json) (k : string) (md : gmap string string) (id txt f0 : string)
    (r : HttpResponse) :
  configured w = true ->
  names w event b k ->
  tagged w b k md id ->
  reads_text w b k txt ->
  Py.all_space txt = false ->
  update_item_fault w (update_calls s) = None ->
  last (Py.split "/" k) = Some f0 ->
  requests_post w (NEXTJS_API_ENDPOINT_FOR_LAMBDA w)
    {| p_analysisId := Some id; p_s3Bucket := b; p_s3Key := k;
       p_extractedText := txt;
       p_userSelectedState :=
         default "unknown_state_metadata_error" (md !! "user-selected-state") |}
    = Returned r ->
  ~ (400 <= status_code r < 600)%Z ->
  (handler w event s).1
    = Returned {| statusCode := 200;
                  body := JDict [("message", JStr "Text extracted and AI processing initiated.");
                                 ("analysisId", JStr id)] |}
  /\ update_calls (handler w event s).2 = S (update_calls s)
  /\ attr (table (handler w event s).2) id "status" = Some "TEXT_EXTRACTION_COMPLETE"
  /\ attr (table (handler w event s).2) id "lastUpdatedTimestamp"
       = Some (utcnow_iso w (clock_reads s))
  /\ attr (table (handler w event s).2) id "s3Key" = Some k
  /\ attr (table (handler w event s).2) id "fileName"
       = Some (default f0 (md !! "original-filename"))
  /\ attr (table (handler w event s).2) id "userId"
       = Some (default "unknown_user_metadata_error" (md !! "user-id"))
  /\ attr (table (handler w event s).2) id "userSelectedState"
       = Some (default "unknown_state_metadata_error" (md !! "user-selected-state")).
Proof.
  intros Hc Hn Htag Hread Hsp Hfault Hlast Hpost Hcode.
  destruct (handler_posts w event s b k md id txt f0 r Hn Htag Hread Hsp Hfault Hlast Hpost)
    as (s1 & s2 & Htry & Ht1 & Ht2 & _).
  assert (Hf : ((400 <=? status_code r) && (status_code r <? 600))%Z = false).
  { destruct (_ && _)%Z eqn:E; [|reflexivity]. apply status_in_range in E. contradiction. }
  rewrite Hf in Htry.
  rewrite handler_run, Hc. unfold try_except. rewrite Htry. cbn [fst snd].
  split; [reflexivity|]. split.
  - apply handler_try_cases in Htry; [|reflexivity].
    destruct Htry as [([e He] & _) | (_ & Hcalls & _)]; [discriminate He | exact Hcalls].
  - rewrite Ht2, Ht1.
    destruct (complete_item id (utcnow_iso w (clock_reads s)) k
                (default f0 (md !! "original-filename"))
                (default "unknown_user_metadata_error" (md !! "user-id"))
                (default "unknown_state_metadata_error" (md !! "user-selected-state"))
                (table s))
      as (item & Hitem & H1 & H2 & H3 & H4 & H5 & H6).
    unfold attr. rewrite Hitem. cbn. auto 10.
Qed.

(** [success_record] on an upload whose metadata name the user and the
    state but no file name. *)
Lemma success_record_witness :
  (handler (Scenario.world_with
              {[ "analysis-id" := "A1"; "user-id" := "u1"; "user-selected-state" := "CA" ]}
              "lease text" 200 Scenario.no_fault)
     Scenario.s3_event Scenario.fresh).1
    = Returned {| statusCode := 200;
                  body := JDict [("message", JStr "Text extracted and AI processing initiated.");
                                 ("analysisId", JStr "A1")] |}
  /\ attr (table (handler (Scenario.world_with
                             {[ "analysis-id" := "A1"; "user-id" := "u1";
                                "user-selected-state" := "CA" ]}
                             "lease text" 200 Scenario.no_fault)
                    Scenario.s3_event Scenario.fresh).2) "A1" "fileName"
       = Some "a.pdf"
  /\ attr (table (handler (Scenario.world_with
                             {[ "analysis-id" := "A1"; "user-id" := "u1";
                                "user-selected-state" := "CA" ]}
                             "lease text" 200 Scenario.no_fault)
                    Scenario.s3_event Scenario.fresh).2) "A1" "userSelectedState"
       = Some "CA".
Proof.
  destruct (success_record
              (Scenario.world_with
                 {[ "analysis-id" := "A1"; "user-id" := "u1"; "user-selected-state" := "CA" ]}
                 "lease text" 200 Scenario.no_fault)
              Scenario.s3_event Scenario.fresh
              (JStr "bk") "uploads/a.pdf"
              {[ "analysis-id" := "A1"; "user-id" := "u1"; "user-selected-state" := "CA" ]}
              "A1" "lease text" "a.pdf"
              {| status_code := 200; text := "";
                 error_msg := "Error for url: https://app.example/api/process" |})
    as (Hresp & _ & _ & _ & _ & Hfn & _ & Hust).
  - reflexivity.
  - exists "uploads/a.pdf". repeat split.
  - exists (Some ({[ "analysis-id" := "A1"; "user-id" := "u1";
                     "user-selected-state" := "CA" ]} : gmap string string)).
    repeat split; vm_compute; reflexivity.
  - exists []. split; reflexivity.
  - reflexivity.
  - reflexivity.
  - vm_compute. reflexivity.
  - reflexivity.
  - cbn. lia.
  - split; [exact Hresp|]. split.
    + rewrite Hfn. vm_compute. reflexivity.
    + rewrite Hust. vm_compute. reflexivity.
Defined.

(** When the POST is answered with a 4XX or 5XX status and the table
    accepts both updates, the handler has called the table twice: the
    record ends FAILED with the time of the second clock reading, and it
    keeps the key, file name, user id and user state that the first
    update wrote. *)
Theorem rejected_notification_keeps_record (w : World) (event : json) (s : St)
    (b : json) (k : string) (md : gmap string string) (id txt f0 : string)
    (r : HttpResponse) :
  configured w = true ->
  names w event b k ->
  tagged w b k md id ->
  reads_text w b k txt ->
  Py.all_space txt = false ->
  update_item_fault w (update_calls s) = None ->
  update_item_fault w (S (update_calls s)) = None ->
  last (Py.split "/" k) = Some f0 ->
  requests_post w (NEXTJS_API_ENDPOINT_FOR_LAMBDA w)
    {| p_analysisId := Some id; p_s3Bucket := b; p_s3Key := k;
       p_extractedText := txt;
       p_userSelectedState :=
         default "unknown_state_metadata_error" (md !! "user-selected-state") |}
    = Returned r ->
  (400 <= status_code r < 600)%Z ->
  update_calls (handler w event s).2 = S (S (update_calls s))
  /\ attr (table (handler w event s).2) id "status" = Some "FAILED"
  /\ attr (table (handler w event s).2) id "lastUpdatedTimestamp"
       = Some (utcnow_iso w (S (clock_reads s)))
  /\ attr (table (handler w event s).2) id "s3Key" = Some k
  /\ attr (table (handler w event s).2) id "fileName"
       = Some (default f0 (md !! "original-filename"))
  /\ attr (table (handler w event s).2) id "userId"
       = Some (default "unknown_user_metadata_error" (md !! "user-id"))
  /\ attr (table (handler w event s).2) id "userSelectedState"
       = Some (default "unknown_state_metadata_error" (md !! "user-selected-state")).
Proof.
  intros Hc Hn Htag Hread Hsp Hfault Hfault2 Hlast Hpost Hcode.
  destruct (handler_posts w event s b k md id txt f0 r Hn Htag Hread Hsp Hfault Hlast Hpost)
    as (s1 & s2 & Htry & Ht1 & _ & Ha1 & Hc1 & Hk1).
  apply status_in_range in Hcode. rewrite Hcode in Htry.
  destruct Htag as (head & _ & _ & _ & Ht).
  rewrite <- Hc1 in Hfault2.
  destruct (handler_except_recorded w (Exn "HTTPError" (error_msg r)) s1 id Ha1 Ht Hfault2)
    as (s3 & Hex & Ht3 & _).
  pose proof (handler_except_cases w _ s1 _ _ Hex) as (_ & Hcalls & _).
  rewrite Ha1 in Hcalls. cbn [Py.truthy_opt] in Hcalls. rewrite Ht, Hc1 in Hcalls.
  rewrite handler_run, Hc. unfold try_except. rewrite Htry, Hex. cbn [fst snd].
  split; [exact Hcalls|].
  rewrite Ht3, Hk1.
  split; [apply attr_failed_update|]. split; [apply attr_failed_time|].
  destruct (complete_item id (utcnow_iso w (clock_reads s)) k
              (default f0 (md !! "original-filename"))
              (default "unknown_user_metadata_error" (md !! "user-id"))
              (default "unknown_state_metadata_error" (md !! "user-selected-state"))
              (table s))
    as (item & Hitem & _ & _ & H3 & H4 & H5 & H6).
  rewrite <- Ht1 in Hitem.
  rewrite !(attr_failed_update_keeps id _ _ _ (table s1) item Hitem) by discriminate.
  auto.
Qed.

(** [rejected_notification_keeps_record] on a 503 answer. *)
Lemma rejected_notification_keeps_record_witness :
  update_calls (handler (Scenario.world "lease text" 503 Scenario.no_fault)
                  Scenario.s3_event Scenario.fresh).2 = 2
  /\ attr (table (handler (Scenario.world "lease text" 503 Scenario.no_fault)
                    Scenario.s3_event Scenario.fresh).2) "A1" "status" = Some "FAILED"
  /\ attr (table (handler (Scenario.world "lease text" 503 Scenario.no_fault)
                    Scenario.s3_event Scenario.fresh).2) "A1" "s3Key"
       = Some "uploads/a.pdf".
Proof.
  destruct (rejected_notification_keeps_record
              (Scenario.world "lease text" 503 Scenario.no_fault)
              Scenario.s3_event Scenario.fresh
              (JStr "bk") "uploads/a.pdf" {[ "analysis-id" := "A1" ]}
              "A1" "lease text" "a.pdf"
              {| status_code := 503; text := "";
                 error_msg := "Error for url: https://app.example/api/process" |})
    as (Hcalls & Hstatus & _ & Hkey & _).
  - reflexivity.
  - exists "uploads/a.pdf". repeat split.
  - exists (Some ({[ "analysis-id" := "A1" ]} : gmap string string)).
    repeat split; vm_compute; reflexivity.
  - exists []. split; reflexivity.
  - reflexivity.
  - reflexivity.
  - reflexivity.
  - vm_compute. reflexivity.
  - reflexivity.
  - cbn. lia.
  - auto.
Defined.

(** The notification is posted only after the record has reached
    TEXT_EXTRACTION_COMPLETE: when the extracted text is blank, or the
    table refuses the first update, the run does not depend on what the
    Next.js API would answer. *)
Theorem notification_only_after_update (w : World) (event : json) (s : St)
    (b : json) (k : string) (md : gmap string string) (id txt : string)
    (post : option string -> Payload -> outcome HttpResponse) :
  names w event b k ->
  tagged w b k md id ->
  reads_text w b k txt ->
  (Py.all_space txt = true \/ update_item_fault w (update_calls s) <> None) ->
  handler (with_requests_post post w) event s = handler w event s.
Proof.
  intros Hn Htag (pdf & Hg & Hf) Hcase.
  destruct (split_shape "/" k) as (dir & f0 & Hlast & _).
  assert (Htry : handler_try (with_requests_post post w) event (try_entry event s)
                 = handler_try w event (try_entry event s)).
  { rewrite (handler_try_prefix w event (try_entry event s) b k md id f0 Hn Htag Hlast).
    rewrite (handler_try_prefix (with_requests_post post w) event (try_entry event s)
               b k md id f0 Hn Htag Hlast).
    cbv [bind lift]. cbn [get_object_read fitz_text with_requests_post].
    rewrite Hg, Hf.
    cbv [respond bind now gets print modify lift raise_for_status ret raise update_item].
    cbn [update_item_fault utcnow_iso with_requests_post].
    destruct (negb (Py.truthy (Py.strip txt))) eqn:Hblank; [reflexivity|].
    destruct Hcase as [Hsp | Hfault].
    - rewrite (all_space_falsy _ Hsp) in Hblank. discriminate Hblank.
    - frame_simpl.
      change (update_calls (after_metadata b k md id f0 (try_entry event s)))
        with (update_calls s).
      destruct (update_item_fault w (update_calls s)); [reflexivity | contradiction]. }
  rewrite !handler_run.
  change (configured (with_requests_post post w)) with (configured w).
  destruct (configured w); [|reflexivity].
  unfold try_except. rewrite Htry.
  destruct (handler_try w event (try_entry event s)) as [[resp|e] s1]; reflexivity.
Qed.

(** [notification_only_after_update] on a blank PDF with an unreachable
    API. *)
Lemma notification_only_after_update_witness :
  handler (with_requests_post (fun _ _ => Raised Scenario.unreachable)
             (Scenario.world "   " 200 Scenario.no_fault))
    Scenario.s3_event Scenario.fresh
  = handler (Scenario.world "   " 200 Scenario.no_fault) Scenario.s3_event Scenario.fresh.
Proof.
  apply (notification_only_after_update
           (Scenario.world "   " 200 Scenario.no_fault) Scenario.s3_event Scenario.fresh
           (JStr "bk") "uploads/a.pdf" {[ "analysis-id" := "A1" ]} "A1" "   ").
  - exists "uploads/a.pdf". repeat split.
  - exists (Some ({[ "analysis-id" := "A1" ]} : gmap string string)).
    repeat split; vm_compute; reflexivity.
  - exists []. split; reflexivity.
  - left. reflexivity.
Defined.

End HandlerPaths.

(** ** The scraping scripts *)

Section GoogleSearchResults.

Import GoogleSearch.

Lemma links_of_length (results : list Tag) (ls : list string) :
  links_of results = Some ls -> length ls <= length results.
Proof.
  revert ls. induction results as [|r rest IH]; intros ls H; cbn in H.
  - injection H as <-. reflexivity.
  - destruct (tag_attrs r !! "href") as [href|]; [|discriminate H].
    destruct (links_of rest) as [ls'|]; [|discriminate H].
    injection H as <-. specialize (IH ls' eq_refl).
    rewrite length_app. cbn [length].
    unfold link_of. destruct (Py.startswith "/url?q=" href); cbn; lia.
Qed.

Lemma startswith_slice (p s : string) :
  Py.startswith p s = true -> s = p ++ Py.slice_from (String.length p) s.
Proof.
  revert s. induction p as [|a p IH]; intros s H; [reflexivity|].
  destruct s as [|b s]; [discriminate H|].
  cbn in H. apply andb_true_iff in H as [Hab Hp]. apply Ascii.eqb_eq in Hab. subst b.
  change (String a s = String a (p ++ Py.slice_from (String.length p) s)).
  f_equal. apply IH, Hp.
Qed.

Lemma links_of_origin (results : list Tag) (ls : list string) (l : string) :
  links_of results = Some ls -> l ∈ ls ->
  exists r, r ∈ results /\ tag_attrs r !! "href" = Some ("/url?q=" ++ l).
Proof.
  revert ls. induction results as [|r rest IH]; intros ls H Hl; cbn in H.
  - injection H as <-. inversion Hl.
  - destruct (tag_attrs r !! "href") as [href|] eqn:Hh; [|discriminate H].
    destruct (links_of rest) as [ls'|]; [|discriminate H].
    injection H as <-. apply elem_of_app in Hl as [Hl | Hl].
    + unfold link_of in Hl. destruct (Py.startswith "/url?q=" href) eqn:Hp.
      * cbn in Hl. apply list_elem_of_singleton in Hl. subst l.
        exists r. split; [left|]. rewrite Hh. f_equal.
        apply (startswith_slice "/url?q=" href Hp).
      * inversion Hl.
    + destruct (IH ls' eq_refl Hl) as (r' & Hr' & Hh').
      exists r'. split; [right; exact Hr' | exact Hh'].
Qed.

(** The loop from index [j] on, with limit [n]: it visits the next
    [n - j] results and prints one more. *)
Lemma results_loop_limit (n : nat) (results : list Tag) :
  forall (j : nat) (links : list string) (out : list Printed),
    j <= n ->
    (forall ls, links_of (take (n - j) results) = Some ls ->
       results_loop (Z.of_nat n) (Z.of_nat j) results links out
         = (Returned (links ++ ls)%list,
            (out ++ map PrintResult (take (S (n - j)) results))%list))
    /\ (links_of (take (n - j) results) = None ->
       exists out',
         results_loop (Z.of_nat n) (Z.of_nat j) results links out
           = (Raised (Exn "KeyError" "'href'"), out')).
Proof.
  induction results as [|r rest IH]; intros j links out Hj.
  - split.
    + intros ls H. rewrite take_nil in H. injection H as <-.
      cbn. rewrite !app_nil_r. reflexivity.
    + intros H. rewrite take_nil in H. discriminate H.
  - cbn [results_loop]. cbv [bind print modify].
    destruct (Z.eqb_spec (Z.of_nat j) (Z.of_nat n)) as [Heq | Hne].
    + assert (Hz : n - j = 0) by lia. rewrite Hz. split.
      * intros ls H. injection H as <-. cbn. rewrite app_nil_r. reflexivity.
      * intros H. discriminate H.
    + assert (Hs : n - j = S (n - S j)) by lia. rewrite Hs.
      cbn [take links_of]. unfold Bs4.getitem.
      destruct (IH (S j) links (out ++ [PrintResult r])%list ltac:(lia)) as [IHok IHbad].
      destruct (tag_attrs r !! "href") as [href|] eqn:Hh.
      * replace (Z.of_nat j + 1)%Z with (Z.of_nat (S j)) by lia.
        cbv [ret]. unfold link_of.
        destruct (Py.startswith "/url?q=" href).
        -- destruct (IH (S j) (links ++ [Py.slice_from 7 href])%list
                       (out ++ [PrintResult r])%list ltac:(lia)) as [IHok' IHbad'].
           split.
           ++ intros ls H. destruct (links_of (take (n - S j) rest)) as [ls'|];
                [|discriminate H].
              injection H as <-. rewrite (IHok' ls' eq_refl).
              cbn [option_list map]. rewrite <- !app_assoc. reflexivity.
           ++ intros H. destruct (links_of (take (n - S j) rest)); [discriminate H|].
              apply IHbad'. reflexivity.
        -- split.
           ++ intros ls H. destruct (links_of (take (n - S j) rest)) as [ls'|];
                [|discriminate H].
              injection H as <-. rewrite (IHok ls' eq_refl).
              cbn [option_list map app]. rewrite <- !app_assoc. reflexivity.
           ++ intros H. destruct (links_of (take (n - S j) rest)); [discriminate H|].
              apply IHbad. reflexivity.
      * split; [intros ls H; discriminate H|]. intros _. cbv [raise]. eauto.
Qed.

(** With a limit [n >= 0], [get_google_search_results] looks at the first
    [n] results only (and prints one more).  If each of them has an
    [href], it returns, in order, the [href]s that start with ["/url?q="],
    without that prefix: at most [n] links.  If one of them has no
    [href], it raises [KeyError]. *)
Theorem google_results_within_limit
    (requests_get : string -> outcome string) (BeautifulSoup : string -> Soup)
    (query text : string) (n : nat) (out : list Printed) :
  requests_get ("https://www.google.com/search?q=" ++ query) = Returned text ->
  (forall ls,
      links_of (take n (select_res (BeautifulSoup text))) = Some ls ->
      get_google_search_results requests_get BeautifulSoup query (Z.of_nat n) out
        = (Returned ls,
           (out ++ PrintAnchors (find_all_a (BeautifulSoup text))
                :: map PrintResult (take (S n) (select_res (BeautifulSoup text))))%list)
      /\ length ls <= n
      /\ (forall l, l ∈ ls ->
            exists r, r ∈ take n (select_res (BeautifulSoup text))
                      /\ tag_attrs r !! "href" = Some ("/url?q=" ++ l)))
  /\ (links_of (take n (select_res (BeautifulSoup text))) = None ->
      exists out',
        get_google_search_results requests_get BeautifulSoup query (Z.of_nat n) out
          = (Raised (Exn "KeyError" "'href'"), out')).
Proof.
  intros Hget.
  destruct (results_loop_limit n (select_res (BeautifulSoup text)) 0 []
              (out ++ [PrintAnchors (find_all_a (BeautifulSoup text))])%list
              ltac:(lia)) as [Hok Hbad].
  rewrite Nat.sub_0_r in Hok, Hbad.
  split.
  - intros ls Hls. split; [|split].
    + unfold get_google_search_results. cbv [bind lift print modify]. rewrite Hget.
      change (Z.of_nat 0) with 0%Z in Hok. rewrite (Hok ls Hls).
      cbn [app]. rewrite <- app_assoc. reflexivity.
    + apply links_of_length in Hls. rewrite length_take in Hls. lia.
    + intros l Hl. exact (links_of_origin _ ls l Hls Hl).
  - intros Hnone. destruct (Hbad Hnone) as [out' H].
    unfold get_google_search_results. cbv [bind lift print modify]. rewrite Hget.
    change (Z.of_nat 0) with 0%Z in H. rewrite H. eauto.
Qed.

(** [google_results_within_limit] on a page with three results, with
    limit 2 and, for the missing [href], limit 1 on a bare element. *)
Lemma google_results_within_limit_witness :
  (GoogleSearch.get_google_search_results
     (fun _ => Returned "<html>") (fun _ => Pages.results) "Celebrity Infinity" 2 []).1
    = Returned ["https://a.example"]
  /\ (exists out',
        GoogleSearch.get_google_search_results
          (fun _ => Returned "<html>")
          (fun _ => {| find_all_a := []; select_res := [Pages.bare] |})
          "Celebrity Infinity" 1 []
        = (Raised (Exn "KeyError" "'href'"), out')).
Proof.
  split.
  - destruct (google_results_within_limit
                (fun _ => Returned "<html>") (fun _ => Pages.results)
                "Celebrity Infinity" "<html>" 2 [] eq_refl) as [Hok _].
    assert (Hls : links_of (take 2 (select_res Pages.results)) = Some ["https://a.example"])
      by (vm_compute; reflexivity).
    destruct (Hok _ Hls) as (Hrun & _).
    change (Z.of_nat 2) with 2%Z in Hrun. rewrite Hrun. reflexivity.
  - destruct (google_results_within_limit
                (fun _ => Returned "<html>")
                (fun _ => {| find_all_a := []; select_res := [Pages.bare] |})
                "Celebrity Infinity" "<html>" 1 [] eq_refl) as [_ Hbad].
    apply Hbad. vm_compute. reflexivity.
Defined.

Lemma results_loop_unlimited (num_results : Z) (results : list Tag) :
  forall (i : Z) (links : list string) (out : list Printed) (ls : list string),
    (num_results < 0 <= i)%Z ->
    links_of results = Some ls ->
    results_loop num_results i results links out
      = (Returned (links ++ ls)%list, (out ++ map PrintResult results)%list).
Proof.
  induction results as [|r rest IH]; intros i links out ls Hi H; cbn in H.
  - injection H as <-. cbn. rewrite !app_nil_r. reflexivity.
  - destruct (tag_attrs r !! "href") as [href|] eqn:Hh; [|discriminate H].
    destruct (links_of rest) as [ls'|]; [|discriminate H].
    injection H as <-.
    cbn [results_loop]. cbv [bind print modify]. unfold Bs4.getitem. rewrite Hh.
    destruct (Z.eqb_spec i num_results) as [Heq | _]; [lia|].
    cbv [ret]. unfold link_of.
    destruct (Py.startswith "/url?q=" href).
    + rewrite (IH (i + 1)%Z _ _ ls' ltac:(lia) eq_refl).
      cbn [option_list map app]. rewrite <- !app_assoc. reflexivity.
    + rewrite (IH (i + 1)%Z _ _ ls' ltac:(lia) eq_refl).
      cbn [option_list map app]. rewrite <- !app_assoc. reflexivity.
Qed.

(** A negative limit is no limit: the index never equals it, so every
    result is visited and every link returned. *)
Theorem google_negative_limit
    (requests_get : string -> outcome string) (BeautifulSoup : string -> Soup)
    (query text : string) (num_results : Z) (out : list Printed) (ls : list string) :
  requests_get ("https://www.google.com/search?q=" ++ query) = Returned text ->
  (num_results < 0)%Z ->
  links_of (select_res (BeautifulSoup text)) = Some ls ->
  get_google_search_results requests_get BeautifulSoup query num_results out
    = (Returned ls,
       (out ++ PrintAnchors (find_all_a (BeautifulSoup text))
            :: map PrintResult (select_res (BeautifulSoup text)))%list).
Proof.
  intros Hget Hneg Hls.
  unfold get_google_search_results. cbv [bind lift print modify]. rewrite Hget.
  rewrite (results_loop_unlimited num_results _ 0%Z [] _ ls ltac:(lia) Hls).
  cbn [app]. rewrite <- app_assoc. reflexivity.
Qed.

(** [google_negative_limit] with limit -1 on the page with three
    results. *)
Lemma google_negative_limit_witness :
  (GoogleSearch.get_google_search_results
     (fun _ => Returned "<html>") (fun _ => Pages.results) "Celebrity Infinity" (-1) []).1
    = Returned ["https://a.example"; "https://b.example"].
Proof.
  rewrite (google_negative_limit (fun _ => Returned "<html>") (fun _ => Pages.results)
             "Celebrity Infinity" "<html>" (-1) []
             ["https://a.example"; "https://b.example"]).
  - reflexivity.
  - reflexivity.
  - lia.
  - vm_compute. reflexivity.
Defined.

End GoogleSearchResults.

Section ImageSearch.

Import BingImages.

Lemma thumbnails_spec (imgs us : list json) :
  thumbnails imgs = Returned us
  <-> Forall2 (fun img u => Json.subscript img (Json.KStr "thumbnailUrl") = Returned u)
        imgs us.
Proof.
  revert us. induction imgs as [|img rest IH]; intros us; cbn [thumbnails].
  - split.
    + intros [= <-]. constructor.
    + intros H. inversion H. reflexivity.
  - split.
    + destruct (Json.subscript img (Json.KStr "thumbnailUrl")) as [u|e] eqn:Hu;
        [|discriminate].
      destruct (thumbnails rest) as [us'|e] eqn:Hrest; [|discriminate].
      intros [= <-]. constructor; [exact Hu | apply IH; reflexivity].
    + intros H. inversion H as [|img' u rest' us' Hu Hrest]; subst.
      rewrite Hu. apply IH in Hrest. rewrite Hrest. reflexivity.
Qed.

(** [get_images] needs the API key before anything else: without the
    environment variable it raises [KeyError] whatever the service would
    answer.  With a good answer whose ["value"] is a list, it looks at the
    first sixteen images only: it returns their [thumbnailUrl]s in order,
    sixteen at most, and an image without that key among them makes it
    raise; images after the sixteenth are never inspected. *)
Theorem get_images_first_sixteen
    (requests_get : ImageRequest -> outcome HttpResponse)
    (response_json : HttpResponse -> outcome json)
    (search_term key : string) (r : HttpResponse) (body : json) (imgs : list json) :
  get_images None requests_get response_json search_term tt
    = (Raised (Exn "KeyError" "'BING_SEARCH_API_KEY'"), tt)
  /\ (requests_get {| url := search_url; subscription_key := key; q := search_term;
                      license := "public"; imageType := "photo" |} = Returned r ->
      ~ (400 <= status_code r < 600)%Z ->
      response_json r = Returned body ->
      Json.subscript body (Json.KStr "value") = Returned (JList imgs) ->
      (forall us,
          Forall2 (fun img u => Json.subscript img (Json.KStr "thumbnailUrl") = Returned u)
            (take 16 imgs) us ->
          get_images (Some key) requests_get response_json search_term tt
            = (Returned us, tt)
          /\ length us = Nat.min 16 (length imgs))
      /\ (forall e,
          thumbnails (take 16 imgs) = Raised e ->
          get_images (Some key) requests_get response_json search_term tt
            = (Raised e, tt))).
Proof.
  split; [reflexivity|].
  intros Hget Hcode Hjson Hvalue.
  assert (Hf : ((400 <=? status_code r) && (status_code r <? 600))%Z = false).
  { destruct (_ && _)%Z eqn:E; [|reflexivity]. apply status_in_range in E. contradiction. }
  assert (Hrun : get_images (Some key) requests_get response_json search_term tt
                 = match thumbnails (take 16 imgs) with
                   | Returned us => (Returned us, tt)
                   | Raised e => (Raised e, tt)
                   end).
  { unfold get_images. cbv [bind lift ret raise_for_status]. rewrite Hget, Hf, Hjson, Hvalue.
    cbn [first_16]. destruct (thumbnails (take 16 imgs)); reflexivity. }
  split.
  - intros us Hus. pose proof (Forall2_length _ _ _ Hus) as Hlen.
    apply thumbnails_spec in Hus. rewrite Hrun, Hus. split; [reflexivity|].
    rewrite <- Hlen, length_take. reflexivity.
  - intros e He. rewrite Hrun, He. reflexivity.
Qed.

(** [get_images_first_sixteen] on an answer with one image, and on one
    whose seventeenth element is not an image. *)
Lemma get_images_first_sixteen_witness :
  get_images (Some "key")
    (fun _ => Returned {| status_code := 200; text := ""; error_msg := "" |})
    (fun _ => Returned (JDict [("value", JList [JDict [("thumbnailUrl", JStr "https://t/1")]])]))
    "Celebrity Edge" tt
  = (Returned [JStr "https://t/1"], tt)
  /\ (get_images (Some "key")
        (fun _ => Returned {| status_code := 200; text := ""; error_msg := "" |})
        (fun _ => Returned (JDict [("value",
                    JList (replicate 16 (JDict [("thumbnailUrl", JStr "u")]) ++ [JNull])%list)]))
        "Celebrity Edge" tt).1
     = Returned (replicate 16 (JStr "u")).
Proof.
  split.
  - destruct (get_images_first_sixteen
                (fun _ => Returned {| status_code := 200; text := ""; error_msg := "" |})
                (fun _ => Returned (JDict [("value",
                            JList [JDict [("thumbnailUrl", JStr "https://t/1")]])]))
                "Celebrity Edge" "key"
                {| status_code := 200; text := ""; error_msg := "" |}
                (JDict [("value", JList [JDict [("thumbnailUrl", JStr "https://t/1")]])])
                [JDict [("thumbnailUrl", JStr "https://t/1")]]) as [_ H].
    destruct H as [Hok _]; [reflexivity | cbn; lia | reflexivity | reflexivity |].
    apply (Hok [JStr "https://t/1"]). repeat constructor.
  - destruct (get_images_first_sixteen
                (fun _ => Returned {| status_code := 200; text := ""; error_msg := "" |})
                (fun _ => Returned (JDict [("value",
                            JList (replicate 16 (JDict [("thumbnailUrl", JStr "u")])
                                     ++ [JNull])%list)]))
                "Celebrity Edge" "key"
                {| status_code := 200; text := ""; error_msg := "" |}
                (JDict [("value",
                   JList (replicate 16 (JDict [("thumbnailUrl", JStr "u")]) ++ [JNull])%list)])
                (replicate 16 (JDict [("thumbnailUrl", JStr "u")]) ++ [JNull])%list)
      as [_ H].
    destruct H as [Hok _]; [reflexivity | cbn; lia | reflexivity | reflexivity |].
    destruct (Hok (replicate 16 (JStr "u"))) as [Hrun _].
    + apply thumbnails_spec. vm_compute. reflexivity.
    + rewrite Hrun. reflexivity.
Defined.

End ImageSearch.

Section SocialSearch.

Import SearchSocial.

Lemma lstrip_chars_head (chars s : string) :
  Py.lstrip_chars chars s = ""
  \/ exists c t, Py.lstrip_chars chars s = String c t /\ Py.char_in c chars = false.
Proof.
  induction s as [|c s IH]; cbn [Py.lstrip_chars]; [left; reflexivity|].
  destruct (Py.char_in c chars) eqn:E; [exact IH | right; eauto].
Qed.

Lemma rstrip_chars_head (chars : string) (c : ascii) (t : string) :
  Py.char_in c chars = false ->
  exists t', Py.rstrip_chars chars (String c t) = String c t'.
Proof.
  intros Hc. cbn [Py.rstrip_chars]. rewrite Hc.
  destruct (Py.rstrip_chars chars t); eauto.
Qed.

Lemma rstrip_chars_last (chars s pre : string) (c : ascii) :
  Py.rstrip_chars chars s = pre ++ String c "" -> Py.char_in c chars = false.
Proof.
  revert pre. induction s as [|x s IH]; intros pre H; cbn [Py.rstrip_chars] in H.
  - destruct pre; discriminate H.
  - destruct (Py.rstrip_chars chars s) as [|y r] eqn:E.
    + destruct (Py.char_in x chars) eqn:Hx.
      * destruct pre; discriminate H.
      * destruct pre as [|p pre].
        -- injection H as <-. exact Hx.
        -- injection H as _ H. destruct pre; discriminate H.
    + destruct pre as [|p pre].
      * injection H as _ H. discriminate H.
      * injection H as _ H. apply (IH pre). exact H.
Qed.

(** [s.strip("/")] neither starts nor ends with a slash. *)
Lemma strip_slash_trimmed (s : string) :
  Py.startswith "/" (Py.strip_chars "/" s) = false
  /\ Py.endswith "/" (Py.strip_chars "/" s) = false.
Proof.
  unfold Py.strip_chars. split.
  - destruct (lstrip_chars_head "/" s) as [-> | (c & t & -> & Hc)]; [reflexivity|].
    destruct (rstrip_chars_head "/" c t Hc) as [t' ->].
    cbn in Hc. rewrite orb_false_r in Hc.
    cbn [Py.startswith]. rewrite Ascii.eqb_sym, Hc. reflexivity.
  - destruct (Py.endswith "/" _) eqn:E; [|reflexivity].
    apply endswith_spec in E as [pre E].
    apply rstrip_chars_last in E. discriminate E.
Qed.

Lemma usernames_loop_spec (divs : list (option Tag)) :
  forall (usernames : list string),
    (forall hs, hrefs_of divs = Some hs ->
       usernames_loop divs usernames tt
         = (Returned (usernames ++ map (Py.strip_chars "/") hs)%list, tt))
    /\ (hrefs_of divs = None ->
        usernames_loop divs usernames tt = (Raised (Exn "KeyError" "'href'"), tt)).
Proof.
  induction divs as [|[anchor|] rest IH]; intros usernames; cbn [usernames_loop hrefs_of].
  - split; [intros hs [= <-]; cbn; rewrite app_nil_r; reflexivity | discriminate].
  - cbv [bind]. unfold Bs4.getitem.
    destruct (tag_attrs anchor !! "href") as [href|].
    + cbv [ret]. destruct (IH (usernames ++ [Py.strip_chars "/" href])%list) as [IHok IHbad].
      split.
      * intros hs H. destruct (hrefs_of rest) as [hs'|]; [|discriminate H].
        injection H as <-. rewrite (IHok hs' eq_refl). cbn [map].
        rewrite <- app_assoc. reflexivity.
      * intros H. destruct (hrefs_of rest); [discriminate H|]. apply IHbad. reflexivity.
    + split; [discriminate | reflexivity].
  - apply IH.
Qed.

Lemma hrefs_of_length (divs : list (option Tag)) (hs : list string) :
  hrefs_of divs = Some hs -> length hs <= length divs.
Proof.
  revert hs. induction divs as [|[anchor|] rest IH]; intros hs H; cbn in H.
  - injection H as <-. reflexivity.
  - destruct (tag_attrs anchor !! "href"); [|discriminate H].
    destruct (hrefs_of rest) as [hs'|]; [|discriminate H].
    injection H as <-. cbn. specialize (IH hs' eq_refl). lia.
  - cbn. specialize (IH hs H). lia.
Qed.

(** [search_social_media] rejects every platform other than ["twitter"]
    and ["instagram"] with [ValueError] before any request is made.  For
    those two it returns, in document order, the [href] of the anchor of
    every division that has one, stripped of leading and trailing
    slashes: at most one name per division, none starting or ending with
    a slash; an anchor without [href] makes it raise [KeyError]. *)
Theorem search_social_media_usernames
    (requests_get : string -> outcome string)
    (BeautifulSoup : string -> list (option Tag))
    (platform keyword url content : string) :
  (platform <> "twitter" -> platform <> "instagram" ->
     search_social_media requests_get BeautifulSoup platform keyword tt
       = (Raised (Exn "ValueError" "Invalid social media platform"), tt))
  /\ ((platform = "twitter"
        /\ url = "https://twitter.com/search?q=" ++ keyword ++ "%20-filter:retweets")
      \/ (platform = "instagram"
        /\ url = "https://www.instagram.com/explore/tags/" ++ keyword ++ "/") ->
      requests_get url = Returned content ->
      (forall hs,
          hrefs_of (BeautifulSoup content) = Some hs ->
          search_social_media requests_get BeautifulSoup platform keyword tt
            = (Returned (map (Py.strip_chars "/") hs), tt)
          /\ length (map (Py.strip_chars "/") hs) <= length (BeautifulSoup content)
          /\ Forall (fun u => Py.startswith "/" u = false /\ Py.endswith "/" u = false)
               (map (Py.strip_chars "/") hs))
      /\ (hrefs_of (BeautifulSoup content) = None ->
          search_social_media requests_get BeautifulSoup platform keyword tt
            = (Raised (Exn "KeyError" "'href'"), tt))).
Proof.
  split.
  - intros H1 H2. unfold search_social_media. cbv [bind].
    apply String.eqb_neq in H1, H2. rewrite H1, H2. reflexivity.
  - intros Hp Hget.
    assert (Hrun : search_social_media requests_get BeautifulSoup platform keyword tt
                   = usernames_loop (BeautifulSoup content) [] tt).
    { unfold search_social_media. cbv [bind lift ret].
      destruct Hp as [[-> ->] | [-> ->]]; cbn [String.eqb]; rewrite ?String.eqb_refl;
        cbn; rewrite Hget; reflexivity. }
    destruct (usernames_loop_spec (BeautifulSoup content) []) as [Hok Hbad].
    split.
    + intros hs Hhs. rewrite Hrun, (Hok hs Hhs). split; [reflexivity|]. split.
      * rewrite length_map. apply hrefs_of_length, Hhs.
      * apply Forall_forall. intros u Hu. apply list_elem_of_fmap in Hu as (h & -> & _).
        apply strip_slash_trimmed.
    + intros Hnone. rewrite Hrun. apply Hbad, Hnone.
Qed.

(** [search_social_media_usernames] on an unknown platform and on an
    Instagram page with two profile links and an empty division. *)
Lemma search_social_media_usernames_witness :
  search_social_media (fun _ => Returned "") (fun _ => []) "facebook" "cruise" tt
    = (Raised (Exn "ValueError" "Invalid social media platform"), tt)
  /\ search_social_media (fun _ => Returned "<html>")
       (fun _ => [Some (Pages.anchor "/cruise.fan/"); None; Some (Pages.anchor "/sea_life")])
       "instagram" "cruise" tt
     = (Returned ["cruise.fan"; "sea_life"], tt).
Proof.
  split.
  - apply (proj1 (search_social_media_usernames (fun _ => Returned "") (fun _ => [])
                    "facebook" "cruise" "" "")); discriminate.
  - destruct (proj2 (search_social_media_usernames (fun _ => Returned "<html>")
                (fun _ => [Some (Pages.anchor "/cruise.fan/"); None;
                           Some (Pages.anchor "/sea_life")])
                "instagram" "cruise"
                "https://www.instagram.com/explore/tags/cruise/" "<html>"))
      as [Hok _].
    + right. split; reflexivity.
    + reflexivity.
    + destruct (Hok ["/cruise.fan/"; "/sea_life"]) as [Hrun _].
      * vm_compute. reflexivity.
      * rewrite Hrun. vm_compute. reflexivity.
Defined.

End SocialSearch.

Section CruiseListing.

Import CruiseInfo.

Lemma cruises_loop_skips (before rest : list Cruise) :
  Forall (fun x => matches x = false) before ->
  cruises_loop (before ++ rest) tt = cruises_loop rest tt.
Proof.
  induction 1 as [|x before Hx _ IH]; [reflexivity|].
  cbn [app cruises_loop]. rewrite Hx. exact IH.
Qed.

(** [get_cruise_info] answers from the first cruise, in document order,
    whose text names both the ship and the sail date: it returns the
    texts of its destination, duration and features, or raises
    [AttributeError] if one of the three is missing there, without
    looking at later cruises.  When no cruise matches it returns [None]. *)
Theorem get_cruise_info_first_match
    (requests_get : string -> outcome string)
    (BeautifulSoup : string -> list Cruise)
    (text : string) (before after : list Cruise) (c : Cruise) :
  requests_get "https://www.royalcaribbean.com/cruises/?shipCode=NV" = Returned text ->
  Forall (fun x => matches x = false) before ->
  (BeautifulSoup text = (before ++ c :: after)%list ->
   matches c = true ->
   (forall d u f,
       find_destination c = Some d -> find_duration c = Some u ->
       find_features c = Some f ->
       get_cruise_info requests_get BeautifulSoup tt
         = (Returned (Some (tag_text d, tag_text u, tag_text f)), tt))
   /\ (find_destination c = None \/ find_duration c = None \/ find_features c = None ->
       get_cruise_info requests_get BeautifulSoup tt
         = (Raised (Exn "AttributeError" "'NoneType' object has no attribute 'text'"), tt)))
  /\ (BeautifulSoup text = before ->
      get_cruise_info requests_get BeautifulSoup tt = (Returned None, tt)).
Proof.
  intros Hget Hbefore. split.
  - intros Hpage Hc.
    assert (Hrun : get_cruise_info requests_get BeautifulSoup tt
                   = cruises_loop (c :: after) tt).
    { unfold get_cruise_info. cbv [bind lift]. rewrite Hget, Hpage.
      apply cruises_loop_skips, Hbefore. }
    rewrite Hrun. cbn [cruises_loop]. rewrite Hc. cbv [bind Bs4.text_of ret raise].
    split.
    + intros d u f -> -> ->. reflexivity.
    + intros [H | [H | H]]; rewrite H.
      * reflexivity.
      * destruct (find_destination c); reflexivity.
      * destruct (find_destination c); [|reflexivity].
        destruct (find_duration c); reflexivity.
  - intros Hpage. unfold get_cruise_info. cbv [bind lift]. rewrite Hget, Hpage.
    rewrite <- (app_nil_r before). rewrite (cruises_loop_skips before [] Hbefore).
    reflexivity.
Qed.

(** [get_cruise_info_first_match] on a listing whose second cruise is the
    one looked for, and on an empty listing. *)
Lemma get_cruise_info_first_match_witness :
  get_cruise_info (fun _ => Returned "<html>") (fun _ => Pages.listing) tt
    = (Returned (Some ("Ensenada", "4 nights", "pool")), tt)
  /\ get_cruise_info (fun _ => Returned "<html>") (fun _ => []) tt
    = (Returned None, tt).
Proof.
  split.
  - destruct (get_cruise_info_first_match (fun _ => Returned "<html>")
                (fun _ => Pages.listing) "<html>"
                [{| cruise_text := "Allure of the Seas Dec. 16, 2024";
                    find_destination := None; find_duration := None;
                    find_features := None |}]
                []
                {| cruise_text := "Navigator of the Seas, sails Dec. 16, 2024";
                   find_destination := Some {| tag_text := "Ensenada"; tag_attrs := ∅ |};
                   find_duration := Some {| tag_text := "4 nights"; tag_attrs := ∅ |};
                   find_features := Some {| tag_text := "pool"; tag_attrs := ∅ |} |})
      as [Hfound _].
    + reflexivity.
    + repeat constructor.
    + destruct Hfound as [Hok _]; [reflexivity | reflexivity |].
      apply (Hok {| tag_text := "Ensenada"; tag_attrs := ∅ |}
                 {| tag_text := "4 nights"; tag_attrs := ∅ |}
                 {| tag_text := "pool"; tag_attrs := ∅ |}); reflexivity.
  - apply (proj2 (get_cruise_info_first_match (fun _ => Returned "<html>")
                    (fun _ => []) "<html>" [] []
                    {| cruise_text := ""; find_destination := None;
                       find_duration := None; find_features := None |}
                    eq_refl (List.Forall_nil _))).
    reflexivity.
Defined.

End CruiseListing.

Section GroupPromos.

Import CruiseGroups.

Lemma column_lt (i : nat) (key : string) : column i = Some key -> i < 10.
Proof.
  intros H. destruct (Nat.lt_ge_cases i 10) as [Hlt | Hge]; [exact Hlt|].
  do 10 (destruct i as [|i]; [lia|]). discriminate H.
Qed.

Lemma column_inj (i j : nat) (key : string) :
  column i = Some key -> column j = Some key -> i = j.
Proof.
  intros Hi Hj.
  pose proof (column_lt i key Hi) as Hli. pose proof (column_lt j key Hj) as Hlj.
  do 10 (destruct i as [|i]; [do 10 (destruct j as [|j]; [cbn in *; congruence|]); lia|]).
  lia.
Qed.

(** The loop from column [i] on: the cell of column [j >= i] ends up under
    its key, the others keep what they had. *)
Lemma cells_loop_lookup (tds : list string) :
  forall (i : nat) (obj : gmap string string) (j : nat) (key : string),
    column j = Some key ->
    cells_loop i tds obj !! key =
      if decide (i <= j)
      then match tds !! (j - i) with
           | Some td => Some (Py.strip td)
           | None => obj !! key
           end
      else obj !! key.
Proof.
  induction tds as [|td rest IH]; intros i obj j key Hj; cbn [cells_loop].
  - destruct (decide (i <= j)); reflexivity.
  - rewrite (IH (S i) _ j key Hj).
    destruct (decide (S i <= j)) as [Hlt | Hge].
    + destruct (decide (i <= j)) as [_ | Hn]; [|lia].
      replace (j - i) with (S (j - S i)) by lia. cbn [lookup list_lookup].
      destruct (rest !! (j - S i)); [reflexivity|].
      destruct (column i) as [ki|] eqn:Hi; [|reflexivity].
      apply lookup_insert_ne. intros ->.
      pose proof (column_inj i j key Hi Hj). lia.
    + destruct (decide (i <= j)) as [Hle | Hn].
      * assert (i = j) by lia. subst j. rewrite Nat.sub_diag. cbn [lookup list_lookup].
        rewrite Hj. apply lookup_insert_eq.
      * destruct (column i) as [ki|] eqn:Hi; [|reflexivity].
        apply lookup_insert_ne. intros ->.
        pose proof (column_inj i j key Hi Hj). lia.
Qed.

Lemma cells_loop_other (tds : list string) :
  forall (i : nat) (obj : gmap string string) (key : string),
    (forall j, column j <> Some key) ->
    cells_loop i tds obj !! key = obj !! key.
Proof.
  induction tds as [|td rest IH]; intros i obj key Hkey; cbn [cells_loop]; [reflexivity|].
  rewrite (IH (S i) _ key Hkey).
  destruct (column i) as [ki|] eqn:Hi; [|reflexivity].
  apply lookup_insert_ne. intros ->. apply (Hkey i Hi).
Qed.

Lemma rows_loop_spec (trs : list (list string)) :
  forall promos,
    rows_loop trs promos = (promos ++ map (fun tr => cells_loop 0 tr ∅) trs)%list.
Proof.
  induction trs as [|tr rest IH]; intros promos; cbn [rows_loop map].
  - rewrite app_nil_r. reflexivity.
  - rewrite IH, <- app_assoc. reflexivity.
Qed.

(** [get_current_cruise_group_promos] prints one list and returns
    nothing.  The list has one dictionary per table row, in order (none
    when the page has no booking table); in the dictionary of a row,
    column [j < 10] is stored under its key as the stripped text of the
    row's [j]-th cell, a key whose cell is missing is absent, cells from
    the eleventh on are dropped, and no other key is present. *)
Theorem group_promos_printed
    (requests_get : string -> outcome string)
    (BeautifulSoup : string -> option (list (list string)))
    (text : string) (out : list (list (gmap string string))) :
  requests_get "https://www.cbagenttools.com/groups/view_groups/" = Returned text ->
  get_current_cruise_group_promos requests_get BeautifulSoup out
    = (Returned tt,
       (out ++ [match BeautifulSoup text with
                | Some trs => map (fun tr => cells_loop 0 tr ∅) trs
                | None => []
                end])%list)
  /\ (forall tr j key,
        column j = Some key ->
        cells_loop 0 tr ∅ !! key = Py.strip <$> tr !! j)
  /\ (forall tr key,
        (forall j, column j <> Some key) -> cells_loop 0 tr ∅ !! key = None).
Proof.
  intros Hget. split; [|split].
  - unfold get_current_cruise_group_promos. cbv [bind lift modify]. rewrite Hget.
    destruct (BeautifulSoup text) as [trs|]; [|reflexivity].
    rewrite rows_loop_spec. reflexivity.
  - intros tr j key Hj. rewrite (cells_loop_lookup tr 0 ∅ j key Hj).
    destruct (decide (0 <= j)) as [_ | Hn]; [|lia].
    rewrite Nat.sub_0_r. destruct (tr !! j); reflexivity.
  - intros tr key Hkey. rewrite (cells_loop_other tr 0 ∅ key Hkey). reflexivity.
Qed.

(** [group_promos_printed] on a table with a header row and one group. *)
Lemma group_promos_printed_witness :
  (get_current_cruise_group_promos (fun _ => Returned "<html>")
     (fun _ => Some [[]; [" 7731 "; "Radiance of the Seas"]]) []).1 = Returned tt
  /\ cells_loop 0 [" 7731 "; "Radiance of the Seas"] ∅ !! "groupID" = Some "7731"
  /\ cells_loop 0 [" 7731 "; "Radiance of the Seas"] ∅ !! "price" = None.
Proof.
  destruct (group_promos_printed (fun _ => Returned "<html>")
              (fun _ => Some [[]; [" 7731 "; "Radiance of the Seas"]]) "<html>" [] eq_refl)
    as (Hrun & Hcol & _).
  split; [rewrite Hrun; reflexivity|]. split.
  - rewrite (Hcol [" 7731 "; "Radiance of the Seas"] 0 "groupID" eq_refl). reflexivity.
  - rewrite (Hcol [" 7731 "; "Radiance of the Seas"] 8 "price" eq_refl). reflexivity.
Defined.

End GroupPromos.

(** ** Image generation *)

Section ImageGeneration.

Import ImageGen.

(** [generate_image] reads ["task_id"] from the first answer before it
    looks at the status: an answer without that key raises the lookup
    error whatever its status, and nothing is printed.  With the key
    present, a status other than 200 is printed as an error and the
    result is never fetched; only a 200 leads to the fetch, whose status
    and body are printed. *)
Theorem generate_image_outcomes
    (key : option string)
    (post_imagine : option string -> outcome Answer)
    (post_fetch : json -> outcome Answer)
    (response : Answer) (response_json : json) (out : list Printed) :
  post_imagine key = Returned response ->
  answer_json response = Returned response_json ->
  (forall e,
      Json.subscript response_json (Json.KStr "task_id") = Raised e ->
      generate_image key post_imagine post_fetch out = (Raised e, out))
  /\ (forall task_id,
      Json.subscript response_json (Json.KStr "task_id") = Returned task_id ->
      (answer_status response <> 200%Z ->
         generate_image key post_imagine post_fetch out
           = (Returned tt,
              (out ++ [PrintResponseJson response_json; PrintTaskId task_id;
                       PrintError (answer_status response)])%list))
      /\ (answer_status response = 200%Z ->
          forall fetched fetched_json,
            post_fetch task_id = Returned fetched ->
            answer_json fetched = Returned fetched_json ->
            generate_image key post_imagine post_fetch out
              = (Returned tt,
                 (out ++ [PrintResponseJson response_json; PrintTaskId task_id;
                          PrintFetchStatus (answer_status fetched);
                          PrintFetchJson fetched_json])%list))).
Proof.
  intros Hpost Hjson. split.
  - intros e He. unfold generate_image. cbv [bind lift]. rewrite Hpost, Hjson, He.
    reflexivity.
  - intros task_id Hid. split.
    + intros Hstatus. unfold generate_image. cbv [bind lift print modify ret].
      rewrite Hpost, Hjson, Hid.
      destruct (Z.eqb_spec (answer_status response) 200) as [Heq | _]; [contradiction|].
      cbn [negb]. rewrite <- !app_assoc. reflexivity.
    + intros Hstatus fetched fetched_json Hfetch Hfj.
      unfold generate_image. cbv [bind lift print modify ret].
      rewrite Hpost, Hjson, Hid, Hstatus. cbn [Z.eqb Pos.eqb negb].
      rewrite Hfetch, Hfj. rewrite <- !app_assoc. reflexivity.
Qed.

(** [generate_image_outcomes] on a 401 answer without task id and on a
    402 answer that has one. *)
Lemma generate_image_outcomes_witness :
  generate_image None
    (fun _ => Returned {| answer_status := 401;
                          answer_json := Returned (JDict [("message", JStr "Invalid API key")]) |})
    (fun _ => Raised Scenario.unreachable) []
  = (Raised (Exn "KeyError" "'task_id'"), [])
  /\ generate_image (Some "k")
       (fun _ => Returned {| answer_status := 402;
                             answer_json := Returned (JDict [("task_id", JStr "t1")]) |})
       (fun _ => Raised Scenario.unreachable) []
     = (Returned tt,
        [PrintResponseJson (JDict [("task_id", JStr "t1")]); PrintTaskId (JStr "t1");
         PrintError 402]).
Proof.
  split.
  - apply (proj1 (generate_image_outcomes None
                    (fun _ => Returned {| answer_status := 401;
                                          answer_json := Returned (JDict [("message", JStr "Invalid API key")]) |})
                    (fun _ => Raised Scenario.unreachable)
                    {| answer_status := 401;
                       answer_json := Returned (JDict [("message", JStr "Invalid API key")]) |}
                    (JDict [("message", JStr "Invalid API key")]) [] eq_refl eq_refl)).
    reflexivity.
  - apply (proj1 (proj2 (generate_image_outcomes (Some "k")
                    (fun _ => Returned {| answer_status := 402;
                                          answer_json := Returned (JDict [("task_id", JStr "t1")]) |})
                    (fun _ => Raised Scenario.unreachable)
                    {| answer_status := 402;
                       answer_json := Returned (JDict [("task_id", JStr "t1")]) |}
                    (JDict [("task_id", JStr "t1")]) [] eq_refl eq_refl)
                  (JStr "t1") eq_refl)).
    discriminate.
Defined.

End ImageGeneration.

(** ** The termination predicates without [get] *)

Section LiteralPredicates.

Import Termination.

Lemma lower_append (a b : string) : Py.lower (a ++ b) = Py.lower a ++ Py.lower b.
Proof.
  induction a as [|c a IH]; [reflexivity|].
  change (String (Py.lower_char c) (Py.lower (a ++ b))
          = String (Py.lower_char c) (Py.lower a ++ Py.lower b)).
  f_equal. exact IH.
Qed.

Lemma lower_split (a b s : string) :
  Py.lower s = a ++ b ->
  exists a' b', s = a' ++ b' /\ Py.lower a' = a /\ Py.lower b' = b.
Proof.
  revert s. induction a as [|c a IH]; intros s H.
  - exists "", s. repeat split. exact H.
  - destruct s as [|c' s']; [discriminate H|].
    change (String (Py.lower_char c') (Py.lower s') = String c (a ++ b)) in H.
    injection H as Hc Hs.
    destruct (IH _ Hs) as (a' & b' & -> & Ha & Hb).
    exists (String c' a'), b'. repeat split; [|exact Hb].
    change (String (Py.lower_char c') (Py.lower a') = String c a).
    rewrite Hc, Ha. reflexivity.
Qed.

(** The predicates of [numberguess.py] and [main.py] index the message:
    a message without ["content"] makes both raise [KeyError], and a
    [None] content [TypeError] and [AttributeError].  On a string, the
    first is true exactly when the digits 53 occur anywhere in it (in 153
    or 530 as well), and the second exactly when some spelling of
    "good bye", in any mix of cases, occurs in it. *)
Theorem literal_termination_predicates (msg : gmap string value) :
  (msg !! "content" = None ->
     is_termination_msg_53 msg = Raised (Exn "KeyError" "'content'")
     /\ is_termination_msg_good_bye msg = Raised (Exn "KeyError" "'content'"))
  /\ (msg !! "content" = Some VNone ->
     (exists e, is_termination_msg_53 msg = Raised e /\ exn_class e = "TypeError")
     /\ (exists e, is_termination_msg_good_bye msg = Raised e
                   /\ exn_class e = "AttributeError"))
  /\ (forall s, msg !! "content" = Some (VStr s) ->
     (exists b, is_termination_msg_53 msg = Returned (VBool b)
                /\ (b = true <-> exists pre post, s = pre ++ "53" ++ post))
     /\ (exists b, is_termination_msg_good_bye msg = Returned (VBool b)
                   /\ (b = true <-> exists pre u post,
                                       s = pre ++ u ++ post
                                       /\ Py.lower u = "good bye"))).
Proof.
  unfold is_termination_msg_53, is_termination_msg_good_bye, content_of.
  split; [|split].
  - intros ->. split; reflexivity.
  - intros ->. split; eexists; split; reflexivity.
  - intros s ->. cbn [contained_in lower_of]. split.
    + eexists. split; [reflexivity|]. apply contains_spec.
    + eexists. split; [reflexivity|]. split.
      * intros Hb. apply contains_spec in Hb. destruct Hb as (pre & post & Hs).
        destruct (lower_split _ _ _ Hs) as (pre' & rest & -> & Hpre & Hrest).
        destruct (lower_split _ _ _ Hrest) as (u & post' & -> & Hu & _).
        exists pre', u, post'. split; [reflexivity | exact Hu].
      * intros (pre & u & post & -> & Hu). apply contains_spec.
        exists (Py.lower pre), (Py.lower post).
        rewrite !lower_append, Hu. reflexivity.
Qed.

(** [literal_termination_predicates] on the guess 153 and on a farewell
    in capitals. *)
Lemma literal_termination_predicates_witness :
  is_termination_msg_53 {[ "content" := VStr "Is it 153?" ]} = Returned (VBool true)
  /\ is_termination_msg_good_bye {[ "content" := VStr "Ha! GOOD BYE." ]}
     = Returned (VBool true)
  /\ is_termination_msg_53 {[ "role" := VStr "user" ]} = Raised (Exn "KeyError" "'content'").
Proof.
  split; [|split].
  - assert (Hx : ({[ "content" := VStr "Is it 153?" ]} : gmap string value) !! "content"
                 = Some (VStr "Is it 153?")) by (vm_compute; reflexivity).
    destruct (proj2 (proj2 (literal_termination_predicates _)) _ Hx)
      as [(b & Hrun & Hiff) _].
    rewrite Hrun. f_equal. f_equal. apply Hiff.
    exists "Is it 1", "?". reflexivity.
  - assert (Hx : ({[ "content" := VStr "Ha! GOOD BYE." ]} : gmap string value) !! "content"
                 = Some (VStr "Ha! GOOD BYE.")) by (vm_compute; reflexivity).
    destruct (proj2 (proj2 (literal_termination_predicates _)) _ Hx)
      as [_ (b & Hrun & Himp)].
    rewrite Hrun. f_equal. f_equal. apply Himp.
    exists "Ha! ", "GOOD BYE", ".". split; vm_compute; reflexivity.
  - apply (proj1 (literal_termination_predicates {[ "role" := VStr "user" ]})).
    vm_compute. reflexivity.
Defined.

End LiteralPredicates.
